(** * tds-data-analyst-agent: the analysis core ([app/analysis.py]), the
      helpers of [app/data_tools.py] ([extract_urls], the scraper and the
      chart), the scraper of [app/scraping.py] and the endpoint of
      [app/main.py], embedded and verified.

    The Python code is translated function by function.  The calls it makes
    into pandas, numpy, scipy and matplotlib are modelled by a small layer
    that follows the documented behaviour of those calls on the inputs the
    code passes; what these libraries compute numerically (the Pearson
    coefficient, the least-squares fit, the PNG bytes, the text of a float,
    pandas' number parser) is an interface, [PyLibs], every theorem
    quantifies over.  What comes from outside the process (the decoding of
    the upload, the CSV reader, the pages behind the links and the tables
    [pd.read_html] finds in them) is a second interface, [Web].

    Text is modelled by [string]; a character stands for the Unicode code
    point of the same number (U+0000 to U+00FF).  Python floats are the
    binary64 numbers of [PrimFloat]; not-a-number is pandas' missing value. *)

From Stdlib Require Import Bool Arith ZArith List Ascii String Lia.
From Stdlib Require Import Floats Sorted Permutation DecimalString.
From Stdlib.Strings Require Import Byte.
Import ListNotations.

Open Scope string_scope.
Open Scope list_scope.
Open Scope nat_scope.

(** * Text: the [str] methods and the two regular expressions in use *)

Definition code (c : ascii) : nat := nat_of_ascii c.

(** [\d] of [re] on [str] patterns: the decimal digits. *)
Definition is_digit (c : ascii) : bool :=
  (48 <=? code c) && (code c <=? 57).

(** [str.isspace] on one character, which is also the set [str.strip]
    removes and [\s] matches. *)
Definition is_space (c : ascii) : bool :=
  let n := code c in
  ((9 <=? n) && (n <=? 13)) || ((28 <=? n) && (n <=? 32))
  || (n =? 133) || (n =? 160).

(** The line boundaries of [str.splitlines]. *)
Definition is_linebreak (c : ascii) : bool :=
  let n := code c in
  ((10 <=? n) && (n <=? 13)) || ((28 <=? n) && (n <=? 30)) || (n =? 133).

Definition lower_char (c : ascii) : ascii :=
  let n := code c in
  if ((65 <=? n) && (n <=? 90))
     || ((192 <=? n) && (n <=? 222) && negb (n =? 215))
  then ascii_of_nat (n + 32) else c.

(** [s.lower()] *)
Fixpoint lower (s : string) : string :=
  match s with
  | EmptyString => EmptyString
  | String c s' => String (lower_char c) (lower s')
  end.

Fixpoint lstrip (s : string) : string :=
  match s with
  | EmptyString => EmptyString
  | String c s' => if is_space c then lstrip s' else s
  end.

Fixpoint rstrip (s : string) : string :=
  match s with
  | EmptyString => EmptyString
  | String c s' =>
      match rstrip s' with
      | EmptyString => if is_space c then EmptyString else String c EmptyString
      | r => String c r
      end
  end.

(** [s.strip()] *)
Definition strip (s : string) : string := rstrip (lstrip s).

(** [s.splitlines()]: a carriage return followed by a line feed is one
    boundary, and no empty line is reported after the last boundary. *)
Fixpoint splitlines (s : string) : list string :=
  match s with
  | EmptyString => []
  | String c s' =>
      if is_linebreak c then
        match s' with
        | String c' s'' =>
            if (code c =? 13) && (code c' =? 10)
            then EmptyString :: splitlines s''
            else EmptyString :: splitlines s'
        | EmptyString => [EmptyString]
        end
      else
        match splitlines s' with
        | [] => [String c EmptyString]
        | l :: ls => String c l :: ls
        end
  end.

Fixpoint startswith (p s : string) : bool :=
  match p, s with
  | EmptyString, _ => true
  | String a p', String b s' => Ascii.eqb a b && startswith p' s'
  | String _ _, EmptyString => false
  end.

(** [needle in hay] on strings *)
Fixpoint isin (needle hay : string) : bool :=
  startswith needle hay
  || match hay with
     | EmptyString => false
     | String _ hay' => isin needle hay'
     end.

(** [re.match(r'^\d+\.\s*', s)] as a truth value: one digit or more, then a
    dot; the trailing [\s*] accepts every continuation.  [seen] records that
    a digit has been read. *)
Fixpoint enum_marker (seen : bool) (s : string) : bool :=
  match s with
  | EmptyString => false
  | String c s' =>
      if is_digit c then enum_marker true s'
      else seen && Ascii.eqb c "."
  end.

Definition re_match_enum (s : string) : bool := enum_marker false s.

Fixpoint filter_chars (keep : ascii -> bool) (s : string) : string :=
  match s with
  | EmptyString => EmptyString
  | String c s' =>
      if keep c then String c (filter_chars keep s') else filter_chars keep s'
  end.

(** [re.sub(r"[^\d.,]", "", s)] *)
Definition re_sub_non_numeric (s : string) : string :=
  filter_chars (fun c => is_digit c || Ascii.eqb c "." || Ascii.eqb c ",") s.

(** [s.replace(",", "")] *)
Definition remove_commas (s : string) : string :=
  filter_chars (fun c => negb (Ascii.eqb c ",")) s.

(** ** Question segmentation (analysis.py, lines 56 to 60) *)

Definition segment_questions (question_str : string) : list string :=
  let questions :=
    map strip
      (filter (fun line => re_match_enum (strip line))
              (splitlines question_str)) in
  match questions with
  | [] => if negb (String.eqb (strip question_str) "")
          then [strip question_str] else questions
  | _ => questions
  end.

(** * Numbers: Python's [float] *)

(** The binary64 number nearest to [n / d] (ties to even), for [0 <= n] and
    [0 < d]: the quotient is taken with more than 64 significant bits, a
    sticky bit records an inexact division, and [binary_normalize] rounds. *)
Definition float_of_ratio (n d : Z) : float :=
  if (n =? 0)%Z then 0%float
  else
    let s := (66 + Z.log2 d - Z.log2 n)%Z in
    let num := if (0 <=? s)%Z then (n * 2 ^ s)%Z else n in
    let den := if (0 <=? s)%Z then d else (d * 2 ^ (- s))%Z in
    let sticky := if (num mod den =? 0)%Z then 0%Z else 1%Z in
    SF2Prim (binary_normalize prec emax (2 * (num / den) + sticky) (- s - 1) false).

(** [float(z)] for a Python [int] *)
Definition float_of_Z (z : Z) : float :=
  if (z <? 0)%Z then (- float_of_ratio (- z) 1)%float else float_of_ratio z 1.

Definition digit_value (c : ascii) : Z := Z.of_nat (code c - 48).

Fixpoint all_digits (s : string) : bool :=
  match s with
  | EmptyString => true
  | String c s' => is_digit c && all_digits s'
  end.

(** The value of a run of decimal digits, [acc] being the value read so far. *)
Fixpoint digits_value (acc : Z) (s : string) : Z :=
  match s with
  | EmptyString => acc
  | String c s' => digits_value (10 * acc + digit_value c) s'
  end.

(** Cuts [s] at its first dot: the text before it and, when there is a dot,
    the text after it. *)
Fixpoint cut_at_dot (s : string) : string * option string :=
  match s with
  | EmptyString => (EmptyString, None)
  | String c s' =>
      if Ascii.eqb c "." then (EmptyString, Some s')
      else let (a, b) := cut_at_dot s' in (String c a, b)
  end.

(** [float(s)] on the texts [parse_gross] hands it, which are made of digits
    and dots: [None] is the [ValueError] Python raises, which happens when
    there is no digit or a second dot.  A text with another character never
    reaches this function (lemma [cleaned_alphabet]). *)
Definition py_float (s : string) : option float :=
  let (a, rest) := cut_at_dot s in
  let b := match rest with Some b => b | None => EmptyString end in
  if all_digits a && all_digits b
     && negb (String.eqb a EmptyString && String.eqb b EmptyString)
  then Some (float_of_ratio (digits_value (digits_value 0 a) b)
                            (10 ^ Z.of_nat (String.length b)))
  else None.

(** The integer nearest to [n / d], ties to even ([0 <= n], [0 < d]). *)
Definition round_half_even (n d : Z) : Z :=
  let q := (n / d)%Z in
  let r := (2 * (n mod d))%Z in
  if (r <? d)%Z then q
  else if (d <? r)%Z then (q + 1)%Z
  else if Z.even q then q else (q + 1)%Z.

(** [round(x, ndigits)] for a float and [0 <= ndigits]: the exact value of
    [x] is rounded to a multiple of [10 ^ - ndigits], ties to even, and the
    decimal obtained is read back as a float; not-a-number, the infinities
    and the zeros are returned as they are. *)
Definition py_round (x : float) (ndigits : Z) : float :=
  match Prim2SF x with
  | S754_finite sgn m e =>
      let p := (10 ^ ndigits)%Z in
      let num := if (0 <=? e)%Z then (Zpos m * p * 2 ^ e)%Z else (Zpos m * p)%Z in
      let den := if (0 <=? e)%Z then 1%Z else (2 ^ (- e))%Z in
      let r := float_of_ratio (round_half_even num den) p in
      if sgn then (- r)%float else r
  | _ => x
  end.

(** * Python values, outcomes and the library interface *)

(** A cell of a table: a [str], an [int] or a [float] ([nan] is the missing
    value). *)
Inductive pyval :=
| PStr (s : string)
| PInt (z : Z)
| PFloat (f : float).

Inductive exn := TypeError | ValueError | KeyError.

(** What a call yields: a value, an exception, or [Unmodelled] when the run
    leaves the part of pandas described here (a repeated label met by an
    answerer, text cells where numbers are compared or drawn). *)
Inductive outcome (A : Type) :=
| Ok (a : A)
| Raise (e : exn)
| Unmodelled.
Arguments Ok {A} a.
Arguments Raise {A} e.
Arguments Unmodelled {A}.

Definition obind {A B} (o : outcome A) (k : A -> outcome B) : outcome B :=
  match o with
  | Ok a => k a
  | Raise e => Raise e
  | Unmodelled => Unmodelled
  end.

Notation "x <~ c1 ;; c2" := (obind c1 (fun x => c2))
  (at level 100, c1 at next level, right associativity).

Fixpoint omap {A B} (f : A -> outcome B) (l : list A) : outcome (list B) :=
  match l with
  | [] => Ok []
  | x :: l' => y <~ f x ;; ys <~ omap f l' ;; Ok (y :: ys)
  end.

(** What is drawn on the axes of a figure. *)
Inductive artist :=
| Scatter (xs ys : list float) (label : string)
| Line (xs ys : list float) (fmt label : string).

Record figure := {
  fig_size : nat * nat;
  fig_artists : list artist;
  fig_xlabel : string;
  fig_ylabel : string;
  fig_legend : bool;
  fig_tight : bool
}.

(** The numerical services of the libraries.  The code only passes their
    results on, so they stay abstract. *)
Class PyLibs := {
  (** [str(x)] for a float that is a number *)
  float_repr : float -> string;
  (** the parser of [pd.to_numeric(errors="coerce")] on a text cell, [nan]
      when it rejects the text *)
  to_numeric_text : string -> float;
  (** [numpy.corrcoef(a, b)[0, 1]], which [Series.corr] returns *)
  corrcoef : list float -> list float -> float;
  (** slope and intercept [scipy.stats.linregress] computes on data it
      accepts *)
  least_squares : list float -> list float -> float * float;
  (** [numpy.polyfit(x, y, 1)]; [None] when the call raises *)
  polyfit1 : list float -> list float -> option (float * float);
  (** the PNG bytes [plt.savefig] writes for a figure *)
  savefig_png : figure -> list Byte.byte;
  (** the exception [plt.tight_layout()] raises while it lays the figure
      out (the tick locators raise on some data), [None] when it
      returns *)
  tight_layout_error : figure -> option exn;
  (** the exception [plt.savefig(..., bbox_inches="tight")] raises while
      it draws the figure, [None] when it writes the image *)
  savefig_error : figure -> option exn
}.

(** [str(x)] *)
Definition py_str `{PyLibs} (x : pyval) : string :=
  match x with
  | PStr s => s
  | PInt z => NilZero.string_of_int (Z.to_int z)
  | PFloat f => if PrimFloat.is_nan f then "nan" else float_repr f
  end.

(** [pd.notna] on a cell *)
Definition notna (x : pyval) : bool :=
  match x with
  | PFloat f => negb (PrimFloat.is_nan f)
  | _ => true
  end.

(** The number a numeric cell holds. *)
Definition as_float (x : pyval) : option float :=
  match x with
  | PStr _ => None
  | PInt z => Some (float_of_Z z)
  | PFloat f => Some f
  end.

Definition is_number (x : pyval) : bool :=
  match x with PStr _ => false | _ => true end.

Definition is_int (x : pyval) : bool :=
  match x with PInt _ => true | _ => false end.

Definition is_text (x : pyval) : bool :=
  match x with PStr _ => true | _ => false end.

Definition int_of (x : pyval) : Z :=
  match x with PInt z => z | _ => 0%Z end.

(** The dtype of a column.  A table is read as pandas builds it from its
    cells: a column of integers is [int64], a column of numbers one of
    which is a float is [float64], any other column is [object]. *)
Inductive dtype := Int64 | Float64 | Object.

Definition series_dtype (s : list pyval) : dtype :=
  if forallb is_int s then Int64
  else if forallb is_number s then Float64
  else Object.

(** The value a cell has under a dtype: under [float64] an integer is the
    float of the same value. *)
Definition cast (t : dtype) (x : pyval) : pyval :=
  match t, x with
  | Float64, PInt z => PFloat (float_of_Z z)
  | _, _ => x
  end.

(** [base64.b64encode] *)
Definition b64_alphabet : list ascii :=
  list_ascii_of_string
    "ABCDEFGHIJKLMNOPQRSTUVWXYZabcdefghijklmnopqrstuvwxyz0123456789+/".

Definition b64_char (n : N) : ascii := nth (N.to_nat n) b64_alphabet "="%char.

Fixpoint b64encode (bs : list Byte.byte) : string :=
  match bs with
  | [] => EmptyString
  | [a] =>
      let x := Byte.to_N a in
      String (b64_char (x / 4))
        (String (b64_char (x mod 4 * 16)) "==")
  | [a; b] =>
      let x := Byte.to_N a in
      let y := Byte.to_N b in
      String (b64_char (x / 4))
        (String (b64_char (x mod 4 * 16 + y / 16))
           (String (b64_char (y mod 16 * 4)) "="))
  | a :: b :: c :: rest =>
      let x := Byte.to_N a in
      let y := Byte.to_N b in
      let z := Byte.to_N c in
      String (b64_char (x / 4))
        (String (b64_char (x mod 4 * 16 + y / 16))
           (String (b64_char (y mod 16 * 4 + z / 64))
              (String (b64_char (z mod 64)) (b64encode rest))))
  end.

(** * Tables: the part of pandas the code uses *)

Definition Series := list pyval.

(** A [DataFrame]: the length of its index and its labelled columns, in
    order.  Labels may repeat, as pandas allows. *)
Record DataFrame := {
  nrows : nat;
  columns : list (string * Series)
}.

(** [df.columns] *)
Definition labels (d : DataFrame) : list string := map fst (columns d).

(** Every column has one cell per row. *)
Definition wf (d : DataFrame) : Prop :=
  Forall (fun col => List.length (snd col) = nrows d) (columns d).

(** [df.empty]: an axis of length 0 *)
Definition df_empty (d : DataFrame) : bool :=
  (nrows d =? 0) || (List.length (columns d) =? 0).

Definition mem (c : string) (cs : list string) : bool :=
  existsb (String.eqb c) cs.

(** [set(keys).issubset(cols)] *)
Definition issubset (keys cols : list string) : bool :=
  forallb (fun k => mem k cols) keys.

(** The columns labelled [c], in order: what [df[c]] is made of. *)
Definition df_getitem (d : DataFrame) (c : string) : list Series :=
  map snd (filter (fun col => String.eqb (fst col) c) (columns d)).

(** [df[c]] where the code goes on with a Series: present once. *)
Definition column (d : DataFrame) (c : string) : outcome Series :=
  match df_getitem d c with
  | [s] => Ok s
  | [] => Raise KeyError
  | _ => Unmodelled
  end.

(** [df[c] = s]: every column labelled [c] takes the new cells; a new
    label is appended. *)
Definition df_setitem (d : DataFrame) (c : string) (s : Series) : DataFrame :=
  {| nrows := nrows d;
     columns :=
       if mem c (labels d)
       then map (fun col => if String.eqb (fst col) c then (fst col, s) else col)
                (columns d)
       else columns d ++ [(c, s)] |}.

(** [df.columns = names] *)
Definition df_set_columns (d : DataFrame) (names : list string) : DataFrame :=
  {| nrows := nrows d; columns := combine names (map snd (columns d)) |}.

(** [df.rename(columns={old: new})] *)
Definition df_rename (d : DataFrame) (old new : string) : DataFrame :=
  {| nrows := nrows d;
     columns := map (fun col => if String.eqb (fst col) old
                                then (new, snd col) else col) (columns d) |}.

(** [df[[k1, k2, ...]]] *)
Definition df_select (d : DataFrame) (keys : list string) : DataFrame :=
  {| nrows := nrows d;
     columns := flat_map (fun k => map (pair k) (df_getitem d k)) keys |}.

(** Comparison of a Series with a float, cell by cell; a text cell makes
    Python raise [TypeError]. *)
Definition series_cmp (test : float -> bool) (s : Series) : outcome (list bool) :=
  omap (fun x => match as_float x with
                 | Some f => Ok (test f)
                 | None => Raise TypeError
                 end) s.

(** [m1 & m2] *)
Fixpoint mask_and (m1 m2 : list bool) : list bool :=
  match m1, m2 with
  | a :: m1', b :: m2' => (a && b) :: mask_and m1' m2'
  | _, _ => []
  end.

Fixpoint mask_filter {A} (m : list bool) (xs : list A) : list A :=
  match m, xs with
  | b :: m', x :: xs' =>
      if b then x :: mask_filter m' xs' else mask_filter m' xs'
  | _, _ => []
  end.

(** [df[mask]] *)
Definition bool_index (d : DataFrame) (m : list bool) : DataFrame :=
  {| nrows := List.length (filter (fun b => b) m);
     columns := map (fun col => (fst col, mask_filter m (snd col))) (columns d) |}.

(** [df.dropna(subset=[c])] *)
Definition dropna_subset (d : DataFrame) (c : string) : outcome DataFrame :=
  s <~ column d c ;;
  Ok (bool_index d (map notna s)).

(** The rows without a missing cell. *)
Definition complete_rows (d : DataFrame) : list bool :=
  fold_right (fun col m => mask_and (map notna (snd col)) m)
             (repeat true (nrows d)) (columns d).

(** [df.dropna()] *)
Definition dropna (d : DataFrame) : DataFrame :=
  bool_index d (complete_rows d).

Definition floats_of (s : Series) : outcome (list float) :=
  omap (fun x => match as_float x with
                 | Some f => Ok f
                 | None => Unmodelled
                 end) s.

Fixpoint insert_by {A} (le : A -> A -> bool) (x : A) (l : list A) : list A :=
  match l with
  | [] => [x]
  | y :: l' => if le x y then x :: l else y :: insert_by le x l'
  end.

(** A stable sort: an element is inserted in front of the elements, later
    in the input, that are not smaller. *)
Definition stable_sort {A} (le : A -> A -> bool) (l : list A) : list A :=
  fold_right (insert_by le) [] l.

Definition key_le (a b : float * nat) : bool := (fst a <=? fst b)%float.

(** The positions of [keys] in ascending order of key, equal keys in their
    order of appearance, the missing keys last. *)
Definition argsort (keys : list float) : list nat :=
  let indexed := combine keys (seq 0 (List.length keys)) in
  map snd (stable_sort key_le
             (filter (fun a => negb (PrimFloat.is_nan (fst a))) indexed))
  ++ map snd (filter (fun a => PrimFloat.is_nan (fst a)) indexed).

Definition int_key_le (a b : Z * nat) : bool := (fst a <=? fst b)%Z.

(** The same for integer keys, which are compared exactly. *)
Definition argsort_int (keys : list Z) : list nat :=
  map snd (stable_sort int_key_le (combine keys (seq 0 (List.length keys)))).

Definition take (order : list nat) (s : Series) : Series :=
  map (fun i => nth i s (PFloat nan)) order.

(** [df.sort_values(by, kind="mergesort")], [t] being the dtype of the
    column [by]: an [int64] column is sorted on its integers, a [float64]
    column on its floats. *)
Definition sort_values (t : dtype) (d : DataFrame) (by_ : string)
  : outcome DataFrame :=
  s <~ column d by_ ;;
  order <~ match t with
           | Int64 => Ok (argsort_int (map int_of s))
           | _ => keys <~ floats_of s ;; Ok (argsort keys)
           end ;;
  Ok {| nrows := nrows d;
        columns := map (fun col => (fst col, take order (snd col))) (columns d) |}.

(** The dtype of a row [df.iloc[i]], the common dtype of the columns:
    [object] as soon as one column is, [int64] when every column is, and
    [float64] for numbers of both kinds.  [pd.to_numeric] gives [int64] or
    [float64] and the cells it wrote are floats here, so a float under
    [Year], [Rank] or [Peak] does not settle the matter: when the other
    columns are all [int64] the dtype of the row is not described. *)
Definition row_dtype (d : DataFrame) : option dtype :=
  let dtypes := map (fun col => series_dtype (snd col)) (columns d) in
  if existsb (fun t => match t with Object => true | _ => false end) dtypes
  then Some Object
  else if forallb (fun t => match t with Int64 => true | _ => false end) dtypes
  then Some Int64
  else if existsb (fun col => negb (mem (fst col) ["Year"; "Rank"; "Peak"])
                              && match series_dtype (snd col) with
                                 | Float64 => true
                                 | _ => false
                                 end) (columns d)
  then Some Float64
  else None.

Definition fmin (a b : float) : float := if (b <? a)%float then b else a.
Definition fmax (a b : float) : float := if (a <? b)%float then b else a.

(** [s.min()] and [s.max()] on a Series without missing value; [nan] on
    an empty one. *)
Definition series_min (xs : list float) : float :=
  match xs with [] => nan | x :: xs' => fold_left fmin xs' x end.
Definition series_max (xs : list float) : float :=
  match xs with [] => nan | x :: xs' => fold_left fmax xs' x end.

(** [scipy.stats.linregress(x, y)]: empty data and data whose [x] values
    are all the same are refused with [ValueError]. *)
Definition linregress `{PyLibs} (x y : list float) : outcome (float * float) :=
  if (List.length x =? 0) || (List.length y =? 0) then Raise ValueError
  else if (series_max x =? series_min x)%float && (1 <? List.length x)
  then Raise ValueError
  else Ok (least_squares x y).

(** * The store: tables and open figures *)

Definition loc := nat.

Record world := {
  heap : list DataFrame;
  figures : list figure   (* pyplot's open figures, the current one first *)
}.

Definition M (A : Type) : Type := world -> outcome A * world.

Definition ret {A} (a : A) : M A := fun w => (Ok a, w).

Definition bind {A B} (m : M A) (k : A -> M B) : M B :=
  fun w =>
    match m w with
    | (Ok a, w') => k a w'
    | (Raise e, w') => (Raise e, w')
    | (Unmodelled, w') => (Unmodelled, w')
    end.

Notation "x <- c1 ;; c2" := (bind c1 (fun x => c2))
  (at level 100, c1 at next level, right associativity).
Notation "c1 ;;; c2" := (bind c1 (fun _ => c2))
  (at level 100, right associativity).

Definition lift {A} (o : outcome A) : M A := fun w => (o, w).

Definition raise {A} (e : exn) : M A := lift (Raise e).

(** [try: body except Exception: pass] *)
Definition try_pass (body : M unit) : M unit :=
  fun w =>
    match body w with
    | (Raise _, w') => (Ok tt, w')
    | r => r
    end.

Fixpoint for_each {A B} (f : A -> M B) (l : list A) : M (list B) :=
  match l with
  | [] => ret []
  | x :: l' => y <- f x ;; ys <- for_each f l' ;; ret (y :: ys)
  end.

Definition deref (l : loc) : M DataFrame :=
  fun w =>
    match nth_error (heap w) l with
    | Some d => (Ok d, w)
    | None => (Unmodelled, w)
    end.

Definition alloc (d : DataFrame) : M loc :=
  fun w =>
    (Ok (List.length (heap w)),
     {| heap := heap w ++ [d]; figures := figures w |}).

Fixpoint list_set {A} (l : list A) (i : nat) (x : A) : list A :=
  match l, i with
  | [], _ => []
  | _ :: l', 0 => x :: l'
  | y :: l', S i' => y :: list_set l' i' x
  end.

(** In-place update of the table at [l]. *)
Definition mutate (l : loc) (f : DataFrame -> DataFrame) : M unit :=
  fun w =>
    match nth_error (heap w) l with
    | Some d => (Ok tt, {| heap := list_set (heap w) l (f d); figures := figures w |})
    | None => (Unmodelled, w)
    end.

Definition with_figure (f : figure -> figure) : M unit :=
  fun w =>
    match figures w with
    | fig :: rest => (Ok tt, {| heap := heap w; figures := f fig :: rest |})
    | [] => (Unmodelled, w)
    end.

(** [fig, ax = plt.subplots(figsize=size)] *)
Definition plt_subplots (size : nat * nat) : M unit :=
  fun w =>
    (Ok tt,
     {| heap := heap w;
        figures := {| fig_size := size; fig_artists := []; fig_xlabel := "";
                      fig_ylabel := ""; fig_legend := false; fig_tight := false |}
                   :: figures w |}).

Definition add_artist (a : artist) (fig : figure) : figure :=
  {| fig_size := fig_size fig; fig_artists := fig_artists fig ++ [a];
     fig_xlabel := fig_xlabel fig; fig_ylabel := fig_ylabel fig;
     fig_legend := fig_legend fig; fig_tight := fig_tight fig |}.

(** [ax.scatter(x, y, label=label)] *)
Definition ax_scatter (x y : list float) (label : string) : M unit :=
  with_figure (add_artist (Scatter x y label)).

(** [ax.plot(x, y, fmt, label=label)] *)
Definition ax_plot (x y : list float) (fmt label : string) : M unit :=
  with_figure (add_artist (Line x y fmt label)).

Definition ax_set_xlabel (s : string) : M unit :=
  with_figure (fun fig =>
    {| fig_size := fig_size fig; fig_artists := fig_artists fig;
       fig_xlabel := s; fig_ylabel := fig_ylabel fig;
       fig_legend := fig_legend fig; fig_tight := fig_tight fig |}).

Definition ax_set_ylabel (s : string) : M unit :=
  with_figure (fun fig =>
    {| fig_size := fig_size fig; fig_artists := fig_artists fig;
       fig_xlabel := fig_xlabel fig; fig_ylabel := s;
       fig_legend := fig_legend fig; fig_tight := fig_tight fig |}).

Definition ax_legend : M unit :=
  with_figure (fun fig =>
    {| fig_size := fig_size fig; fig_artists := fig_artists fig;
       fig_xlabel := fig_xlabel fig; fig_ylabel := fig_ylabel fig;
       fig_legend := true; fig_tight := fig_tight fig |}).

Definition laid_out (fig : figure) : figure :=
  {| fig_size := fig_size fig; fig_artists := fig_artists fig;
     fig_xlabel := fig_xlabel fig; fig_ylabel := fig_ylabel fig;
     fig_legend := fig_legend fig; fig_tight := true |}.

(** [plt.tight_layout()] on the current figure.  The layout is computed
    with a renderer, ticks included, and an exception raised there leaves
    the call. *)
Definition plt_tight_layout `{PyLibs} : M unit :=
  fun w =>
    match figures w with
    | fig :: rest =>
        match tight_layout_error fig with
        | Some e => (Raise e, w)
        | None => (Ok tt, {| heap := heap w; figures := laid_out fig :: rest |})
        end
    | [] => (Unmodelled, w)
    end.

(** [plt.savefig(buf, format="png", bbox_inches="tight")] followed by
    [buf.seek(0); buf.read()]: the bytes of the current figure, unless the
    drawing raises. *)
Definition plt_savefig `{PyLibs} : M (list Byte.byte) :=
  fun w =>
    match figures w with
    | fig :: _ =>
        match savefig_error fig with
        | Some e => (Raise e, w)
        | None => (Ok (savefig_png fig), w)
        end
    | [] => (Unmodelled, w)
    end.

(** [plt.close(fig)], [fig] being the figure opened last. *)
Definition plt_close : M unit :=
  fun w =>
    match figures w with
    | _ :: rest => (Ok tt, {| heap := heap w; figures := rest |})
    | [] => (Unmodelled, w)
    end.

(** * analysis.py *)

(** ** [_normalize_df] *)

Definition gross_aliases : list string :=
  ["Gross"; "Worldwide gross"; "Worldwide Gross"; "Worldwide box office"].

(** The inner function [parse_gross] *)
Definition parse_gross `{PyLibs} (x : pyval) : pyval :=
  let s := py_str x in
  let s := re_sub_non_numeric s in
  let s := remove_commas s in
  match py_float s with
  | None => PFloat nan
  | Some val => PFloat (val / 1e9)%float
  end.

(** [pd.to_numeric(errors="coerce")] on one cell *)
Definition to_numeric `{PyLibs} (x : pyval) : pyval :=
  match x with
  | PStr s => PFloat (to_numeric_text s)
  | _ => x
  end.

(** [out["GrossNum"] = out["Gross"].apply(parse_gross)].  With [Gross]
    repeated, [out["Gross"]] is a table, [apply] returns one value per
    column and the assignment fails to align it with the rows. *)
Definition assign_gross_num `{PyLibs} (out : loc) : M unit :=
  d <- deref out ;;
  match df_getitem d "Gross" with
  | [] => raise KeyError
  | [g] => mutate out (fun d => df_setitem d "GrossNum" (map parse_gross g))
  | _ => raise ValueError
  end.

(** [out[c] = pd.to_numeric(out[c], errors="coerce")].  With [c] repeated,
    [out[c]] is a table, which [pd.to_numeric] refuses. *)
Definition assign_to_numeric `{PyLibs} (out : loc) (c : string) : M unit :=
  d <- deref out ;;
  match df_getitem d c with
  | [] => raise KeyError
  | [s] => mutate out (fun d => df_setitem d c (map to_numeric s))
  | _ => raise TypeError
  end.

Definition _normalize_df `{PyLibs} (df : option loc) : M (option loc) :=
  match df with
  | None => ret None
  | Some l =>
      d <- deref l ;;
      if df_empty d then ret None
      else
        out <- alloc d ;;
        mutate out (fun o => df_set_columns o (map strip (labels o))) ;;;
        o <- deref out ;;
        let gross_col := find (fun c => mem c (labels o)) gross_aliases in
        out <- match gross_col with
               | Some g =>
                   if negb (mem "Gross" (labels o))
                   then alloc (df_rename o g "Gross")
                   else ret out
               | None => ret out
               end ;;
        o <- deref out ;;
        (if mem "Gross" (labels o) then assign_gross_num out else ret tt) ;;;
        for_each (fun c =>
                    o <- deref out ;;
                    if mem c (labels o) then assign_to_numeric out c else ret tt)
                 ["Year"; "Rank"; "Peak"] ;;;
        ret (Some out)
  end.

(** ** [answer_questions] *)

Inductive answer :=
| AInt (n : Z)
| AStr (s : string)
| AFloat (f : float).

Inductive rule :=
| CountBeforeYear
| EarliestAboveThreshold
| Correlation
| Plot
| Unrecognized.

(** The conditions of the [if]/[elif] chain, in order. *)
Definition matched_rule (q : string) : rule :=
  let q_lower := lower q in
  if isin "how many" q_lower && isin "$2 bn" q_lower && isin "before 2000" q_lower
  then CountBeforeYear
  else if isin "earliest film" q_lower && isin "1.5 bn" q_lower
  then EarliestAboveThreshold
  else if isin "correlation" q_lower && isin "rank" q_lower && isin "peak" q_lower
  then Correlation
  else if isin "scatterplot" q_lower && isin "rank" q_lower && isin "peak" q_lower
  then Plot
  else Unrecognized.

(** Question type 1 *)
Definition count_answer (ndf : option DataFrame) : outcome answer :=
  match ndf with
  | None => Ok (AInt 0)
  | Some d =>
      if negb (issubset ["GrossNum"; "Year"] (labels d)) then Ok (AInt 0)
      else
        gross <~ column d "GrossNum" ;;
        m1 <~ series_cmp (fun x => 2 <=? x)%float gross ;;
        year <~ column d "Year" ;;
        m2 <~ series_cmp (fun x => x <? 2000)%float year ;;
        Ok (AInt (Z.of_nat (nrows (bool_index d (mask_and m1 m2)))))
  end.

(** Question type 2.  [sorted.iloc[0]] is a row: its cells are cast to the
    dtype of the row before [str] is taken of the [Title]. *)
Definition earliest_answer `{PyLibs} (ndf : option DataFrame) : outcome answer :=
  match ndf with
  | None => Ok (AStr "")
  | Some d =>
      if negb (issubset ["GrossNum"; "Year"] (labels d))
         || negb (mem "Title" (labels d))
      then Ok (AStr "")
      else
        gross <~ column d "GrossNum" ;;
        m <~ series_cmp (fun x => 1.5 <? x)%float gross ;;
        filtered <~ dropna_subset (bool_index d m) "Year" ;;
        if df_empty filtered then Ok (AStr "")
        else
          year <~ column d "Year" ;;
          sorted <~ sort_values (series_dtype year) filtered "Year" ;;
          titles <~ column sorted "Title" ;;
          title <~ column d "Title" ;;
          match titles, row_dtype d with
          | earliest :: _, Some t =>
              Ok (AStr (py_str (cast t (cast (series_dtype title) earliest))))
          | _, _ => Unmodelled
          end
  end.

(** Question type 3 *)
Definition correlation_answer `{PyLibs} (ndf : option DataFrame) : outcome answer :=
  match ndf with
  | None => Ok (AFloat 0)
  | Some d =>
      if negb (issubset ["Rank"; "Peak"] (labels d)) then Ok (AFloat 0)
      else
        let sub := dropna (df_select d ["Rank"; "Peak"]) in
        if df_empty sub then Ok (AFloat 0)
        else
          rank <~ column sub "Rank" ;;
          rank <~ floats_of rank ;;
          peak <~ column sub "Peak" ;;
          peak <~ floats_of peak ;;
          let corr := corrcoef rank peak in
          Ok (AFloat (py_round (if negb (PrimFloat.is_nan corr) then corr else 0%float) 6))
  end.

Definition data_uri_prefix : string := "data:image/png;base64,".

(** Lines 131 to 133: [if len(data_uri) > 100_000: data_uri = data_uri[:100_000]] *)
Definition clip_uri (data_uri : string) : string :=
  if (100000 <? Z.of_nat (String.length data_uri))%Z
  then substring 0 (Z.to_nat 100000) data_uri
  else data_uri.

(** Question type 4 *)
Definition plot_answer `{PyLibs} (ndf : option DataFrame) : M answer :=
  match ndf with
  | None => ret (AStr "")
  | Some d =>
      if negb (issubset ["Rank"; "Peak"] (labels d)) then ret (AStr "")
      else
        let sub := dropna (df_select d ["Rank"; "Peak"]) in
        if df_empty sub then ret (AStr "")
        else
          rank <- lift (rank <~ column sub "Rank" ;; floats_of rank) ;;
          peak <- lift (peak <~ column sub "Peak" ;; floats_of peak) ;;
          plt_subplots (6, 4) ;;;
          ax_scatter rank peak "Data points" ;;;
          fit <- lift (linregress rank peak) ;;
          let slope := fst fit in
          let intercept := snd fit in
          let x_vals := [series_min rank; series_max rank] in
          let y_vals := map (fun x => intercept + slope * x)%float x_vals in
          ax_plot x_vals y_vals "r--" "Regression line" ;;;
          ax_set_xlabel "Rank" ;;;
          ax_set_ylabel "Peak" ;;;
          ax_legend ;;;
          plt_tight_layout ;;;
          png <- plt_savefig ;;
          plt_close ;;;
          let data_uri := (data_uri_prefix ++ b64encode png)%string in
          ret (AStr (clip_uri data_uri))
  end.

Definition sentinel : string := "Question not recognized or data missing".

(** The body of the loop: one question, one answer. *)
Definition answer_one `{PyLibs} (ndf : option DataFrame) (q : string) : M answer :=
  match matched_rule q with
  | CountBeforeYear => lift (count_answer ndf)
  | EarliestAboveThreshold => lift (earliest_answer ndf)
  | Correlation => lift (correlation_answer ndf)
  | Plot => plot_answer ndf
  | Unrecognized => ret (AStr sentinel)
  end.

Definition deref_opt (l : option loc) : M (option DataFrame) :=
  match l with
  | None => ret None
  | Some l => d <- deref l ;; ret (Some d)
  end.

Definition answer_questions `{PyLibs} (question_str : string) (df : option loc)
  : M (list answer) :=
  let questions := segment_questions question_str in
  ndf <- _normalize_df df ;;
  ndf <- deref_opt ndf ;;
  for_each (answer_one ndf) questions.

(** * data_tools.py: [plot_rank_vs_peak] *)

Definition dropna_series (s : Series) : Series := filter notna s.

Definition plot_rank_vs_peak `{PyLibs} (df : DataFrame) : M string :=
  if negb (issubset ["Rank"; "Peak"] (labels df)) then ret ""
  else
    plt_subplots (8, 6) ;;;
    rank <- lift (r <~ column df "Rank" ;; floats_of r) ;;
    peak <- lift (p <~ column df "Peak" ;; floats_of p) ;;
    ax_scatter rank peak "Data points" ;;;
    try_pass (
      x <- lift (r <~ column df "Rank" ;; floats_of (dropna_series r)) ;;
      y <- lift (p <~ column df "Peak" ;; floats_of (dropna_series p)) ;;
      match polyfit1 x y with
      | None => raise ValueError
      | Some (m, b) =>
          let xs := [series_min x; series_max x] in
          ax_plot xs (map (fun v => m * v + b)%float xs) "r--" "Trend"
      end) ;;;
    ax_set_xlabel "Rank" ;;;
    ax_set_ylabel "Peak" ;;;
    ax_legend ;;;
    png <- plt_savefig ;;
    plt_close ;;;
    ret (data_uri_prefix ++ b64encode png)%string.

(** * data_tools.py: [extract_urls] *)

(** The longest prefix without white space and what follows it: the greedy
    [[^\s]+] of the pattern. *)
Fixpoint span_nonspace (s : string) : string * string :=
  match s with
  | EmptyString => (EmptyString, EmptyString)
  | String c s' =>
      if is_space c then (EmptyString, s)
      else let (u, r) := span_nonspace s' in (String c u, r)
  end.

(** What follows the literal [p] at the start of [s]. *)
Fixpoint strip_prefix (p s : string) : option string :=
  match p, s with
  | EmptyString, _ => Some s
  | String a p', String b s' =>
      if Ascii.eqb a b then strip_prefix p' s' else None
  | String _ _, EmptyString => None
  end.

(** The text [://[^\s]+] matches at the start of [r], behind [scheme]. *)
Definition url_body (scheme r : string) : option string :=
  match strip_prefix "://" r with
  | Some r' =>
      match fst (span_nonspace r') with
      | EmptyString => None
      | body => Some (scheme ++ "://" ++ body)%string
      end
  | None => None
  end.

(** The match of [https?://[^\s]+] at the start of [s]: the optional [s]
    is tried first, then left out. *)
Definition url_at (s : string) : option string :=
  match strip_prefix "http" s with
  | None => None
  | Some r =>
      match (match strip_prefix "s" r with
             | Some r' => url_body "https" r'
             | None => None
             end) with
      | Some u => Some u
      | None => url_body "http" r
      end
  end.

(** [re.findall] with this pattern: the matches from left to right, the
    search going on behind each match.  [skip] counts the characters of
    the last match still to pass. *)
Fixpoint findall_urls (skip : nat) (s : string) : list string :=
  match s with
  | EmptyString => []
  | String c s' =>
      match skip with
      | S k => findall_urls k s'
      | 0 =>
          match url_at s with
          | Some u => u :: findall_urls (String.length u - 1) s'
          | None => findall_urls 0 s'
          end
      end
  end.

(** [re.findall(r'https?://[^\s]+', text or "")] *)
Definition extract_urls (text : option string) : list string :=
  findall_urls 0 (match text with Some t => t | None => EmptyString end).

(** * scraping.py and main.py: the table the endpoint answers on *)

(** An uploaded file: [f.filename], which may be missing, and the bytes
    [f.read()] gives. *)
Record upload := {
  filename : option string;
  content : list Byte.byte
}.

(** What the endpoint gets from outside. *)
Class Web := {
  (** [bytes.decode("utf-8", errors="ignore")] *)
  decode_utf8 : list Byte.byte -> string;
  (** [pd.read_csv(io.BytesIO(content))]; [None] when it raises *)
  read_csv : list Byte.byte -> option DataFrame;
  (** the text of the page behind a URL; [None] when the request raises or
      the status is an error *)
  http_get : string -> option string;
  (** the first [table] element whose class contains [wikitable], as
      text *)
  find_wikitable : string -> option string;
  (** [pd.read_html] *)
  read_html : string -> outcome (list DataFrame)
}.

(** [s.endswith(suffix)] *)
Definition endswith (suffix s : string) : bool :=
  let n := String.length s in
  let m := String.length suffix in
  (m <=? n) && String.eqb (substring (n - m) m s) suffix.

Module scraping.

(** Lines 47 to 52: the labels are trimmed, and [Film] becomes [Title]
    when there is no [Title]. *)
Definition clean_columns (first : DataFrame) : DataFrame :=
  let df := df_set_columns first (map strip (labels first)) in
  if mem "Film" (labels df) && negb (mem "Title" (labels df))
  then df_rename df "Film" "Title"
  else df.

Definition scrape_wikipedia_table `{Web} (url : string)
  : outcome (option DataFrame) :=
  match http_get url with
  | None => Ok None
  | Some page =>
      match find_wikitable page with
      | None => Ok None
      | Some table =>
          match read_html table with
          | Raise ValueError => Ok None
          | Raise e => Raise e
          | Unmodelled => Unmodelled
          | Ok [] => Ok None
          | Ok (first :: _) => Ok (Some (clean_columns first))
          end
      end
  end.

End scraping.

(** [d[k] = v] on a [dict], which keeps the order of insertion: a key
    already there keeps its place. *)
Fixpoint dict_set {V} (d : list (string * V)) (k : string) (v : V)
  : list (string * V) :=
  match d with
  | [] => [(k, v)]
  | (k', v') :: d' =>
      if String.eqb k' k then (k', v) :: d' else (k', v') :: dict_set d' k v
  end.

(** Step 2 of [analyze_data]: the uploads whose name ends in [.csv], read
    into [dataframes]; a file that fails is skipped. *)
Definition load_csv `{Web} (dataframes : list (string * DataFrame)) (f : upload)
  : list (string * DataFrame) :=
  match filename f with
  | None => dataframes
  | Some name =>
      if endswith ".csv" (lower name) then
        match read_csv (content f) with
        | Some df => dict_set dataframes name df
        | None => dataframes
        end
      else dataframes
  end.

Definition load_csvs `{Web} (files : option (list upload))
  : list (string * DataFrame) :=
  match files with
  | Some fs => fold_left load_csv fs []
  | None => []
  end.

(** Step 4: the first successful scrape among the URLs that mention
    [wikipedia.org]. *)
Fixpoint first_wiki_table `{Web} (urls : list string)
  : outcome (option DataFrame) :=
  match urls with
  | [] => Ok None
  | url :: rest =>
      if isin "wikipedia.org" url then
        wiki_df <~ scraping.scrape_wikipedia_table url ;;
        match wiki_df with
        | Some d => Ok (Some d)
        | None => first_wiki_table rest
        end
      else first_wiki_table rest
  end.

(** Step 5: [wiki_df if wiki_df is not None else
    next(iter(dataframes.values()), None)] *)
Definition df_to_use (wiki_df : option DataFrame)
           (dataframes : list (string * DataFrame)) : option DataFrame :=
  match wiki_df with
  | Some d => Some d
  | None =>
      match dataframes with
      | (_, d) :: _ => Some d
      | [] => None
      end
  end.

(** [JSONResponse(content=answers)] renders with [allow_nan=False]: a
    float that is not finite is refused with [ValueError]. *)
Definition json_compliant (a : answer) : bool :=
  match a with
  | AFloat x => PrimFloat.is_finite x
  | _ => true
  end.

Definition json_response (answers : list answer) : outcome (list answer) :=
  if forallb json_compliant answers then Ok answers else Raise ValueError.

(** The endpoint.  The table chosen enters the store and is passed by
    reference. *)
Definition analyze_data `{PyLibs} `{Web} (questions : list Byte.byte)
           (files : option (list upload)) : M (list answer) :=
  let question_str := strip (decode_utf8 questions) in
  let dataframes := load_csvs files in
  let urls := extract_urls (Some question_str) in
  wiki_df <- lift (first_wiki_table urls) ;;
  df <- match df_to_use wiki_df dataframes with
        | Some d => l <- alloc d ;; ret (Some l)
        | None => ret None
        end ;;
  answers <- answer_questions question_str df ;;
  lift (json_response answers).

(** * data_tools.py: [scrape_wikipedia_table] *)

Module data_tools.

Definition worldwide_aliases : list string :=
  ["Worldwide gross"; "Worldwide Gross"; "Gross"; "Worldwide box office"].

(** Lines 61 to 67: [colmap] *)
Definition colmap (cols : list string) : list (string * string) :=
  (if mem "Film" cols && negb (mem "Title" cols)
   then [("Film", "Title")] else [])
  ++ match find (fun g => mem g cols) worldwide_aliases with
     | Some g => [(g, "Worldwide gross")]
     | None => []
     end.

Fixpoint dict_get (m : list (string * string)) (k : string) : option string :=
  match m with
  | [] => None
  | (k', v) :: m' => if String.eqb k' k then Some v else dict_get m' k
  end.

(** [df.rename(columns=colmap)] *)
Definition df_rename_columns (d : DataFrame) (m : list (string * string))
  : DataFrame :=
  {| nrows := nrows d;
     columns := map (fun col => match dict_get m (fst col) with
                                | Some new => (new, snd col)
                                | None => col
                                end) (columns d) |}.

(** [.astype(str).str.replace(r"[^\d.]", "", regex=True)] on one cell *)
Definition digits_and_dots `{PyLibs} (x : pyval) : pyval :=
  PStr (filter_chars (fun c => is_digit c || Ascii.eqb c ".") (py_str x)).

(** [df[c] = pd.to_numeric(df[c], errors="coerce")] *)
Definition to_numeric_column `{PyLibs} (df : DataFrame) (c : string)
  : outcome DataFrame :=
  match df_getitem df c with
  | [] => Raise KeyError
  | [s] => Ok (df_setitem df c (map to_numeric s))
  | _ => Raise TypeError
  end.

(** Lines 71 to 77.  With the label repeated, [df["Worldwide gross"]] is a
    table, which has no [.str]. *)
Definition clean_gross `{PyLibs} (df : DataFrame) : outcome DataFrame :=
  if mem "Worldwide gross" (labels df) then
    df <~ match df_getitem df "Worldwide gross" with
          | [g] => Ok (df_setitem df "Worldwide gross" (map digits_and_dots g))
          | _ => Unmodelled
          end ;;
    to_numeric_column df "Worldwide gross"
  else Ok df.

(** Lines 80 to 82 *)
Fixpoint clean_numbers `{PyLibs} (cols : list string) (df : DataFrame)
  : outcome DataFrame :=
  match cols with
  | [] => Ok df
  | col :: rest =>
      df <~ (if mem col (labels df) then to_numeric_column df col else Ok df) ;;
      clean_numbers rest df
  end.

Definition scrape_wikipedia_table `{PyLibs} `{Web} (url : string)
  : outcome (option DataFrame) :=
  match http_get url with
  | None => Ok None
  | Some page =>
      match find_wikitable page with
      | None => Ok None
      | Some table =>
          dfs <~ read_html table ;;
          match dfs with
          | [] => Ok None
          | first :: _ =>
              let df := df_set_columns first (map strip (labels first)) in
              let df := df_rename_columns df (colmap (labels df)) in
              df <~ clean_gross df ;;
              df <~ clean_numbers ["Year"; "Peak"; "Rank"] df ;;
              Ok (Some df)
          end
      end
  end.

End data_tools.

(** * A sample library, to run the code on examples *)

Definition fsum (xs : list float) : float := fold_left PrimFloat.add xs 0%float.

Definition fmean (xs : list float) : float :=
  (fsum xs / float_of_Z (Z.of_nat (List.length xs)))%float.

Fixpoint fdot (xs ys : list float) : float :=
  match xs, ys with
  | x :: xs', y :: ys' => (x * y + fdot xs' ys')%float
  | _, _ => 0%float
  end.

Definition centred (xs : list float) : list float :=
  let m := fmean xs in map (fun x => x - m)%float xs.

(** The steps of [numpy.corrcoef] on two rows, sums taken in order. *)
Definition sample_corrcoef (a b : list float) : float :=
  let fact := (1 / float_of_Z (Z.of_nat (List.length a) - 1))%float in
  let da := centred a in
  let db := centred b in
  let caa := (fdot da da * fact)%float in
  let cbb := (fdot db db * fact)%float in
  let cab := (fdot da db * fact)%float in
  let r := (cab / PrimFloat.sqrt caa / PrimFloat.sqrt cbb)%float in
  if (r <? -1)%float then (-1)%float else if (1 <? r)%float then 1%float else r.

(** Slope and intercept as [linregress] derives them from the covariances. *)
Definition sample_least_squares (x y : list float) : float * float :=
  let dx := centred x in
  let dy := centred y in
  let slope := (fdot dx dy / fdot dx dx)%float in
  (slope, (fmean y - slope * fmean x)%float).

Definition pad6 (s : string) : string :=
  (substring 0 (6 - String.length s) "000000" ++ s)%string.

(** A float in fixed notation with six decimals. *)
Definition sample_float_repr (f : float) : string :=
  match Prim2SF f with
  | S754_finite sgn m e =>
      let num := if (0 <=? e)%Z then (Zpos m * 1000000 * 2 ^ e)%Z
                 else (Zpos m * 1000000)%Z in
      let den := if (0 <=? e)%Z then 1%Z else (2 ^ (- e))%Z in
      let k := round_half_even num den in
      ((if sgn then "-" else "")
       ++ NilZero.string_of_int (Z.to_int (k / 1000000)) ++ "."
       ++ pad6 (NilZero.string_of_int (Z.to_int (k mod 1000000))))%string
  | S754_zero sgn => if sgn then "-0.0" else "0.0"
  | S754_infinity sgn => if sgn then "-inf" else "inf"
  | S754_nan => "nan"
  end.

(** Plain decimals, with an optional minus sign. *)
Definition sample_to_numeric_text (s : string) : float :=
  match strip s with
  | String "-" t =>
      match py_float t with Some f => (- f)%float | None => nan end
  | t => match py_float t with Some f => f | None => nan end
  end.

Definition png_signature : list Byte.byte :=
  [Byte.x89; Byte.x50; Byte.x4e; Byte.x47; Byte.x0d; Byte.x0a; Byte.x1a; Byte.x0a].

(** A stand-in for the renderer: the PNG signature and a payload whose size
    grows with the surface of the figure and the number of its artists. *)
Definition sample_savefig (fig : figure) : list Byte.byte :=
  png_signature
  ++ repeat Byte.x00 (fst (fig_size fig) * snd (fig_size fig)
                      * List.length (fig_artists fig)).

(** The stand-in refuses a figure in which the extent of some data
    overflows, as the tick locators of the renderer do. *)
Definition finite_extent (xs : list float) : bool :=
  negb (PrimFloat.is_infinity (series_max xs - series_min xs)%float).

Definition drawable (a : artist) : bool :=
  match a with
  | Scatter xs ys _ => finite_extent xs && finite_extent ys
  | Line xs ys _ _ => finite_extent xs && finite_extent ys
  end.

Definition sample_draw_error (fig : figure) : option exn :=
  if forallb drawable (fig_artists fig) then None else Some ValueError.

Definition sample_libs : PyLibs :=
  {| float_repr := sample_float_repr;
     to_numeric_text := sample_to_numeric_text;
     corrcoef := sample_corrcoef;
     least_squares := sample_least_squares;
     polyfit1 := fun x y =>
       if (List.length x =? List.length y) && negb (List.length x =? 0)
       then Some (sample_least_squares x y) else None;
     savefig_png := sample_savefig;
     tight_layout_error := sample_draw_error;
     savefig_error := sample_draw_error |}.

(** A scraped table of films. *)
Definition films : DataFrame :=
  {| nrows := 3;
     columns :=
       [ ("Rank", [PInt 1; PInt 2; PInt 3]);
         ("Peak", [PInt 1; PInt 2; PInt 3]);
         (" Title", [PStr "Avatar"; PStr "Titanic"; PStr "Jaws"]);
         ("Worldwide gross", [PStr "$2,923,706,026"; PStr "$2,257,844,554"; PStr "n/a"]);
         ("Year ", [PStr "2009"; PStr "1997"; PStr "1975"]) ] |}.

Definition films_world : world := {| heap := [films]; figures := [] |}.

(** * Specification-side definitions *)

(** [kw] occurs in [q] up to letter case: some stretch of [q] reads [kw]
    once lowered. *)
Definition contains_ci (q kw : string) : Prop :=
  exists pre mid post, q = (pre ++ mid ++ post)%string /\ lower mid = kw.

(** The rules of the dispatcher as the specification lists them: a rule and
    the phrases it requires, in priority order. *)
Definition rule_table : list (rule * list string) :=
  [ (CountBeforeYear, ["how many"; "$2 bn"; "before 2000"]);
    (EarliestAboveThreshold, ["earliest film"; "1.5 bn"]);
    (Correlation, ["correlation"; "rank"; "peak"]);
    (Plot, ["scatterplot"; "rank"; "peak"]) ].

Definition rule_applies (q : string) (r : rule * list string) : bool :=
  forallb (fun kw => isin kw (lower q)) (snd r).

(** First rule of the table that applies, the sentinel rule otherwise. *)
Definition first_match (table : list (rule * list string)) (q : string) : rule :=
  match find (rule_applies q) table with
  | Some r => fst r
  | None => Unrecognized
  end.

(** A text that starts with one digit or more followed by a dot. *)
Definition enumerated (s : string) : Prop :=
  exists ds rest,
    ds <> EmptyString /\ all_digits ds = true /\ s = (ds ++ "." ++ rest)%string.

Fixpoint forall_chars (p : ascii -> bool) (s : string) : bool :=
  match s with
  | EmptyString => true
  | String c s' => p c && forall_chars p s'
  end.

(** The number in a numeric cell, [nan] for a text. *)
Definition cell_float (x : pyval) : float :=
  match as_float x with Some f => f | None => nan end.

Fixpoint nodupb (l : list string) : bool :=
  match l with
  | [] => true
  | x :: l' => negb (mem x l') && nodupb l'
  end.

Definition numeric_labels : list string := ["GrossNum"; "Year"; "Rank"; "Peak"].

(** A canonical table: one cell per row in every column, no label twice,
    and numbers (possibly missing) under [GrossNum], [Year], [Rank] and
    [Peak]. *)
Definition canonicalb (d : DataFrame) : bool :=
  forallb (fun col => List.length (snd col) =? nrows d) (columns d)
  && nodupb (labels d)
  && forallb (fun col => negb (mem (fst col) numeric_labels)
                         || forallb is_number (snd col)) (columns d).

Definition canonical (d : DataFrame) : Prop := canonicalb d = true.

(** Two elements neither of which is before the other. *)
Definition tied {A} (le : A -> A -> bool) (z y : A) : bool := le z y && le y z.

(** A row of the Earliest-Above-Threshold answerer: the cells under
    [GrossNum], [Year] and [Title]. *)
Definition film : Type := pyval * (pyval * pyval).

Definition film_gross (r : film) : pyval := fst r.
Definition film_year (r : film) : pyval := fst (snd r).
Definition film_title (r : film) : pyval := snd (snd r).

Definition films_of (gross year title : Series) : list film :=
  combine gross (combine year title).

Definition above_threshold (r : film) : bool :=
  (1.5 <? cell_float (film_gross r))%float.

Definition year_present (r : film) : bool := notna (film_year r).

(** The order of the sort: exact on the integers of an [int64] column, the
    order of the floats otherwise. *)
Definition year_le (t : dtype) (a b : film) : bool :=
  match t with
  | Int64 => (int_of (film_year a) <=? int_of (film_year b))%Z
  | _ => (cell_float (film_year a) <=? cell_float (film_year b))%float
  end.

(** A row of the Correlation answerer and of the Plot Renderer: the cells
    under [Rank] and [Peak]. *)
Definition pair_complete (p : pyval * pyval) : bool :=
  notna (fst p) && notna (snd p).

(** The steps of [_normalize_df] on the value of the table. *)
Definition trimmed (d : DataFrame) : DataFrame :=
  df_set_columns d (map strip (labels d)).

Definition aliased (o : DataFrame) : DataFrame :=
  match find (fun c => mem c (labels o)) gross_aliases with
  | Some g => if negb (mem "Gross" (labels o)) then df_rename o g "Gross" else o
  | None => o
  end.

Definition with_gross_num `{PyLibs} (o : DataFrame) : outcome DataFrame :=
  if mem "Gross" (labels o) then
    match df_getitem o "Gross" with
    | [] => Raise KeyError
    | [g] => Ok (df_setitem o "GrossNum" (map parse_gross g))
    | _ => Raise ValueError
    end
  else Ok o.

Definition with_numeric `{PyLibs} (c : string) (o : DataFrame) : outcome DataFrame :=
  if mem c (labels o) then
    match df_getitem o c with
    | [] => Raise KeyError
    | [s] => Ok (df_setitem o c (map to_numeric s))
    | _ => Raise TypeError
    end
  else Ok o.

(** The derivation of [GrossNum] in the words of the specification: keep
    the digits, dots and commas of the text of the cell, drop the commas,
    read a float and divide it by 1e9; a text that is not a float gives the
    missing value. *)
Definition gross_num_of_text (text : string) : float :=
  let kept := filter_chars (fun c => is_digit c || Ascii.eqb c "." || Ascii.eqb c ",") text in
  let digits := filter_chars (fun c => negb (Ascii.eqb c ",")) kept in
  match py_float digits with
  | Some v => (v / 1000000000)%float
  | None => nan
  end.

(** The figure of the Plot Renderer once the points are drawn. *)
Definition scatter_figure (size : nat * nat) (xs ys : list float) : figure :=
  {| fig_size := size;
     fig_artists := [Scatter xs ys "Data points"];
     fig_xlabel := ""; fig_ylabel := "";
     fig_legend := false; fig_tight := false |}.

(** The figure [answer_questions] saves: the points and the fitted line
    between the smallest and the largest [Rank]. *)
Definition regression_figure (xs ys : list float) (fit : float * float) : figure :=
  let x_vals := [series_min xs; series_max xs] in
  {| fig_size := (6, 4);
     fig_artists :=
       [Scatter xs ys "Data points";
        Line x_vals (map (fun x => snd fit + fst fit * x)%float x_vals)
             "r--" "Regression line"];
     fig_xlabel := "Rank"; fig_ylabel := "Peak";
     fig_legend := true; fig_tight := true |}.

(** The same figure before [plt.tight_layout()]. *)
Definition regression_drawing (xs ys : list float) (fit : float * float) : figure :=
  let x_vals := [series_min xs; series_max xs] in
  {| fig_size := (6, 4);
     fig_artists :=
       [Scatter xs ys "Data points";
        Line x_vals (map (fun x => snd fit + fst fit * x)%float x_vals)
             "r--" "Regression line"];
     fig_xlabel := "Rank"; fig_ylabel := "Peak";
     fig_legend := true; fig_tight := false |}.

(** The figure [plot_rank_vs_peak] saves, with the trend line when there is
    one. *)
Definition trend_figure (xs ys : list float) (line : list artist) : figure :=
  {| fig_size := (8, 6);
     fig_artists := Scatter xs ys "Data points" :: line;
     fig_xlabel := "Rank"; fig_ylabel := "Peak";
     fig_legend := true; fig_tight := false |}.

Definition rank_peak_table (rank peak : Series) : DataFrame :=
  {| nrows := List.length rank;
     columns := [("Rank", rank); ("Peak", peak)] |}.

(** Ranks 1, 2, 3 with the same peaks. *)
Definition ranks123 : DataFrame :=
  rank_peak_table [PInt 1; PInt 2; PInt 3] [PInt 1; PInt 2; PInt 3].

(** Two films with the same rank. *)
Definition tied_ranks : DataFrame :=
  rank_peak_table [PInt 3; PInt 3] [PInt 1; PInt 2].

(** Two ranks whose difference is beyond the largest float. *)
Definition wide_ranks : DataFrame :=
  rank_peak_table [PFloat 0x1p1023; PFloat (-0x1p1023)] [PFloat 1; PFloat 2].

Definition no_figure (h : list DataFrame) : world :=
  {| heap := h; figures := [] |}.

(** The image answer of the sample library for [ranks123]. *)
Definition ranks123_uri : string :=
  Eval vm_compute in
    match fst (@plot_answer sample_libs (Some ranks123) (no_figure [])) with
    | Ok (AStr s) => s
    | _ => EmptyString
    end.

(** A table in which no row has both a rank and a peak. *)
Definition no_complete_row : DataFrame :=
  rank_peak_table [PFloat 1; PFloat nan] [PFloat nan; PFloat 2].

(** The end of [_normalize_df], from the derivation of [GrossNum] on,
    [out] being the table under construction. *)
Definition normalize_tail `{PyLibs} (out : loc) : M (option loc) :=
  o <- deref out ;;
  (if mem "Gross" (labels o) then assign_gross_num out else ret tt) ;;;
  for_each (fun c =>
              o <- deref out ;;
              if mem c (labels o) then assign_to_numeric out c else ret tt)
           ["Year"; "Rank"; "Peak"] ;;;
  ret (Some out).

Definition numeric_steps `{PyLibs} (o : DataFrame) : outcome DataFrame :=
  o <~ with_gross_num o ;;
  o <~ with_numeric "Year" o ;;
  o <~ with_numeric "Rank" o ;;
  with_numeric "Peak" o.

(** The table [_normalize_df] returns for a table that is not empty. *)
Definition normalized `{PyLibs} (d : DataFrame) : outcome DataFrame :=
  numeric_steps (aliased (trimmed d)).

(** A table with two rows and no column, as [pd.DataFrame(index=[0, 1])]. *)
Definition no_columns : DataFrame := {| nrows := 2; columns := [] |}.

(** A table whose [GrossNum] is text, and which has no gross column. *)
Definition text_gross_num : DataFrame :=
  {| nrows := 1;
     columns := [("GrossNum", [PStr "n/a"]); ("Title", [PStr "A"])] |}.

(** Every label is trimmed. *)
Definition stripped (o : DataFrame) : Prop :=
  Forall (fun l => strip l = l) (labels o).

(** The alias of the gross column has been settled: [Gross] is a label, or
    no alias is. *)
Definition alias_settled (o : DataFrame) : Prop :=
  mem "Gross" (labels o) = true
  \/ forall c, In c gross_aliases -> mem c (labels o) = false.

(** The world after [_normalize_df] has run on [films] with the sample
    library. *)
Definition films_normalized : world :=
  Eval vm_compute in snd (@_normalize_df sample_libs (Some 0) films_world).

(** The effect of an assignment under [c] on one column. *)
Definition replace_cells (c : string) (s : Series) (col : string * Series)
  : string * Series :=
  if String.eqb (fst col) c then (fst col, s) else col.

(** What a step keeps: the number of rows, the labels being trimmed, the
    alias being settled, the table not being empty. *)
Definition kept_by_step (o o' : DataFrame) : Prop :=
  nrows o' = nrows o
  /\ (stripped o -> stripped o')
  /\ (alias_settled o -> alias_settled o')
  /\ (df_empty o = false -> df_empty o' = false).

(** The example of the specification: A (1.6, 2001) and B (2.0, 1998). *)
Definition two_films : DataFrame :=
  {| nrows := 2;
     columns :=
       [ ("Title", [PStr "A"; PStr "B"]);
         ("GrossNum", [PFloat (16 / 10); PFloat 2]);
         ("Year", [PFloat 2001; PFloat 1998]) ] |}.

(** A row of the Count-Before-Year answerer: the cells under [GrossNum]
    and [Year]. *)
Definition counted (p : pyval * pyval) : bool :=
  ((2 <=? cell_float (fst p)) && (cell_float (snd p) <? 2000))%float.

(** The answer each rule gives when there is no table. *)
Definition null_answer (q : string) : answer :=
  match matched_rule q with
  | CountBeforeYear => AInt 0
  | EarliestAboveThreshold => AStr ""
  | Correlation => AFloat 0
  | Plot => AStr ""
  | Unrecognized => AStr sentinel
  end.

(** The table of the count example of the specification. *)
Definition three_grosses : DataFrame :=
  {| nrows := 3;
     columns := [("GrossNum", [PFloat (21 / 10); PFloat (19 / 10); PFloat (25 / 10)]);
                 ("Year", [PFloat 1997; PFloat 1998; PFloat 2005])] |}.

(** ** URLs, uploads and a sample outside world *)

Definition nonspace (c : ascii) : bool := negb (is_space c).

(** A URL as the pattern sees it: [http] or [https], [://], and one
    character or more, none of them white space. *)
Definition is_url (u : string) : Prop :=
  exists scheme body,
    (scheme = "http" \/ scheme = "https")
    /\ body <> EmptyString
    /\ forall_chars nonspace body = true
    /\ u = (scheme ++ "://" ++ body)%string.

(** White space or the end of the text. *)
Definition at_boundary (s : string) : Prop :=
  match s with
  | EmptyString => True
  | String c _ => is_space c = true
  end.


(** An upload the endpoint tries to read: it has a name, and the name ends
    in [.csv], whatever the case. *)
Definition csv_named (f : upload) : bool :=
  match filename f with
  | Some name => endswith ".csv" (lower name)
  | None => false
  end.

(** An upload that enters [dataframes]. *)
Definition loadable `{Web} (f : upload) : bool :=
  csv_named f
  && match read_csv (content f) with Some _ => true | None => false end.

Definition named (name : string) (f : upload) : bool :=
  match filename f with
  | Some n => String.eqb name n
  | None => false
  end.

(** The sample outside world: a page with a table of films, a page whose
    table cannot be read, and one CSV file. *)
Definition films_url : string :=
  "https://en.wikipedia.org/wiki/List_of_highest-grossing_films".

Definition broken_url : string := "https://en.wikipedia.org/wiki/Broken".

Definition films_page_table : DataFrame :=
  {| nrows := 2;
     columns :=
       [ ("Rank", [PInt 1; PInt 2]);
         (" Film ", [PStr "Avatar"; PStr "Titanic"]);
         ("Year", [PStr "2009"; PStr "1997"]) ] |}.

Definition newline : string := String "010"%char EmptyString.

Definition ranks123_csv : string :=
  "Rank,Peak" ++ newline ++ "1,1" ++ newline ++ "2,2" ++ newline
  ++ "3,3" ++ newline.

Definition sample_read_csv (bs : list Byte.byte) : option DataFrame :=
  if String.eqb (string_of_list_byte bs) ranks123_csv
  then Some ranks123 else None.

Definition sample_web : Web :=
  {| decode_utf8 := string_of_list_byte;
     read_csv := sample_read_csv;
     http_get := fun url =>
       if String.eqb url films_url then Some "films page"
       else if String.eqb url broken_url then Some "broken page"
       else None;
     find_wikitable := fun page =>
       if String.eqb page "films page" then Some "films table"
       else if String.eqb page "broken page" then Some "broken table"
       else None;
     read_html := fun table =>
       if String.eqb table "films table" then Ok [films_page_table]
       else Raise ValueError |}.

(** The same files without a network. *)
Definition offline_web : Web :=
  {| decode_utf8 := string_of_list_byte;
     read_csv := sample_read_csv;
     http_get := fun _ => None;
     find_wikitable := fun _ => None;
     read_html := fun _ => Raise ValueError |}.

Definition ranks_upload (name : string) : upload :=
  {| filename := Some name; content := list_byte_of_string ranks123_csv |}.

(** * Facts about text *)

Lemma startswith_iff p s :
  startswith p s = true <-> exists t, s = (p ++ t)%string.
Proof.
  revert s. induction p as [|a p IH]; intros s; simpl.
  - split; [intros _; now exists s | reflexivity].
  - destruct s as [|b s].
    + split; [discriminate | intros [t Ht]; discriminate].
    + rewrite andb_true_iff, Ascii.eqb_eq, IH. split.
      * intros [-> [t ->]]. now exists t.
      * intros [t Ht]. injection Ht as -> ->. split; [reflexivity | now exists t].
Qed.

Lemma isin_iff needle hay :
  isin needle hay = true <->
  exists pre post, hay = (pre ++ needle ++ post)%string.
Proof.
  induction hay as [|c hay IH].
  - simpl. rewrite orb_false_r, startswith_iff. split.
    + intros [t Ht]. now exists EmptyString, t.
    + intros [pre [post H]]. destruct pre; [now exists post | discriminate].
  - cbn [isin]. rewrite orb_true_iff, startswith_iff, IH. split.
    + intros [[t Ht] | [pre [post H]]].
      * now exists EmptyString, t.
      * exists (String c pre), post. simpl. now rewrite H.
    + intros [pre [post H]]. destruct pre as [|a pre].
      * left. now exists post.
      * right. simpl in H. injection H as _ H. now exists pre, post.
Qed.

Lemma lower_app a b : lower (a ++ b) = (lower a ++ lower b)%string.
Proof. induction a as [|c a IH]; simpl; [reflexivity | now rewrite IH]. Qed.

Lemma lower_split q : forall a b,
  lower q = (a ++ b)%string ->
  exists a' b', q = (a' ++ b')%string /\ lower a' = a /\ lower b' = b.
Proof.
  induction q as [|c q IH]; intros a b H.
  - destruct a; [|discriminate]. simpl in H. subst b.
    now exists EmptyString, EmptyString.
  - destruct a as [|x a].
    + exists EmptyString, (String c q). simpl in *. now rewrite H.
    + simpl in H. injection H as Hx H.
      destruct (IH _ _ H) as [a' [b' [-> [Ha Hb]]]].
      exists (String c a'), b'. simpl. now rewrite Hx, Ha.
Qed.

(** The test the code performs, [kw in q.lower()], is the occurrence of
    [kw] in [q] up to letter case. *)
Lemma isin_lower_iff q kw :
  isin kw (lower q) = true <-> contains_ci q kw.
Proof.
  rewrite isin_iff. unfold contains_ci. split.
  - intros [pre [post H]].
    destruct (lower_split _ _ _ H) as [p' [r' [-> [Hp Hr]]]].
    destruct (lower_split _ _ _ Hr) as [m' [t' [-> [Hm Ht]]]].
    now exists p', m', t'.
  - intros [pre [mid [post [-> Hm]]]].
    exists (lower pre), (lower post).
    now rewrite !lower_app, Hm.
Qed.

Lemma enum_marker_iff s : forall seen,
  enum_marker seen s = true <->
  exists ds rest, (seen = true \/ ds <> EmptyString) /\ all_digits ds = true
                  /\ s = (ds ++ "." ++ rest)%string.
Proof.
  induction s as [|c s IH]; intros seen; simpl.
  - split; [discriminate |].
    intros [ds [rest [_ [_ H]]]]. destruct ds; discriminate.
  - destruct (is_digit c) eqn:Hc.
    + rewrite IH. split.
      * intros [ds [rest [_ [Hd ->]]]].
        exists (String c ds), rest. repeat split.
        -- right. discriminate.
        -- simpl. now rewrite Hc.
      * intros [ds [rest [_ [Hd H]]]]. destruct ds as [|x ds].
        -- simpl in H. injection H as -> _. discriminate.
        -- simpl in H. injection H as -> ->. simpl in Hd.
           apply andb_true_iff in Hd as [_ Hd].
           exists ds, rest. repeat split; [now left | assumption].
    + rewrite andb_true_iff, Ascii.eqb_eq. split.
      * intros [-> ->]. exists EmptyString, s. repeat split. now left.
      * intros [ds [rest [Hs [Hd H]]]]. destruct ds as [|x ds].
        -- simpl in H. injection H as -> _.
           destruct Hs as [Hs | Hs]; [now split | now elim Hs].
        -- simpl in H. injection H as -> _. simpl in Hd.
           rewrite Hc in Hd. discriminate.
Qed.

Lemma re_match_enum_iff s : re_match_enum s = true <-> enumerated s.
Proof.
  unfold re_match_enum, enumerated. rewrite enum_marker_iff. split.
  - intros [ds [rest [[H | H] [Hd ->]]]]; [discriminate |].
    now exists ds, rest.
  - intros [ds [rest [H [Hd ->]]]]. exists ds, rest. repeat split; auto.
Qed.

Lemma lstrip_head s :
  lstrip s = EmptyString \/
  exists c t, lstrip s = String c t /\ is_space c = false.
Proof.
  induction s as [|c s IH]; simpl; [now left |].
  destruct (is_space c) eqn:Hc; [exact IH |].
  right. now exists c, s.
Qed.

Lemma rstrip_head c t :
  is_space c = false -> exists r, rstrip (String c t) = String c r.
Proof.
  intros Hc. simpl. destruct (rstrip t).
  - rewrite Hc. now exists EmptyString.
  - now eexists.
Qed.

Lemma rstrip_cons c s a r :
  rstrip s = String a r -> rstrip (String c s) = String c (String a r).
Proof. intros H. simpl. now rewrite H. Qed.

Lemma rstrip_idem s : rstrip (rstrip s) = rstrip s.
Proof.
  induction s as [|c s IH]; [reflexivity |].
  destruct (rstrip s) as [|a r] eqn:Hr.
  - simpl. rewrite Hr.
    destruct (is_space c) eqn:Hc; simpl; [reflexivity | now rewrite Hc].
  - rewrite (rstrip_cons c s a r Hr). now apply rstrip_cons.
Qed.

(** [strip] removes nothing from a text it has produced. *)
Lemma strip_idem s : strip (strip s) = strip s.
Proof.
  unfold strip. destruct (lstrip_head s) as [-> | [c [t [-> Hc]]]].
  - reflexivity.
  - destruct (rstrip_head c t Hc) as [r Hr]. rewrite Hr.
    cbn [lstrip]. rewrite Hc, <- Hr. apply rstrip_idem.
Qed.

Lemma lstrip_spaces s : forall_chars is_space s = true -> lstrip s = EmptyString.
Proof.
  induction s as [|c s IH]; simpl; [reflexivity |].
  intros H. apply andb_true_iff in H as [-> H]. auto.
Qed.

Lemma rstrip_empty s : rstrip s = EmptyString -> forall_chars is_space s = true.
Proof.
  induction s as [|c s IH]; simpl; [reflexivity |].
  destruct (rstrip s); [|discriminate].
  destruct (is_space c); [intros _; now rewrite IH | discriminate].
Qed.

Lemma lstrip_empty s :
  forall_chars is_space (lstrip s) = true -> forall_chars is_space s = true.
Proof.
  induction s as [|c s IH]; simpl; [reflexivity |].
  destruct (is_space c) eqn:Hc; simpl; [exact IH | now rewrite Hc].
Qed.

Lemma strip_empty s : strip s = EmptyString -> forall_chars is_space s = true.
Proof. intros H. apply lstrip_empty, rstrip_empty, H. Qed.

Lemma splitlines_chars_upto p n : forall s,
  String.length s <= n ->
  forall_chars p s = true ->
  Forall (fun l => forall_chars p l = true) (splitlines s).
Proof.
  induction n as [|n IH]; intros s Hn H.
  - destruct s; [constructor | simpl in Hn; lia].
  - destruct s as [|c s]; [constructor |].
    cbn [forall_chars] in H. apply andb_true_iff in H as [Hc Hs].
    simpl in Hn. cbn [splitlines]. destruct (is_linebreak c).
    + destruct s as [|c' s']; [repeat constructor |].
      cbn [forall_chars] in Hs. apply andb_true_iff in Hs as [Hc' Hs'].
      simpl in Hn.
      destruct ((code c =? 13) && (code c' =? 10)); constructor; try reflexivity.
      * apply IH; [lia | assumption].
      * apply IH; [simpl; lia |]. simpl. now rewrite Hc', Hs'.
    + assert (Hrec : Forall (fun l => forall_chars p l = true) (splitlines s))
        by (apply IH; [lia | assumption]).
      destruct (splitlines s) as [|l ls].
      * repeat constructor. simpl. now rewrite Hc.
      * inversion Hrec; subst. constructor; [simpl; now rewrite Hc | assumption].
Qed.

Lemma splitlines_chars p s :
  forall_chars p s = true ->
  Forall (fun l => forall_chars p l = true) (splitlines s).
Proof. apply (splitlines_chars_upto p (String.length s)). lia. Qed.

Lemma filter_map_commute {A B} (f : A -> B) (p : B -> bool) l :
  map f (filter (fun x => p (f x)) l) = filter p (map f l).
Proof.
  induction l as [|x l IH]; simpl; [reflexivity |].
  destruct (p (f x)); simpl; now rewrite IH.
Qed.

(** A text made of white space has no enumerated line. *)
Lemma blank_no_question q :
  strip q = EmptyString ->
  filter re_match_enum (map strip (splitlines q)) = [].
Proof.
  intros H. apply strip_empty in H. apply (splitlines_chars is_space) in H.
  induction H as [|l ls Hl _ IH]; [reflexivity |].
  simpl. unfold strip at 1. rewrite (lstrip_spaces _ Hl). simpl. exact IH.
Qed.

(** * The question segmenter *)

(** C6.  A trimmed line is an enumerated question exactly when it starts
    with digits followed by a dot.  When some line is one, the segmenter
    returns the enumerated lines, trimmed, in the order of the text; when
    none is and the text is not blank, it returns the trimmed text alone;
    a blank text gives no question.  Every question returned is trimmed. *)
Theorem segmentation_contract (q : string) :
  let matching := filter re_match_enum (map strip (splitlines q)) in
  (forall s, re_match_enum s = true <-> enumerated s)
  /\ (matching <> [] -> segment_questions q = matching)
  /\ (matching = [] -> strip q <> EmptyString -> segment_questions q = [strip q])
  /\ (strip q = EmptyString -> segment_questions q = [])
  /\ Forall (fun x => strip x = x) (segment_questions q).
Proof.
  intros matching.
  assert (Hseg : segment_questions q =
                 match matching with
                 | [] => if negb (String.eqb (strip q) "") then [strip q] else []
                 | _ => matching
                 end).
  { unfold segment_questions, matching.
    rewrite (filter_map_commute strip re_match_enum).
    now destruct (filter re_match_enum (map strip (splitlines q))). }
  assert (Htrim : Forall (fun x => strip x = x) matching).
  { unfold matching. apply Forall_forall. intros x Hx.
    apply filter_In in Hx as [Hx _]. apply in_map_iff in Hx as [l [<- _]].
    apply strip_idem. }
  split; [exact re_match_enum_iff |].
  split; [| split; [| split]].
  - intros Hne. rewrite Hseg. now destruct matching.
  - intros He Hq. rewrite Hseg, He.
    destruct (String.eqb_spec (strip q) ""); [contradiction | reflexivity].
  - intros Hq. rewrite Hseg. unfold matching.
    rewrite (blank_no_question q Hq), Hq. reflexivity.
  - rewrite Hseg. destruct matching as [|m ms] eqn:Hm; [| exact Htrim].
    destruct (String.eqb_spec (strip q) ""); simpl; constructor;
      [apply strip_idem | constructor].
Qed.

Example segment_two_lines :
  segment_questions (String "1" (String "." (String " " (String "A"
     (String (ascii_of_nat 10) "2. B"))))) = ["1. A"; "2. B"].
Proof. reflexivity. Qed.

Example segment_plain_text : segment_questions "just text" = ["just text"].
Proof. reflexivity. Qed.

Example segment_empty_text : segment_questions "" = [].
Proof. reflexivity. Qed.

(** * The dispatcher *)

Lemma rule_applies_iff q r :
  rule_applies q r = true <-> Forall (contains_ci q) (snd r).
Proof.
  unfold rule_applies. rewrite forallb_forall, Forall_forall.
  split; intros H kw Hkw; apply isin_lower_iff, H, Hkw.
Qed.

(** The [if]/[elif] chain is the first-match reading of the rule table. *)
Lemma matched_rule_first_match q : matched_rule q = first_match rule_table q.
Proof.
  unfold matched_rule, first_match, rule_table, rule_applies. cbn [find snd fst forallb].
  repeat match goal with
         | |- context [isin ?kw (lower q)] => destruct (isin kw (lower q))
         end; reflexivity.
Qed.

(** C2, as the code has it.  Matching is the occurrence of each phrase up
    to letter case, the rule selected is the first of the table (Count
    Before Year, Earliest Above Threshold, Correlation, Plot) whose phrases
    all occur, the sentinel rule when none does; a question with
    "correlation", "rank", "peak" and "scatterplot" never reaches the Plot
    Renderer, and goes to the Correlation answerer unless one of the first
    two rules applies to it. *)
Theorem dispatch_priority (q : string) :
  (forall kw, isin kw (lower q) = true <-> contains_ci q kw)
  /\ matched_rule q = first_match rule_table q
  /\ (Forall (contains_ci q) ["correlation"; "rank"; "peak"; "scatterplot"] ->
      matched_rule q <> Plot
      /\ (matched_rule q = CountBeforeYear
          \/ matched_rule q = EarliestAboveThreshold
          \/ matched_rule q = Correlation)
      /\ (matched_rule q <> CountBeforeYear ->
          matched_rule q <> EarliestAboveThreshold ->
          matched_rule q = Correlation)).
Proof.
  split; [intros kw; apply isin_lower_iff |].
  split; [apply matched_rule_first_match |].
  intros H.
  assert (Hc : isin "correlation" (lower q) = true
               /\ isin "rank" (lower q) = true /\ isin "peak" (lower q) = true).
  { inversion H as [|? ? H1 H']; subst. inversion H' as [|? ? H2 H'']; subst.
    inversion H'' as [|? ? H3 _]; subst. repeat split; now apply isin_lower_iff. }
  destruct Hc as [Hc [Hr Hp]].
  unfold matched_rule. rewrite Hc, Hr, Hp. cbn [andb].
  destruct (isin "how many" (lower q) && isin "$2 bn" (lower q)
            && isin "before 2000" (lower q));
    [| destruct (isin "earliest film" (lower q) && isin "1.5 bn" (lower q))].
  - repeat split; [discriminate | now left | intros Hn; now elim Hn].
  - repeat split; [discriminate | right; now left | intros _ Hn; now elim Hn].
  - repeat split; [discriminate | right; now right].
Qed.

(** C2 as it was stated fails: a question holding the four words is sent to
    the Earliest Above Threshold answerer when it also holds the phrases of
    that rule. *)
Lemma dispatch_correlation_counterexample :
  ~ (forall q,
       Forall (contains_ci q) ["correlation"; "rank"; "peak"; "scatterplot"] ->
       matched_rule q = Correlation).
Proof.
  intros H.
  specialize (H "Earliest film over 1.5 bn: correlation of Rank and Peak, with a scatterplot").
  assert (Hq : matched_rule
    "Earliest film over 1.5 bn: correlation of Rank and Peak, with a scatterplot"
    = EarliestAboveThreshold) by reflexivity.
  rewrite Hq in H. 
  assert (Hd : EarliestAboveThreshold <> Correlation) by discriminate.
  apply Hd, H.
  repeat constructor; apply isin_lower_iff; reflexivity.
Qed.

(** * Facts about floats *)

Section FloatFacts.
Local Open Scope Z_scope.

Ltac cmp_cases :=
  repeat match goal with
  | |- context [Z.compare ?a ?b] => destruct (Z.compare_spec a b)
  | H : context [Z.compare ?a ?b] |- _ => destruct (Z.compare_spec a b)
  | |- context [Pos.compare_cont Eq ?a ?b] => change (Pos.compare_cont Eq a b) with (Pos.compare a b)
  | H : context [Pos.compare_cont Eq ?a ?b] |- _ => change (Pos.compare_cont Eq a b) with (Pos.compare a b) in H
  | |- context [Pos.compare ?a ?b] => destruct (Pos.compare_spec a b)
  | H : context [Pos.compare ?a ?b] |- _ => destruct (Pos.compare_spec a b)
  end.

Lemma SFleb_total x y :
  x <> S754_nan -> y <> S754_nan -> SFleb x y = false -> SFleb y x = true.
Proof.
  unfold SFleb, SFcompare.
  destruct x as [sx| sx | | sx mx ex], y as [sy | sy | | sy my ey];
    try congruence; intros _ _;
    try destruct sx; try destruct sy; try (intros; reflexivity); try discriminate;
    cmp_cases; simpl; try discriminate; try reflexivity; try lia.
Qed.

Lemma SFleb_trans x y z :
  SFleb x y = true -> SFleb y z = true -> SFleb x z = true.
Proof.
  unfold SFleb, SFcompare.
  destruct x as [sx| sx | | sx mx ex], y as [sy | sy | | sy my ey], z as [sz | sz | | sz mz ez];
    try destruct sx; try destruct sy; try destruct sz; try (intros; reflexivity); try discriminate;
    cmp_cases; simpl; try discriminate; try reflexivity; try lia.
Qed.

Lemma SFeqb_refl x : x <> S754_nan -> SFeqb x x = true.
Proof.
  unfold SFeqb, SFcompare. destruct x as [s|s| |s m e]; try congruence; intros _;
  try destruct s; try reflexivity; rewrite Z.compare_refl;
  change (Pos.compare_cont Eq m m) with (Pos.compare m m); now rewrite Pos.compare_refl.
Qed.

Lemma is_nan_false x : PrimFloat.is_nan x = false <-> Prim2SF x <> S754_nan.
Proof.
  unfold PrimFloat.is_nan. rewrite eqb_spec. split.
  - intros H E. rewrite E in H. discriminate.
  - intros H. now rewrite SFeqb_refl.
Qed.

Lemma leb_total x y :
  PrimFloat.is_nan x = false -> PrimFloat.is_nan y = false ->
  (x <=? y)%float = false -> (y <=? x)%float = true.
Proof. rewrite !is_nan_false, !leb_spec. apply SFleb_total. Qed.

Lemma leb_trans x y z :
  (x <=? y)%float = true -> (y <=? z)%float = true -> (x <=? z)%float = true.
Proof. rewrite !leb_spec. apply SFleb_trans. Qed.

Lemma leb_refl x : PrimFloat.is_nan x = false -> (x <=? x)%float = true.
Proof.
  intros H. destruct (x <=? x)%float eqn:E; [reflexivity|].
  pose proof (leb_total x x H H E). congruence.
Qed.

Lemma leb_not_nan x y : (x <=? y)%float = true -> PrimFloat.is_nan x = false /\ PrimFloat.is_nan y = false.
Proof.
  rewrite leb_spec, !is_nan_false. unfold SFleb, SFcompare.
  destruct (Prim2SF x), (Prim2SF y); try discriminate; split; discriminate.
Qed.


Lemma shr_1_nonneg mrs : 0 <= shr_m mrs -> 0 <= shr_m (shr_1 mrs).
Proof.
  destruct mrs as [m r s]. simpl. destruct m as [|p|p]; [easy | | lia].
  intros _. destruct p; simpl; lia.
Qed.

Lemma iter_shr_1_nonneg p : forall mrs,
  0 <= shr_m mrs -> 0 <= shr_m (iter_pos shr_1 p mrs).
Proof.
  induction p as [p IH | p IH |]; intros mrs H; simpl.
  - apply IH, IH, shr_1_nonneg, H.
  - apply IH, IH, H.
  - apply shr_1_nonneg, H.
Qed.

Lemma shr_fexp_nonneg m e l :
  0 <= m -> 0 <= shr_m (fst (shr_fexp prec emax m e l)).
Proof.
  intros H. unfold shr_fexp, shr.
  assert (H0 : 0 <= shr_m (shr_record_of_loc m l))
    by (destruct l as [|[]]; exact H).
  destruct (fexp prec emax (Zdigits2 m + e) - e); simpl; try exact H0.
  apply iter_shr_1_nonneg, H0.
Qed.

Lemma binary_round_aux_not_nan sx mx ex lx :
  0 <= mx -> binary_round_aux prec emax sx mx ex lx <> S754_nan.
Proof.
  intros H. unfold binary_round_aux.
  pose proof (shr_fexp_nonneg mx ex lx H) as H1.
  destruct (shr_fexp prec emax mx ex lx) as [mrs' e']. simpl in H1.
  set (m2 := round_nearest_even (shr_m mrs') (loc_of_shr_record mrs')).
  assert (H2 : 0 <= m2).
  { unfold m2, round_nearest_even.
    destruct (loc_of_shr_record mrs') as [|[]]; try lia.
    destruct (Z.even (shr_m mrs')); lia. }
  pose proof (shr_fexp_nonneg m2 e' loc_Exact H2) as H3.
  destruct (shr_fexp prec emax m2 e' loc_Exact) as [mrs'' e'']. simpl in H3.
  destruct (shr_m mrs''); try discriminate; [|lia].
  destruct (e'' <=? emax - prec); discriminate.
Qed.

Lemma binary_round_not_nan sx mx ex : binary_round prec emax sx mx ex <> S754_nan.
Proof.
  unfold binary_round.
  destruct (shl_align mx ex (fexp prec emax (Z.pos (digits2_pos mx) + ex))).
  apply binary_round_aux_not_nan. lia.
Qed.

Lemma binary_normalize_not_nan m e sz : binary_normalize prec emax m e sz <> S754_nan.
Proof.
  unfold binary_normalize. destruct m; [discriminate | |]; apply binary_round_not_nan.
Qed.

Lemma SF2Prim_not_nan x : x <> S754_nan -> PrimFloat.is_nan (SF2Prim x) = false.
Proof.
  intros H. destruct x as [[]|[]| |s m e]; try reflexivity; [congruence |].
  apply is_nan_false. unfold SF2Prim.
  assert (Hl : forall f k, Prim2SF f <> S754_nan -> Prim2SF (Z.ldexp f k) <> S754_nan).
  { intros f k Hf. unfold Z.ldexp. rewrite ldshiftexp_spec. unfold SFldexp.
    destruct (Prim2SF f); try congruence. apply binary_round_not_nan. }
  assert (Hp : Prim2SF (of_uint63 (Uint63.of_Z (Z.pos m))) <> S754_nan).
  { rewrite of_uint63_spec. apply binary_normalize_not_nan. }
  destruct s.
  - rewrite opp_spec. specialize (Hl _ e Hp).
    destruct (Prim2SF (Z.ldexp (of_uint63 (Uint63.of_Z (Z.pos m))) e)); simpl; congruence.
  - apply Hl, Hp.
Qed.

Lemma float_of_ratio_not_nan n d : PrimFloat.is_nan (float_of_ratio n d) = false.
Proof.
  unfold float_of_ratio. destruct (n =? 0); [reflexivity |].
  apply SF2Prim_not_nan, binary_normalize_not_nan.
Qed.

Lemma opp_not_nan x : PrimFloat.is_nan x = false -> PrimFloat.is_nan (- x)%float = false.
Proof.
  rewrite !is_nan_false, opp_spec. destruct (Prim2SF x); simpl; congruence.
Qed.

(** An [int] is never the missing value. *)
Lemma float_of_Z_not_nan z : PrimFloat.is_nan (float_of_Z z) = false.
Proof.
  unfold float_of_Z. destruct (z <? 0);
    [apply opp_not_nan |]; apply float_of_ratio_not_nan.
Qed.

End FloatFacts.

Lemma notna_cell_float x :
  is_number x = true -> notna x = negb (PrimFloat.is_nan (cell_float x)).
Proof.
  destruct x as [s|z|f]; [discriminate | |]; intros _; simpl.
  - unfold cell_float. simpl. now rewrite float_of_Z_not_nan.
  - reflexivity.
Qed.

(** * Facts about the stable sort *)

Section StableSort.
Context {A : Type} (le : A -> A -> bool) (good : A -> Prop).
Hypothesis le_total : forall x y, good x -> good y -> le x y = false -> le y x = true.
Hypothesis le_trans : forall x y z, le x y = true -> le y z = true -> le x z = true.

Lemma insert_by_perm x l : Permutation (x :: l) (insert_by le x l).
Proof.
  induction l as [|y l IH]; simpl; [reflexivity |].
  destruct (le x y); [reflexivity |].
  rewrite perm_swap. now constructor.
Qed.

Lemma stable_sort_perm l : Permutation l (stable_sort le l).
Proof.
  induction l as [|x l IH]; simpl; [constructor |].
  rewrite <- insert_by_perm. now constructor.
Qed.

Lemma stable_sort_good l : Forall good l -> Forall good (stable_sort le l).
Proof.
  intros H. eapply Permutation_Forall; [apply stable_sort_perm | exact H].
Qed.

Lemma insert_by_sorted x l :
  good x -> Forall good l ->
  StronglySorted (fun a b => le a b = true) l ->
  StronglySorted (fun a b => le a b = true) (insert_by le x l).
Proof.
  intros Hx Hg Hs. induction Hs as [|y l Hs IH Hy]; simpl.
  - repeat constructor.
  - inversion Hg as [|? ? Gy Gl]; subst.
    destruct (le x y) eqn:E.
    + constructor; [now constructor |].
      constructor; [exact E |].
      eapply Forall_impl; [| exact Hy]. intros a Ha. now apply le_trans with y.
    + constructor; [now apply IH |].
      eapply Permutation_Forall; [apply insert_by_perm |].
      constructor; [now apply le_total | exact Hy].
Qed.

Lemma stable_sort_sorted l :
  Forall good l -> StronglySorted (fun a b => le a b = true) (stable_sort le l).
Proof.
  induction 1 as [|x l Hx Hl IH]; simpl; [constructor |].
  apply insert_by_sorted; [exact Hx | now apply stable_sort_good | exact IH].
Qed.

Lemma insert_by_stable z x l :
  filter (tied le z) (insert_by le x l) = filter (tied le z) (x :: l).
Proof.
  induction l as [|y l IH]; [reflexivity |].
  cbn [insert_by]. destruct (le x y) eqn:E; [reflexivity |].
  cbn [filter] in *. rewrite IH.
  destruct (tied le z y) eqn:Ty, (tied le z x) eqn:Tx; try reflexivity.
  unfold tied in Ty, Tx.
  apply andb_true_iff in Ty as [Hzy _]. apply andb_true_iff in Tx as [_ Hxz].
  rewrite (le_trans _ _ _ Hxz Hzy) in E. discriminate.
Qed.

Lemma stable_sort_stable z l :
  filter (tied le z) (stable_sort le l) = filter (tied le z) l.
Proof.
  induction l as [|x l IH]; [reflexivity |].
  cbn [stable_sort fold_right]. fold (stable_sort le l).
  rewrite insert_by_stable. cbn [filter]. now rewrite IH.
Qed.
End StableSort.

Lemma insert_by_map {A B} (f : A -> B) (le : A -> A -> bool) (le' : B -> B -> bool) x l :
  (forall a b, le' (f a) (f b) = le a b) ->
  map f (insert_by le x l) = insert_by le' (f x) (map f l).
Proof.
  intros H. induction l as [|y l IH]; simpl; [reflexivity |].
  rewrite H. destruct (le x y); simpl; [reflexivity | now rewrite IH].
Qed.

Lemma stable_sort_map {A B} (f : A -> B) (le : A -> A -> bool) (le' : B -> B -> bool) l :
  (forall a b, le' (f a) (f b) = le a b) ->
  map f (stable_sort le l) = stable_sort le' (map f l).
Proof.
  intros H. induction l as [|x l IH]; simpl; [reflexivity |].
  fold (stable_sort le l). rewrite (insert_by_map f le le' _ _ H). now rewrite IH.
Qed.

(** * Facts about tables *)

Lemma mem_In c cs : mem c cs = true <-> In c cs.
Proof.
  unfold mem. rewrite existsb_exists. split.
  - intros [x [Hx E]]. apply String.eqb_eq in E. now subst.
  - intros H. exists c. split; [exact H | apply String.eqb_refl].
Qed.

Lemma mem_false_filter (cols : list (string * Series)) c :
  mem c (map fst cols) = false ->
  filter (fun col => String.eqb (fst col) c) cols = [].
Proof.
  induction cols as [|[l s] cols IH]; [reflexivity |].
  cbn [map fst mem existsb]. fold (mem c (map fst cols)).
  intros H. apply orb_false_iff in H as [Hl Hc].
  cbn [filter fst]. rewrite String.eqb_sym, Hl. auto.
Qed.

Lemma nodup_filter (cols : list (string * Series)) c :
  nodupb (map fst cols) = true -> mem c (map fst cols) = true ->
  exists s, filter (fun col => String.eqb (fst col) c) cols = [(c, s)].
Proof.
  induction cols as [|[l s] cols IH]; [discriminate |].
  cbn [map fst nodupb mem existsb]. fold (mem c (map fst cols)).
  intros Hn Hm. apply andb_true_iff in Hn as [Hl Hn].
  cbn [filter fst]. rewrite String.eqb_sym.
  destruct (String.eqb_spec c l) as [-> | Hne].
  - exists s. f_equal. apply mem_false_filter.
    now destruct (mem l (map fst cols)).
  - simpl in Hm. now apply IH.
Qed.

Lemma getitem_In d c s : In s (df_getitem d c) -> In (c, s) (columns d).
Proof.
  unfold df_getitem. rewrite in_map_iff. intros [[l t] [<- H]].
  apply filter_In in H as [H E]. simpl in E. apply String.eqb_eq in E.
  now subst.
Qed.

Lemma getitem_present d c :
  nodupb (labels d) = true -> mem c (labels d) = true ->
  exists s, df_getitem d c = [s].
Proof.
  intros Hn Hm. destruct (nodup_filter (columns d) c Hn Hm) as [s Hs].
  exists s. unfold df_getitem. now rewrite Hs.
Qed.

Lemma column_Ok d c s : column d c = Ok s <-> df_getitem d c = [s].
Proof.
  unfold column. destruct (df_getitem d c) as [|t [|u l]]; split;
    intros H; try discriminate; congruence.
Qed.

Lemma canonical_parts d :
  canonical d ->
  nodupb (labels d) = true
  /\ (forall c s, In (c, s) (columns d) -> List.length s = nrows d)
  /\ (forall c s, In (c, s) (columns d) -> mem c numeric_labels = true ->
                  forallb is_number s = true).
Proof.
  unfold canonical, canonicalb. intros H.
  apply andb_true_iff in H as [H H3]. apply andb_true_iff in H as [H1 H2].
  rewrite forallb_forall in H1, H3. repeat split; [exact H2 | |].
  - intros c s Hin. specialize (H1 _ Hin). now apply Nat.eqb_eq in H1.
  - intros c s Hin Hc. specialize (H3 _ Hin). simpl fst in H3. simpl snd in H3.
    rewrite Hc in H3. exact H3.
Qed.

(** Under a label that is present, a canonical table has one column, with
    a cell per row. *)
Lemma canonical_column d c :
  canonical d -> mem c (labels d) = true ->
  exists s, column d c = Ok s /\ List.length s = nrows d
            /\ (mem c numeric_labels = true -> forallb is_number s = true).
Proof.
  intros Hc Hm. destruct (canonical_parts d Hc) as [Hn [Hl Hnum]].
  destruct (getitem_present d c Hn Hm) as [s Hs].
  assert (Hin : In (c, s) (columns d))
    by (apply getitem_In; rewrite Hs; now left).
  exists s. repeat split; [now apply column_Ok | eauto | eauto].
Qed.

Lemma map_fst_combine {A B} (a : list A) (b : list B) :
  List.length a = List.length b -> map fst (combine a b) = a.
Proof.
  revert b. induction a as [|x a IH]; intros [|y b] H; try discriminate;
    [reflexivity |]. simpl. f_equal. apply IH. now injection H.
Qed.

Lemma map_snd_combine {A B} (a : list A) (b : list B) :
  List.length a = List.length b -> map snd (combine a b) = b.
Proof.
  revert b. induction a as [|x a IH]; intros [|y b] H; try discriminate;
    [reflexivity |]. simpl. f_equal. apply IH. now injection H.
Qed.

Lemma mask_filter_map {A B} (p : A -> bool) (f : A -> B) l :
  mask_filter (map p l) (map f l) = map f (filter p l).
Proof.
  induction l as [|x l IH]; [reflexivity |]. simpl.
  destruct (p x); simpl; now rewrite IH.
Qed.

Lemma count_mask_map {A} (p : A -> bool) l :
  List.length (filter (fun b => b) (map p l)) = List.length (filter p l).
Proof.
  induction l as [|x l IH]; [reflexivity |]. simpl.
  destruct (p x); simpl; now rewrite IH.
Qed.

Lemma mask_and_map {A} (p q : A -> bool) l :
  mask_and (map p l) (map q l) = map (fun x => p x && q x) l.
Proof. induction l as [|x l IH]; [reflexivity |]. simpl. now rewrite IH. Qed.

Lemma mask_and_true m : mask_and m (repeat true (List.length m)) = m.
Proof.
  induction m as [|b m IH]; [reflexivity |]. simpl.
  now rewrite andb_true_r, IH.
Qed.

Lemma series_cmp_numbers test s :
  forallb is_number s = true ->
  series_cmp test s = Ok (map (fun x => test (cell_float x)) s).
Proof.
  unfold series_cmp. induction s as [|x s IH]; [reflexivity |].
  cbn [forallb]. intros H. apply andb_true_iff in H as [Hx Hs].
  cbn [omap map]. rewrite (IH Hs). unfold cell_float.
  destruct x; [discriminate | reflexivity | reflexivity].
Qed.

Lemma floats_of_numbers s :
  forallb is_number s = true -> floats_of s = Ok (map cell_float s).
Proof.
  unfold floats_of. induction s as [|x s IH]; [reflexivity |].
  cbn [forallb]. intros H. apply andb_true_iff in H as [Hx Hs].
  cbn [omap map]. rewrite (IH Hs). unfold cell_float.
  destruct x; [discriminate | reflexivity | reflexivity].
Qed.

Lemma getitem_map_cells (g : Series -> Series) cols c :
  map snd (filter (fun col => String.eqb (fst col) c)
             (map (fun col => (fst col, g (snd col))) cols))
  = map g (map snd (filter (fun col => String.eqb (fst col) c) cols)).
Proof.
  induction cols as [|[l s] cols IH]; [reflexivity |]. simpl.
  destruct (String.eqb l c); simpl; now rewrite IH.
Qed.

Lemma getitem_bool_index d m c :
  df_getitem (bool_index d m) c = map (mask_filter m) (df_getitem d c).
Proof. apply getitem_map_cells. Qed.

Lemma column_bool_index d m c s :
  column d c = Ok s -> column (bool_index d m) c = Ok (mask_filter m s).
Proof. rewrite !column_Ok, getitem_bool_index. now intros ->. Qed.

Lemma forallb_filter {A} (p q : A -> bool) l :
  forallb p l = true -> forallb p (filter q l) = true.
Proof.
  rewrite !forallb_forall. intros H x Hx. apply filter_In in Hx. now apply H.
Qed.

Lemma forallb_map {A B} (p : B -> bool) (f : A -> B) l :
  forallb p (map f l) = forallb (fun x => p (f x)) l.
Proof. induction l as [|x l IH]; [reflexivity |]. simpl. now rewrite IH. Qed.

Lemma filter_all {A} (p : A -> bool) l : forallb p l = true -> filter p l = l.
Proof.
  induction l as [|x l IH]; [reflexivity |]. simpl. intros H.
  apply andb_true_iff in H as [-> H]. now rewrite IH.
Qed.

Lemma filter_none {A} (p : A -> bool) l :
  forallb (fun x => negb (p x)) l = true -> filter p l = [].
Proof.
  induction l as [|x l IH]; [reflexivity |]. simpl. intros H.
  apply andb_true_iff in H as [Hx H]. apply negb_true_iff in Hx.
  now rewrite Hx, IH.
Qed.

Lemma combine_seq_In {A} (l : list A) : forall s x i,
  In (x, i) (combine l (seq s (List.length l))) ->
  s <= i /\ nth_error l (i - s) = Some x.
Proof.
  induction l as [|y l IH]; intros s x i H; [contradiction |].
  simpl in H. destruct H as [H | H].
  - injection H as -> ->. rewrite Nat.sub_diag. split; [lia | reflexivity].
  - apply IH in H as [Hle Hn]. split; [lia |].
    replace (i - s) with (S (i - S s)) by lia. exact Hn.
Qed.

Lemma combine_map_l {A B C} (f : A -> B) (a : list A) (b : list C) :
  combine (map f a) b = map (fun p => (f (fst p), snd p)) (combine a b).
Proof.
  revert b. induction a as [|x a IH]; intros [|y b]; try reflexivity.
  simpl. now rewrite IH.
Qed.

(** Reordering a column by the positions [argsort] gives is sorting the
    rows by key, when no key is missing. *)
Lemma take_argsort {R} (rows : list R) (k : R -> float) (g : R -> pyval) :
  forallb (fun r => negb (PrimFloat.is_nan (k r))) rows = true ->
  take (argsort (map k rows)) (map g rows)
  = map g (stable_sort (fun a b => (k a <=? k b)%float) rows).
Proof.
  intros Hk. unfold argsort. rewrite length_map.
  set (ix := combine rows (seq 0 (List.length rows))).
  rewrite (combine_map_l k rows). fold ix.
  assert (Hall : forallb (fun a : float * nat => negb (PrimFloat.is_nan (fst a)))
                   (map (fun p : R * nat => (k (fst p), snd p)) ix) = true).
  { rewrite forallb_map. apply forallb_forall. intros [r n] Hin. simpl.
    rewrite forallb_forall in Hk. apply Hk.
    unfold ix in Hin. apply in_combine_l in Hin. exact Hin. }
  rewrite (filter_all _ _ Hall).
  rewrite (filter_none (fun a : float * nat => PrimFloat.is_nan (fst a)) _ Hall).
  rewrite app_nil_r.
  rewrite <- (stable_sort_map (fun p : R * nat => (k (fst p), snd p))
                (fun a b => (k (fst a) <=? k (fst b))%float) key_le)
    by reflexivity.
  rewrite map_map. cbn [snd]. unfold take. rewrite map_map.
  transitivity (map (fun p : R * nat => g (fst p))
                  (stable_sort (fun a b => (k (fst a) <=? k (fst b))%float) ix)).
  - apply map_ext_in. intros [r n] Hin.
    apply (Permutation_in _ (Permutation_sym (stable_sort_perm _ ix))) in Hin.
    unfold ix in Hin. apply combine_seq_In in Hin as [_ Hn].
    rewrite Nat.sub_0_r in Hn. cbn [fst snd].
    apply (nth_error_nth _ _ (PFloat nan)).
    rewrite nth_error_map, Hn. reflexivity.
  - rewrite <- (map_map fst g).
    rewrite (stable_sort_map fst
               (fun a b : R * nat => (k (fst a) <=? k (fst b))%float)
               (fun a b => (k a <=? k b)%float)) by reflexivity.
    unfold ix. rewrite map_fst_combine by (now rewrite length_seq).
    reflexivity.
Qed.

Lemma column_label d c s : column d c = Ok s -> mem c (labels d) = true.
Proof.
  intros H. apply column_Ok in H. apply mem_In. unfold labels.
  apply in_map_iff. exists (c, s). split; [reflexivity |].
  apply getitem_In. rewrite H. now left.
Qed.

Lemma column_sorted d c order s :
  column d c = Ok s ->
  column {| nrows := nrows d;
            columns := map (fun col => (fst col, take order (snd col))) (columns d) |} c
  = Ok (take order s).
Proof.
  rewrite !column_Ok. unfold df_getitem at 2. cbn [columns].
  rewrite getitem_map_cells. unfold df_getitem. now intros ->.
Qed.

(** * Examples of the specification *)

Example count_before_year_example :
  count_answer
    (Some {| nrows := 3;
             columns := [("GrossNum", [PFloat (21 / 10); PFloat (19 / 10); PFloat (25 / 10)]);
                         ("Year", [PFloat 1997; PFloat 1998; PFloat 2005])] |})
  = Ok (AInt 1).
Proof. reflexivity. Qed.

Example films_answers :
  fst (@answer_questions sample_libs
         "How many $2 bn movies were released before 2000?" (Some 0) films_world)
  = Ok [AInt 1]
  /\ fst (@answer_questions sample_libs
            "Which is the earliest film that grossed over 1.5 bn?" (Some 0) films_world)
     = Ok [AStr "Titanic"]
  /\ fst (@answer_questions sample_libs
            "What is the correlation between Rank and Peak?" (Some 0) films_world)
     = Ok [AFloat 1]
  /\ fst (@answer_questions sample_libs "Who directed it?" None films_world)
     = Ok [AStr "Question not recognized or data missing"].
Proof. repeat split; reflexivity. Qed.

(** * The Earliest-Above-Threshold answerer *)

Lemma issubset_three cols :
  issubset ["GrossNum"; "Year"; "Title"] cols
  = negb (negb (issubset ["GrossNum"; "Year"] cols) || negb (mem "Title" cols)).
Proof.
  unfold issubset. cbn [forallb].
  destruct (mem "GrossNum" cols), (mem "Year" cols), (mem "Title" cols); reflexivity.
Qed.

Lemma films_columns gross year title n :
  List.length gross = n -> List.length year = n -> List.length title = n ->
  gross = map film_gross (films_of gross year title)
  /\ year = map film_year (films_of gross year title)
  /\ title = map film_title (films_of gross year title).
Proof.
  intros Hg Hy Ht. unfold films_of, film_gross, film_year, film_title.
  assert (Hc : List.length (combine year title) = n)
    by (rewrite length_combine; lia).
  repeat split.
  - symmetry. exact (map_fst_combine gross (combine year title) ltac:(lia)).
  - transitivity (map fst (map snd (combine gross (combine year title)))).
    + rewrite map_snd_combine by lia. now rewrite map_fst_combine by lia.
    + now rewrite map_map.
  - transitivity (map snd (map snd (combine gross (combine year title)))).
    + rewrite map_snd_combine by lia. now rewrite map_snd_combine by lia.
    + now rewrite map_map.
Qed.

(** Reordering a column by the positions [argsort_int] gives is sorting
    the rows by their integer key. *)
Lemma take_argsort_int {R} (rows : list R) (k : R -> Z) (g : R -> pyval) :
  take (argsort_int (map k rows)) (map g rows)
  = map g (stable_sort (fun a b => (k a <=? k b)%Z) rows).
Proof.
  unfold argsort_int. rewrite length_map.
  set (ix := combine rows (seq 0 (List.length rows))).
  rewrite (combine_map_l k rows). fold ix.
  rewrite <- (stable_sort_map (fun p : R * nat => (k (fst p), snd p))
                (fun a b => (k (fst a) <=? k (fst b))%Z) int_key_le)
    by reflexivity.
  rewrite map_map. cbn [snd]. unfold take. rewrite map_map.
  transitivity (map (fun p : R * nat => g (fst p))
                  (stable_sort (fun a b => (k (fst a) <=? k (fst b))%Z) ix)).
  - apply map_ext_in. intros [r n] Hin.
    apply (Permutation_in _ (Permutation_sym (stable_sort_perm _ ix))) in Hin.
    unfold ix in Hin. apply combine_seq_In in Hin as [_ Hn].
    rewrite Nat.sub_0_r in Hn. cbn [fst snd].
    apply (nth_error_nth _ _ (PFloat nan)).
    rewrite nth_error_map, Hn. reflexivity.
  - rewrite <- (map_map fst g).
    rewrite (stable_sort_map fst
               (fun a b : R * nat => (k (fst a) <=? k (fst b))%Z)
               (fun a b => (k a <=? k b)%Z)) by reflexivity.
    unfold ix. rewrite map_fst_combine by (now rewrite length_seq).
    reflexivity.
Qed.

Lemma series_dtype_text s :
  s <> [] -> forallb is_text s = true -> series_dtype s = Object.
Proof.
  destruct s as [|x s]; [now intros H |]. intros _ Ht.
  cbn [forallb] in Ht. apply andb_true_iff in Ht as [Hx _].
  unfold series_dtype. cbn [forallb]. now destruct x.
Qed.

Lemma series_dtype_float s :
  forallb is_number s = true -> forallb is_int s = false ->
  series_dtype s = Float64.
Proof. intros Hn Hi. unfold series_dtype. now rewrite Hi, Hn. Qed.

Lemma row_dtype_object d c s :
  In (c, s) (columns d) -> series_dtype s = Object -> row_dtype d = Some Object.
Proof.
  intros Hin Hs. unfold row_dtype.
  assert (E : existsb (fun t => match t with Object => true | _ => false end)
                (map (fun col => series_dtype (snd col)) (columns d)) = true).
  { apply existsb_exists. exists Object. split; [| reflexivity].
    apply in_map_iff. now exists (c, s). }
  now rewrite E.
Qed.

(** A numeric table with a float outside [Year], [Rank] and [Peak] gives
    [float64] rows. *)
Lemma row_dtype_float d c s :
  (forall col, In col (columns d) -> forallb is_number (snd col) = true) ->
  In (c, s) (columns d) -> mem c ["Year"; "Rank"; "Peak"] = false ->
  forallb is_int s = false ->
  row_dtype d = Some Float64.
Proof.
  intros Hnum Hin Hc Hs. unfold row_dtype.
  assert (Hns : forallb is_number s = true) by exact (Hnum (c, s) Hin).
  assert (E1 : existsb (fun t => match t with Object => true | _ => false end)
                 (map (fun col => series_dtype (snd col)) (columns d)) = false).
  { apply not_true_is_false. intros E. apply existsb_exists in E as [t [Ht E]].
    apply in_map_iff in Ht as [col [<- Hcol]]. cbv beta in E.
    unfold series_dtype in E.
    destruct (forallb is_int (snd col)); [discriminate |].
    pose proof (Hnum col Hcol) as Hn. unfold Series in Hn.
    now rewrite Hn in E. }
  assert (E2 : forallb (fun t => match t with Int64 => true | _ => false end)
                 (map (fun col => series_dtype (snd col)) (columns d)) = false).
  { apply not_true_is_false. intros E. rewrite forallb_forall in E.
    assert (Hin' : In (series_dtype s)
                     (map (fun col => series_dtype (snd col)) (columns d)))
      by (apply in_map_iff; now exists (c, s)).
    specialize (E _ Hin'). rewrite (series_dtype_float s Hns Hs) in E.
    discriminate. }
  assert (E3 : existsb (fun col => negb (mem (fst col) ["Year"; "Rank"; "Peak"])
                                   && match series_dtype (snd col) with
                                      | Float64 => true
                                      | _ => false
                                      end) (columns d) = true).
  { apply existsb_exists. exists (c, s). split; [exact Hin |]. cbn [fst snd].
    rewrite Hc, (series_dtype_float s Hns Hs). reflexivity. }
  now rewrite E1, E2, E3.
Qed.

(** C5.  On a canonical table the Earliest-Above-Threshold answerer gives
    the empty text when [GrossNum], [Year] or [Title] is absent (or the
    table is null); otherwise it keeps the rows whose [GrossNum] is
    strictly above 1.5, drops those whose [Year] is missing, sorts the rest
    by [Year] and returns the text of the [Title] of the first row, the
    empty text when no row is left.  The sorted rows are a permutation of
    the rows kept, in ascending order of [Year] (exact on integers), and
    rows with the same [Year] stay in the order of the table.  The [Title]
    is printed as the row holds it: a text [Title], which is what a
    canonical table of the specification has, comes back as it is, while
    in a table of numbers with a float [GrossNum] an integer [Title] is
    printed as a float. *)
Theorem earliest_above_threshold `{PyLibs} (d : DataFrame) :
  canonical d ->
  earliest_answer None = Ok (AStr "")
  /\ (issubset ["GrossNum"; "Year"; "Title"] (labels d) = false ->
      earliest_answer (Some d) = Ok (AStr ""))
  /\ (forall gross year title,
        column d "GrossNum" = Ok gross ->
        column d "Year" = Ok year ->
        column d "Title" = Ok title ->
        let kept := filter year_present
                      (filter above_threshold (films_of gross year title)) in
        let le := year_le (series_dtype year) in
        let sorted := stable_sort le kept in
        earliest_answer (Some d)
        = match sorted with
          | [] => Ok (AStr "")
          | first :: _ =>
              match row_dtype d with
              | Some t =>
                  Ok (AStr (py_str (cast t (cast (series_dtype title)
                                                 (film_title first)))))
              | None => Unmodelled
              end
          end
        /\ Permutation kept sorted
        /\ StronglySorted (fun a b => le a b = true) sorted
        /\ (forall r, filter (tied le r) sorted = filter (tied le r) kept)
        /\ (forall first rest,
              sorted = first :: rest ->
              (forallb is_text title = true ->
               earliest_answer (Some d) = Ok (AStr (py_str (film_title first))))
              /\ (forallb is_int title = true ->
                  (forall col, In col (columns d) ->
                               forallb is_number (snd col) = true) ->
                  forallb is_int gross = false ->
                  earliest_answer (Some d)
                  = Ok (AStr (py_str (PFloat (cell_float (film_title first)))))))).
Proof.
  intros Hcan. split; [reflexivity |]. split.
  - intros Hsub. unfold earliest_answer. rewrite issubset_three in Hsub.
    apply negb_false_iff in Hsub. now rewrite Hsub.
  - intros gross year title Hg Hy Ht kept le sorted.
    assert (Hmg := column_label _ _ _ Hg).
    assert (Hmy := column_label _ _ _ Hy).
    assert (Hmt := column_label _ _ _ Ht).
    destruct (canonical_column d "GrossNum" Hcan Hmg) as [g' [Hg' [Lg Ng]]].
    destruct (canonical_column d "Year" Hcan Hmy) as [y' [Hy' [Ly Ny]]].
    destruct (canonical_column d "Title" Hcan Hmt) as [t' [Ht' [Lt _]]].
    assert (g' = gross) by congruence. assert (y' = year) by congruence.
    assert (t' = title) by congruence. subst g' y' t'. clear Hg' Hy' Ht'.
    specialize (Ng eq_refl). specialize (Ny eq_refl).
    destruct (films_columns gross year title (nrows d) Lg Ly Lt) as [Eg [Ey Et]].
    set (rows := films_of gross year title) in *.
    assert (Hyears : forallb (fun r => is_number (film_year r)) rows = true)
      by (rewrite <- forallb_map, <- Ey; exact Ny).
    assert (Hgood : Forall (fun r => PrimFloat.is_nan (cell_float (film_year r)) = false) kept).
    { apply Forall_forall. intros r Hr. unfold kept in Hr.
      apply filter_In in Hr as [Hr Hp]. apply filter_In in Hr as [Hr _].
      rewrite forallb_forall in Hyears. specialize (Hyears r Hr).
      unfold year_present in Hp. rewrite (notna_cell_float _ Hyears) in Hp.
      now apply negb_true_iff in Hp. }
    assert (Hrun : earliest_answer (Some d)
                   = match sorted with
                     | [] => Ok (AStr "")
                     | first :: _ =>
                         match row_dtype d with
                         | Some t =>
                             Ok (AStr (py_str (cast t (cast (series_dtype title)
                                                            (film_title first)))))
                         | None => Unmodelled
                         end
                     end).
    { unfold earliest_answer.
      assert (Hsub : issubset ["GrossNum"; "Year"] (labels d) = true)
        by (unfold issubset; cbn [forallb]; now rewrite Hmg, Hmy).
      rewrite Hsub, Hmt. cbn [negb orb]. rewrite Hg. cbn [obind].
      rewrite (series_cmp_numbers _ _ Ng). cbn [obind].
      assert (Em1 : map (fun x => (1.5 <? cell_float x)%float) gross
                    = map above_threshold rows)
        by (rewrite Eg at 1; now rewrite map_map).
      rewrite Em1. unfold dropna_subset.
      rewrite (column_bool_index _ _ _ _ Hy). cbn [obind].
      assert (Em2 : map notna (mask_filter (map above_threshold rows) year)
                    = map year_present (filter above_threshold rows))
        by (rewrite Ey at 1; now rewrite mask_filter_map, map_map).
      rewrite Em2.
      set (m1 := map above_threshold rows).
      set (m2 := map year_present (filter above_threshold rows)).
      assert (Hyk : column (bool_index (bool_index d m1) m2) "Year"
                    = Ok (map film_year kept)).
      { rewrite (column_bool_index _ _ _ _ (column_bool_index _ m1 _ _ Hy)).
        unfold m1, m2. rewrite Ey at 1. now rewrite !mask_filter_map. }
      assert (Htk : column (bool_index (bool_index d m1) m2) "Title"
                    = Ok (map film_title kept)).
      { rewrite (column_bool_index _ _ _ _ (column_bool_index _ m1 _ _ Ht)).
        unfold m1, m2. rewrite Et at 1. now rewrite !mask_filter_map. }
      assert (Hempty : df_empty (bool_index (bool_index d m1) m2)
                       = (List.length kept =? 0)).
      { unfold df_empty, bool_index. cbn [nrows columns]. rewrite !length_map.
        unfold m2. rewrite count_mask_map. fold kept.
        destruct (columns d) eqn:Ec; [| now rewrite orb_false_r].
        unfold labels in Hmt. rewrite Ec in Hmt. discriminate. }
      rewrite Hempty.
      assert (Hperm := stable_sort_perm le kept). fold sorted in Hperm.
      destruct kept as [|r0 kept'] eqn:Ek.
      { cbn [List.length Nat.eqb]. now rewrite (Permutation_nil Hperm). }
      cbn [List.length Nat.eqb]. rewrite Hy. cbn [obind].
      unfold sort_values. rewrite Hyk. cbn [obind].
      assert (Hnum : forallb is_number (map film_year (r0 :: kept')) = true).
      { rewrite forallb_map. apply forallb_forall. intros r Hr.
        rewrite forallb_forall in Hyears. apply Hyears.
        assert (Hr' : In r kept) by (rewrite Ek; exact Hr).
        unfold kept in Hr'. apply filter_In in Hr' as [Hr' _].
        now apply filter_In in Hr' as [Hr' _]. }
      assert (Htitles :
                (order <~ match series_dtype year with
                          | Int64 => Ok (argsort_int (map int_of (map film_year (r0 :: kept'))))
                          | _ => keys <~ floats_of (map film_year (r0 :: kept')) ;;
                                 Ok (argsort keys)
                          end ;;
                 Ok (take order (map film_title (r0 :: kept'))))
                = Ok (map film_title sorted)).
      { unfold sorted, le, year_le.
        destruct (series_dtype year); cbn [obind];
          try (rewrite (floats_of_numbers _ Hnum); cbn [obind]);
          rewrite map_map.
        - now rewrite (take_argsort_int (r0 :: kept')
                         (fun r => int_of (film_year r)) film_title).
        - rewrite (take_argsort (r0 :: kept')
                     (fun r => cell_float (film_year r)) film_title);
            [reflexivity |].
          apply forallb_forall. intros r Hr. rewrite Forall_forall in Hgood.
          now rewrite (Hgood r Hr).
        - rewrite (take_argsort (r0 :: kept')
                     (fun r => cell_float (film_year r)) film_title);
            [reflexivity |].
          apply forallb_forall. intros r Hr. rewrite Forall_forall in Hgood.
          now rewrite (Hgood r Hr). }
      destruct (match series_dtype year with
                | Int64 => Ok (argsort_int (map int_of (map film_year (r0 :: kept'))))
                | _ => keys <~ floats_of (map film_year (r0 :: kept')) ;;
                       Ok (argsort keys)
                end) as [order | e |]; cbn [obind] in Htitles |- *;
        try discriminate.
      assert (Htake : take order (map film_title (r0 :: kept'))
                      = map film_title sorted)
        by (injection Htitles as Hx; exact Hx).
      rewrite (column_sorted _ _ _ _ Htk). cbn [obind]. rewrite Htake, Ht.
      cbn [obind].
      destruct sorted as [|first rest]; [| reflexivity].
      apply Permutation_sym, Permutation_nil in Hperm. discriminate. }
    split; [exact Hrun |].
    split; [apply stable_sort_perm |]. split; [| split].
    + unfold sorted, le, year_le. destruct (series_dtype year).
      * apply (stable_sort_sorted _ (fun _ => True)).
        -- intros x y _ _ Hxy. apply Z.leb_le. apply Z.leb_gt in Hxy. lia.
        -- intros x y z Hxy Hyz. apply Z.leb_le. apply Z.leb_le in Hxy, Hyz. lia.
        -- now apply Forall_forall.
      * apply (stable_sort_sorted _
                 (fun r => PrimFloat.is_nan (cell_float (film_year r)) = false)).
        -- intros x y Hx Hy0. apply leb_total; assumption.
        -- intros x y z. apply leb_trans.
        -- exact Hgood.
      * apply (stable_sort_sorted _
                 (fun r => PrimFloat.is_nan (cell_float (film_year r)) = false)).
        -- intros x y Hx Hy0. apply leb_total; assumption.
        -- intros x y z. apply leb_trans.
        -- exact Hgood.
    + intros r. unfold sorted, le, year_le. destruct (series_dtype year);
        apply stable_sort_stable.
      * intros x y z Hxy Hyz. apply Z.leb_le. apply Z.leb_le in Hxy, Hyz. lia.
      * intros x y z. apply leb_trans.
      * intros x y z. apply leb_trans.
    + intros first rest Hsorted. rewrite Hrun, Hsorted.
      assert (Hfirst : In (film_title first) title).
      { assert (Hin : In first kept).
        { apply (Permutation_in _ (Permutation_sym (stable_sort_perm le kept))).
          fold sorted. rewrite Hsorted. now left. }
        unfold kept in Hin. apply filter_In in Hin as [Hin _].
        apply filter_In in Hin as [Hin _]. rewrite Et.
        apply in_map_iff. now exists first. }
      assert (Hcol : In ("Title", title) (columns d))
        by (apply getitem_In; apply column_Ok in Ht; rewrite Ht; now left).
      split.
      * intros Htext.
        assert (Hobj : series_dtype title = Object).
        { apply series_dtype_text; [| exact Htext].
          intros E. rewrite E in Hfirst. contradiction. }
        rewrite (row_dtype_object d "Title" title Hcol Hobj), Hobj.
        reflexivity.
      * intros Hint Hnumeric Hgross.
        assert (Hgcol : In ("GrossNum", gross) (columns d))
          by (apply getitem_In; apply column_Ok in Hg; rewrite Hg; now left).
        rewrite (row_dtype_float d "GrossNum" gross Hnumeric Hgcol eq_refl Hgross).
        unfold series_dtype at 1. rewrite Hint.
        rewrite forallb_forall in Hint. specialize (Hint _ Hfirst).
        now destruct (film_title first) as [t | z | f].
Qed.

Lemma earliest_above_threshold_witness :
  canonical two_films
  /\ @earliest_answer sample_libs (Some two_films) = Ok (AStr "B").
Proof.
  split; [reflexivity |].
  destruct (@earliest_above_threshold sample_libs two_films eq_refl) as [_ [_ H]].
  destruct (H _ _ _ eq_refl eq_refl eq_refl) as [E _].
  rewrite E. reflexivity.
Defined.

(** * The rows with a Rank and a Peak *)

(** [ndf[["Rank", "Peak"]].dropna()] on a canonical table: the pairs of
    cells of the two columns, those with a missing cell left out. *)
Lemma rank_peak_sub d rank peak :
  canonical d ->
  column d "Rank" = Ok rank -> column d "Peak" = Ok peak ->
  let kept := filter pair_complete (combine rank peak) in
  dropna (df_select d ["Rank"; "Peak"])
  = {| nrows := List.length kept;
       columns := [("Rank", map fst kept); ("Peak", map snd kept)] |}
  /\ forallb is_number (map fst kept) = true
  /\ forallb is_number (map snd kept) = true.
Proof.
  intros Hcan Hr Hp kept.
  assert (Hmr := column_label _ _ _ Hr). assert (Hmp := column_label _ _ _ Hp).
  destruct (canonical_column d "Rank" Hcan Hmr) as [r' [Hr' [Lr Nr]]].
  destruct (canonical_column d "Peak" Hcan Hmp) as [p' [Hp' [Lp Np]]].
  assert (r' = rank) by congruence. assert (p' = peak) by congruence.
  subst r' p'. clear Hr' Hp'. specialize (Nr eq_refl). specialize (Np eq_refl).
  apply column_Ok in Hr, Hp.
  assert (Er : rank = map fst (combine rank peak))
    by (symmetry; apply map_fst_combine; lia).
  assert (Ep : peak = map snd (combine rank peak))
    by (symmetry; apply map_snd_combine; lia).
  assert (Hmask : complete_rows (df_select d ["Rank"; "Peak"])
                  = map pair_complete (combine rank peak)).
  { unfold complete_rows, df_select. cbn [columns nrows flat_map].
    rewrite Hr, Hp. cbn [map app fold_right snd].
    replace (nrows d) with (List.length (map notna peak))
      by (rewrite length_map; exact Lp).
    rewrite mask_and_true.
    transitivity (mask_and (map notna (map fst (combine rank peak)))
                           (map notna (map snd (combine rank peak))));
      [now rewrite <- Er, <- Ep |].
    rewrite !map_map. apply mask_and_map. }
  split; [| split].
  - unfold dropna. rewrite Hmask. unfold bool_index, df_select.
    cbn [columns nrows flat_map]. rewrite Hr, Hp. cbn [map app fst snd].
    rewrite count_mask_map. fold kept.
    assert (Mr : mask_filter (map pair_complete (combine rank peak)) rank
                 = map fst kept).
    { transitivity (mask_filter (map pair_complete (combine rank peak))
                      (map fst (combine rank peak)));
        [now rewrite <- Er | apply mask_filter_map]. }
    assert (Mp : mask_filter (map pair_complete (combine rank peak)) peak
                 = map snd kept).
    { transitivity (mask_filter (map pair_complete (combine rank peak))
                      (map snd (combine rank peak)));
        [now rewrite <- Ep | apply mask_filter_map]. }
    now rewrite Mr, Mp.
  - rewrite forallb_map. apply forallb_forall. intros [a b] Hin.
    unfold kept in Hin. apply filter_In in Hin as [Hin _].
    apply in_combine_l in Hin. rewrite forallb_forall in Nr. now apply Nr.
  - rewrite forallb_map. apply forallb_forall. intros [a b] Hin.
    unfold kept in Hin. apply filter_In in Hin as [Hin _].
    apply in_combine_r in Hin. rewrite forallb_forall in Np. now apply Np.
Qed.

Lemma issubset_two a b cols :
  issubset [a; b] cols = true -> mem a cols = true /\ mem b cols = true.
Proof.
  unfold issubset. cbn [forallb]. rewrite andb_true_r. apply andb_true_iff.
Qed.

(** * The Correlation answerer *)

(** C8.  On a canonical table the Correlation answerer returns 0.0 when
    [Rank] or [Peak] is absent (or the table is null); otherwise it drops
    the rows where one of the two is missing, returns 0.0 when no row is
    left or the coefficient of the library is not a number, and the
    coefficient rounded to 6 decimals otherwise.  It always returns a
    float: it never raises. *)
Theorem correlation_answerer `{PyLibs} (d : DataFrame) :
  canonical d ->
  correlation_answer None = Ok (AFloat 0)
  /\ (issubset ["Rank"; "Peak"] (labels d) = false ->
      correlation_answer (Some d) = Ok (AFloat 0))
  /\ (forall rank peak,
        column d "Rank" = Ok rank -> column d "Peak" = Ok peak ->
        let kept := filter pair_complete (combine rank peak) in
        let r := corrcoef (map cell_float (map fst kept))
                          (map cell_float (map snd kept)) in
        correlation_answer (Some d)
        = Ok (AFloat (if (List.length kept =? 0) || PrimFloat.is_nan r
                      then 0%float else py_round r 6)))
  /\ (exists f, correlation_answer (Some d) = Ok (AFloat f)).
Proof.
  intros Hcan.
  assert (Hpresent : forall rank peak,
            column d "Rank" = Ok rank -> column d "Peak" = Ok peak ->
            let kept := filter pair_complete (combine rank peak) in
            let r := corrcoef (map cell_float (map fst kept))
                              (map cell_float (map snd kept)) in
            correlation_answer (Some d)
            = Ok (AFloat (if (List.length kept =? 0) || PrimFloat.is_nan r
                          then 0%float else py_round r 6))).
  { intros rank peak Hr Hp kept r.
    destruct (rank_peak_sub d rank peak Hcan Hr Hp) as [Hsub [Nr Np]].
    fold kept in Hsub, Nr, Np.
    unfold correlation_answer.
    assert (Hs : issubset ["Rank"; "Peak"] (labels d) = true).
    { unfold issubset. cbn [forallb].
      now rewrite (column_label _ _ _ Hr), (column_label _ _ _ Hp). }
    rewrite Hs, Hsub. cbn [negb]. unfold df_empty. cbn [nrows columns List.length].
    rewrite orb_false_r.
    destruct (List.length kept =? 0) eqn:E; [reflexivity |].
    change (column {| nrows := List.length kept;
                      columns := [("Rank", map fst kept); ("Peak", map snd kept)] |}
              "Rank") with (Ok (map fst kept)).
    change (column {| nrows := List.length kept;
                      columns := [("Rank", map fst kept); ("Peak", map snd kept)] |}
              "Peak") with (Ok (map snd kept)).
    cbn [obind]. rewrite (floats_of_numbers _ Nr), (floats_of_numbers _ Np).
    cbn [obind orb]. fold r. destruct (PrimFloat.is_nan r); reflexivity. }
  split; [reflexivity |]. split; [| split; [exact Hpresent |]].
  - intros Hs. unfold correlation_answer. now rewrite Hs.
  - destruct (issubset ["Rank"; "Peak"] (labels d)) eqn:Hs.
    + apply issubset_two in Hs as [Hmr Hmp].
      destruct (canonical_column d "Rank" Hcan Hmr) as [rank [Hr _]].
      destruct (canonical_column d "Peak" Hcan Hmp) as [peak [Hp _]].
      eexists. apply (Hpresent rank peak Hr Hp).
    + exists 0%float. unfold correlation_answer. now rewrite Hs.
Qed.

Lemma correlation_answerer_witness :
  canonical ranks123
  /\ @correlation_answer sample_libs (Some ranks123) = Ok (AFloat 1).
Proof.
  split; [reflexivity |].
  destruct (@correlation_answerer sample_libs ranks123 eq_refl) as [_ [_ [H _]]].
  rewrite (H _ _ eq_refl eq_refl). reflexivity.
Defined.

(** * The Plot Renderer *)

(** What [plot_answer] does on a canonical table that has the two columns:
    nothing when no row is complete; otherwise it opens a figure, draws
    the points and asks for the fit.  When the fit is refused, or the
    layout or the saving raises, the exception leaves the function and the
    figure stays open; otherwise the figure is saved and closed. *)
Lemma plot_answer_present `{PyLibs} d rank peak w :
  canonical d ->
  column d "Rank" = Ok rank -> column d "Peak" = Ok peak ->
  let kept := filter pair_complete (combine rank peak) in
  let xs := map cell_float (map fst kept) in
  let ys := map cell_float (map snd kept) in
  plot_answer (Some d) w
  = if List.length kept =? 0 then (Ok (AStr ""), w)
    else match linregress xs ys with
         | Ok fit =>
             match tight_layout_error (regression_drawing xs ys fit) with
             | Some e =>
                 (Raise e, {| heap := heap w;
                              figures := regression_drawing xs ys fit :: figures w |})
             | None =>
                 match savefig_error (regression_figure xs ys fit) with
                 | Some e =>
                     (Raise e, {| heap := heap w;
                                  figures := regression_figure xs ys fit :: figures w |})
                 | None =>
                     (Ok (AStr (clip_uri (data_uri_prefix
                                          ++ b64encode (savefig_png
                                                          (regression_figure xs ys fit))))),
                      w)
                 end
             end
         | Raise e =>
             (Raise e, {| heap := heap w;
                          figures := scatter_figure (6, 4) xs ys :: figures w |})
         | Unmodelled =>
             (Unmodelled, {| heap := heap w;
                             figures := scatter_figure (6, 4) xs ys :: figures w |})
         end.
Proof.
  intros Hcan Hr Hp kept xs ys.
  destruct (rank_peak_sub d rank peak Hcan Hr Hp) as [Hsub [Nr Np]].
  fold kept in Hsub, Nr, Np.
  unfold plot_answer.
  assert (Hs : issubset ["Rank"; "Peak"] (labels d) = true).
  { unfold issubset. cbn [forallb].
    now rewrite (column_label _ _ _ Hr), (column_label _ _ _ Hp). }
  rewrite Hs, Hsub. cbn [negb]. unfold df_empty. cbn [nrows columns List.length].
  rewrite orb_false_r.
  destruct (List.length kept =? 0) eqn:E; [reflexivity |].
  change (column {| nrows := List.length kept;
                    columns := [("Rank", map fst kept); ("Peak", map snd kept)] |}
            "Rank") with (Ok (map fst kept)).
  change (column {| nrows := List.length kept;
                    columns := [("Rank", map fst kept); ("Peak", map snd kept)] |}
            "Peak") with (Ok (map snd kept)).
  cbn [obind]. rewrite (floats_of_numbers _ Nr), (floats_of_numbers _ Np).
  fold xs ys. destruct w as [h figs].
  unfold bind, lift, plt_subplots, ax_scatter, ax_plot, ax_set_xlabel,
    ax_set_ylabel, ax_legend, plt_tight_layout, plt_savefig, plt_close,
    with_figure, ret.
  cbn [figures heap].
  destruct (linregress xs ys) as [fit | e |]; try reflexivity.
  cbn [figures heap add_artist fig_size fig_artists fig_xlabel fig_ylabel
         fig_legend fig_tight app fst snd].
  change {| fig_size := (6, 4);
            fig_artists :=
              [Scatter xs ys "Data points";
               Line [series_min xs; series_max xs]
                    (map (fun x => snd fit + fst fit * x)%float
                         [series_min xs; series_max xs])
                    "r--" "Regression line"];
            fig_xlabel := "Rank"; fig_ylabel := "Peak";
            fig_legend := true; fig_tight := false |}
    with (regression_drawing xs ys fit).
  destruct (tight_layout_error (regression_drawing xs ys fit)) as [e |];
    [reflexivity |].
  cbn [figures heap].
  change (laid_out (regression_drawing xs ys fit))
    with (regression_figure xs ys fit).
  destruct (savefig_error (regression_figure xs ys fit)) as [e |]; reflexivity.
Qed.

Lemma substring_prefix_length n : forall s,
  String.length (substring 0 n s) = Nat.min n (String.length s).
Proof.
  induction n as [|n IH]; intros [|c s]; simpl; try reflexivity.
  now rewrite IH.
Qed.

Lemma substring_whole n : forall s,
  String.length s <= n -> substring 0 n s = s.
Proof.
  induction n as [|n IH]; intros [|c s] H; simpl in *; try reflexivity;
    [lia |]. rewrite IH; [reflexivity | lia].
Qed.

(** The answer is the first [min (len u) 100000] characters of the data
    URI [u]. *)
Lemma clip_uri_prefix u :
  clip_uri u = substring 0 (Nat.min (String.length u) (Z.to_nat 100000)) u
  /\ Z.of_nat (String.length (clip_uri u))
     = Z.min (Z.of_nat (String.length u)) 100000.
Proof.
  unfold clip_uri.
  assert (HN : Z.of_nat (Z.to_nat 100000) = 100000%Z) by (apply Z2Nat.id; lia).
  set (N := Z.to_nat 100000) in *. clearbody N.
  destruct (Z.ltb_spec 100000 (Z.of_nat (String.length u))) as [Hlt | Hge].
  - replace (Nat.min (String.length u) N) with N by lia.
    split; [reflexivity |]. rewrite substring_prefix_length. lia.
  - replace (Nat.min (String.length u) N) with (String.length u) by lia.
    split; [symmetry; apply substring_whole; lia | lia].
Qed.

(** C7.  When a scatterplot question gets an answer on a canonical table,
    the answer is a text of at most 100,000 characters: it is the first
    100,000 characters of the data URI (prefix included) when that one is
    longer, and the whole data URI otherwise. *)
Theorem plot_uri_bounded `{PyLibs} (d : DataFrame) (q : string)
        (w w' : world) (a : answer) :
  canonical d ->
  matched_rule q = Plot ->
  answer_one (Some d) q w = (Ok a, w') ->
  exists u,
    a = AStr (clip_uri u)
    /\ (u = EmptyString \/ exists png, u = (data_uri_prefix ++ b64encode png)%string)
    /\ clip_uri u = substring 0 (Nat.min (String.length u) (Z.to_nat 100000)) u
    /\ Z.of_nat (String.length (clip_uri u))
       = Z.min (Z.of_nat (String.length u)) 100000
    /\ (Z.of_nat (String.length (clip_uri u)) <= 100000)%Z.
Proof.
  intros Hcan Hq Hrun. unfold answer_one in Hrun. rewrite Hq in Hrun.
  assert (Hgoal : forall u,
            a = AStr (clip_uri u) ->
            (u = EmptyString \/ exists png, u = (data_uri_prefix ++ b64encode png)%string) ->
            exists u,
              a = AStr (clip_uri u)
              /\ (u = EmptyString \/ exists png, u = (data_uri_prefix ++ b64encode png)%string)
              /\ clip_uri u = substring 0 (Nat.min (String.length u) (Z.to_nat 100000)) u
              /\ Z.of_nat (String.length (clip_uri u))
                 = Z.min (Z.of_nat (String.length u)) 100000
              /\ (Z.of_nat (String.length (clip_uri u)) <= 100000)%Z).
  { intros u Ha Hu. exists u. destruct (clip_uri_prefix u) as [E1 E2].
    repeat split; try assumption. rewrite E2. lia. }
  destruct (issubset ["Rank"; "Peak"] (labels d)) eqn:Hs.
  - apply issubset_two in Hs as [Hmr Hmp].
    destruct (canonical_column d "Rank" Hcan Hmr) as [rank [Hr _]].
    destruct (canonical_column d "Peak" Hcan Hmp) as [peak [Hp _]].
    rewrite (plot_answer_present d rank peak w Hcan Hr Hp) in Hrun.
    destruct (List.length (filter pair_complete (combine rank peak)) =? 0).
    + injection Hrun as <- _. apply (Hgoal ""); [reflexivity | now left].
    + destruct (linregress _ _) as [fit | e |]; try discriminate.
      destruct (tight_layout_error _) as [e |]; try discriminate.
      destruct (savefig_error _) as [e |]; try discriminate.
      injection Hrun as <- _. eapply Hgoal; [reflexivity |]. right. now eexists.
  - unfold plot_answer in Hrun. rewrite Hs in Hrun. injection Hrun as <- _.
    apply (Hgoal ""); [reflexivity | now left].
Qed.

Lemma plot_uri_bounded_witness :
  @answer_one sample_libs (Some ranks123) "scatterplot of rank and peak"
    (no_figure []) = (Ok (AStr ranks123_uri), no_figure [])
  /\ (Z.of_nat (String.length ranks123_uri) <= 100000)%Z.
Proof.
  assert (Hrun : @answer_one sample_libs (Some ranks123)
                   "scatterplot of rank and peak" (no_figure [])
                 = (Ok (AStr ranks123_uri), no_figure []))
    by (vm_compute; reflexivity).
  split; [exact Hrun |].
  destruct (@plot_uri_bounded sample_libs ranks123 "scatterplot of rank and peak"
              (no_figure []) (no_figure []) (AStr ranks123_uri)
              eq_refl eq_refl Hrun)
    as [u [Ha [_ [_ [_ Hle]]]]].
  injection Ha as Ha. rewrite Ha. exact Hle.
Defined.

(** C10.  A scatterplot question is answered by the empty text, and the
    state is left as it was, when normalization returned null and when the
    canonical table has the [Rank] and [Peak] columns but no row with both
    values. *)
Theorem plot_without_complete_row `{PyLibs} (ndf : option DataFrame)
        (q : string) (w : world) :
  (ndf = None
   \/ exists d rank peak,
        ndf = Some d /\ canonical d
        /\ column d "Rank" = Ok rank /\ column d "Peak" = Ok peak
        /\ forall p, In p (combine rank peak) -> pair_complete p = false) ->
  matched_rule q = Plot ->
  answer_one ndf q w = (Ok (AStr ""), w).
Proof.
  intros Hndf Hq. unfold answer_one. rewrite Hq.
  destruct Hndf as [-> | [d [rank [peak [-> [Hcan [Hr [Hp Hnone]]]]]]]];
    [reflexivity |].
  rewrite (plot_answer_present d rank peak w Hcan Hr Hp).
  replace (filter pair_complete (combine rank peak)) with (@nil (pyval * pyval));
    [reflexivity |].
  symmetry. apply filter_none, forallb_forall. intros p Hin.
  now rewrite (Hnone p Hin).
Qed.

Lemma plot_without_complete_row_witness :
  @answer_one sample_libs (Some no_complete_row) "Scatterplot of Rank vs Peak"
    (no_figure []) = (Ok (AStr ""), no_figure []).
Proof.
  apply (@plot_without_complete_row sample_libs); [| reflexivity].
  right. exists no_complete_row, [PFloat 1; PFloat nan], [PFloat nan; PFloat 2].
  repeat split; try reflexivity.
  intros p [<- | [<- | []]]; reflexivity.
Defined.

(** When the fit is refused, the exception leaves [answer_one]: there is
    no answer, and the figure opened for the drawing is still open. *)
Lemma plot_fit_failure `{PyLibs} d rank peak q w e :
  canonical d ->
  column d "Rank" = Ok rank -> column d "Peak" = Ok peak ->
  let kept := filter pair_complete (combine rank peak) in
  let xs := map cell_float (map fst kept) in
  let ys := map cell_float (map snd kept) in
  kept <> [] ->
  linregress xs ys = Raise e ->
  matched_rule q = Plot ->
  answer_one (Some d) q w
  = (Raise e, {| heap := heap w;
                 figures := scatter_figure (6, 4) xs ys :: figures w |}).
Proof.
  intros Hcan Hr Hp kept xs ys Hne Hfit Hq. unfold answer_one. rewrite Hq.
  rewrite (plot_answer_present d rank peak w Hcan Hr Hp).
  fold kept xs ys. rewrite Hfit.
  destruct kept; [now elim Hne | reflexivity].
Qed.

(** The helper of data_tools.py draws the same chart with the fit inside
    [try]/[except]: whatever the fit does, the figure goes on to be saved,
    without a trend line when there is no fit.  The saving is outside the
    [try]: when it raises, the exception leaves the function and the
    figure stays open; otherwise the figure is closed and the image is
    returned. *)
Lemma plot_rank_vs_peak_releases `{PyLibs} df rank peak w :
  canonical df ->
  column df "Rank" = Ok rank -> column df "Peak" = Ok peak ->
  let xs := map cell_float rank in
  let ys := map cell_float peak in
  let x := map cell_float (dropna_series rank) in
  let y := map cell_float (dropna_series peak) in
  let line :=
    match polyfit1 x y with
    | Some (m, b) =>
        [Line [series_min x; series_max x]
              (map (fun v => m * v + b)%float [series_min x; series_max x])
              "r--" "Trend"]
    | None => []
    end in
  plot_rank_vs_peak df w
  = match savefig_error (trend_figure xs ys line) with
    | Some e =>
        (Raise e, {| heap := heap w;
                     figures := trend_figure xs ys line :: figures w |})
    | None =>
        (Ok (data_uri_prefix
             ++ b64encode (savefig_png (trend_figure xs ys line)))%string, w)
    end.
Proof.
  intros Hcan Hr Hp xs ys x y line.
  assert (Hmr := column_label _ _ _ Hr). assert (Hmp := column_label _ _ _ Hp).
  destruct (canonical_column df "Rank" Hcan Hmr) as [r' [Hr' [_ Nr]]].
  destruct (canonical_column df "Peak" Hcan Hmp) as [p' [Hp' [_ Np]]].
  assert (r' = rank) by congruence. assert (p' = peak) by congruence.
  subst r' p'. specialize (Nr eq_refl). specialize (Np eq_refl).
  unfold plot_rank_vs_peak.
  assert (Hs : issubset ["Rank"; "Peak"] (labels df) = true)
    by (unfold issubset; cbn [forallb]; now rewrite Hmr, Hmp).
  rewrite Hs, Hr, Hp. cbn [negb obind].
  rewrite (floats_of_numbers _ Nr), (floats_of_numbers _ Np).
  unfold dropna_series in *.
  rewrite (floats_of_numbers _ (forallb_filter _ notna _ Nr)).
  rewrite (floats_of_numbers _ (forallb_filter _ notna _ Np)).
  fold xs ys x y.
  destruct w as [h figs].
  unfold bind, lift, raise, try_pass, plt_subplots, ax_scatter, ax_plot,
    ax_set_xlabel, ax_set_ylabel, ax_legend, plt_savefig, plt_close,
    with_figure, ret.
  cbn [figures heap]. unfold line, trend_figure.
  destruct (polyfit1 x y) as [[m b] |];
    unfold lift;
    cbn [figures heap add_artist fig_size fig_artists fig_xlabel fig_ylabel
           fig_legend fig_tight app];
    destruct (savefig_error _); reflexivity.
Qed.

(** C1 fails on the code.  Two films with the same rank: [linregress]
    refuses the data, nothing catches the exception in [answer_questions],
    so the caller gets the exception instead of a list of answers, and the
    figure is left open. *)
Theorem scatterplot_fit_failure_escapes `{PyLibs} :
  answer_questions "Draw a scatterplot of Rank and Peak" (Some 0)
    (no_figure [tied_ranks])
  = (Raise ValueError,
     {| heap := [tied_ranks; tied_ranks];
        figures := [scatter_figure (6, 4) [3; 3]%float [1; 2]%float] |}).
Proof. reflexivity. Qed.

(** On the same table the helper of data_tools.py does not let the fit
    out: it returns an image and leaves no figure open, unless the saving
    itself raises. *)
Lemma plot_rank_vs_peak_tied_ranks `{PyLibs} :
  (exists uri,
      plot_rank_vs_peak tied_ranks (no_figure []) = (Ok uri, no_figure []))
  \/ (exists e fig,
        savefig_error fig = Some e
        /\ plot_rank_vs_peak tied_ranks (no_figure [])
           = (Raise e, {| heap := []; figures := [fig] |})).
Proof.
  rewrite (plot_rank_vs_peak_releases tied_ranks [PInt 3; PInt 3] [PInt 1; PInt 2]
             (no_figure []) eq_refl eq_refl eq_refl).
  destruct (savefig_error _) as [e |] eqn:E.
  - right. eexists. eexists. split; [exact E | reflexivity].
  - left. eexists. reflexivity.
Qed.

(** * The normalizer *)

Lemma nth_error_last {A} (pre : list A) x :
  nth_error (pre ++ [x]) (List.length pre) = Some x.
Proof. rewrite nth_error_app2, Nat.sub_diag by lia. reflexivity. Qed.

Lemma list_set_last {A} (pre : list A) x y :
  list_set (pre ++ [x]) (List.length pre) y = pre ++ [y].
Proof. induction pre as [|a pre IH]; simpl; [reflexivity | now rewrite IH]. Qed.

Lemma normalize_unfold `{PyLibs} (l : loc) :
  _normalize_df (Some l)
  = (d <- deref l ;;
     if df_empty d then ret None
     else
       out <- alloc d ;;
       mutate out (fun o => df_set_columns o (map strip (labels o))) ;;;
       o <- deref out ;;
       out <- match find (fun c => mem c (labels o)) gross_aliases with
              | Some g =>
                  if negb (mem "Gross" (labels o))
                  then alloc (df_rename o g "Gross")
                  else ret out
              | None => ret out
              end ;;
       normalize_tail out).
Proof. reflexivity. Qed.

Lemma bind_assoc {A B C} (m : M A) (k1 : A -> M B) (k2 : B -> M C) w :
  bind (bind m k1) k2 w = bind m (fun a => bind (k1 a) k2) w.
Proof. unfold bind. destruct (m w) as [[a | e |] w']; reflexivity. Qed.

Lemma gross_step_run `{PyLibs} {A} pre o figs (K : unit -> M A) :
  bind (deref (List.length pre))
       (fun o0 => bind (if mem "Gross" (labels o0)
                        then assign_gross_num (List.length pre) else ret tt) K)
       {| heap := pre ++ [o]; figures := figs |}
  = match with_gross_num o with
    | Ok o' => K tt {| heap := pre ++ [o']; figures := figs |}
    | Raise e => (Raise e, {| heap := pre ++ [o]; figures := figs |})
    | Unmodelled => (Unmodelled, {| heap := pre ++ [o]; figures := figs |})
    end.
Proof.
  unfold with_gross_num, assign_gross_num, bind at 1, deref at 1.
  cbn [heap figures]. rewrite nth_error_last.
  destruct (mem "Gross" (labels o)); [| reflexivity].
  unfold bind, deref, mutate, raise, lift. cbn [heap figures].
  rewrite nth_error_last.
  destruct (df_getitem o "Gross") as [|g [|g' gs]]; try reflexivity.
  cbn [heap figures]. now rewrite nth_error_last, list_set_last.
Qed.

Lemma numeric_step_run `{PyLibs} {A} c pre o figs (K : unit -> M A) :
  bind (deref (List.length pre))
       (fun o1 => bind (if mem c (labels o1)
                        then assign_to_numeric (List.length pre) c else ret tt) K)
       {| heap := pre ++ [o]; figures := figs |}
  = match with_numeric c o with
    | Ok o' => K tt {| heap := pre ++ [o']; figures := figs |}
    | Raise e => (Raise e, {| heap := pre ++ [o]; figures := figs |})
    | Unmodelled => (Unmodelled, {| heap := pre ++ [o]; figures := figs |})
    end.
Proof.
  unfold with_numeric, assign_to_numeric, bind at 1, deref at 1.
  cbn [heap figures]. rewrite nth_error_last.
  destruct (mem c (labels o)); [| reflexivity].
  unfold bind, deref, mutate, raise, lift. cbn [heap figures].
  rewrite nth_error_last.
  destruct (df_getitem o c) as [|x [|x' xs]]; try reflexivity.
  cbn [heap figures]. now rewrite nth_error_last, list_set_last.
Qed.

Ltac next_numeric_step :=
  cbv beta; cbn [for_each];
  repeat (cbv beta; rewrite bind_assoc);
  cbv beta; rewrite numeric_step_run.

(** The end of the normalizer works on the last table of the store and
    leaves there what [numeric_steps] computes. *)
Lemma normalize_tail_run `{PyLibs} pre o figs :
  exists x,
    normalize_tail (List.length pre) {| heap := pre ++ [o]; figures := figs |}
    = (match numeric_steps o with
       | Ok _ => Ok (Some (List.length pre))
       | Raise e => Raise e
       | Unmodelled => Unmodelled
       end,
       {| heap := pre ++ [x]; figures := figs |})
    /\ forall r, numeric_steps o = Ok r -> x = r.
Proof.
  unfold normalize_tail, numeric_steps.
  rewrite gross_step_run.
  destruct (with_gross_num o) as [o1 | e |]; cbn [obind];
    try (eexists; split; [reflexivity | discriminate]).
  next_numeric_step.
  destruct (with_numeric "Year" o1) as [o2 | e |]; cbn [obind];
    try (eexists; split; [reflexivity | discriminate]).
  next_numeric_step.
  destruct (with_numeric "Rank" o2) as [o3 | e |]; cbn [obind];
    try (eexists; split; [reflexivity | discriminate]).
  next_numeric_step.
  destruct (with_numeric "Peak" o3) as [o4 | e |];
    try (eexists; split; [reflexivity | discriminate]).
  exists o4. split; [reflexivity | congruence].
Qed.

(** The run of [_normalize_df] on a table that is not empty: the tables of
    the store stay where they are, one or two tables are added after them,
    the last of which is the result. *)
Lemma normalize_run `{PyLibs} (l : loc) d w :
  nth_error (heap w) l = Some d -> df_empty d = false ->
  exists pre x,
    _normalize_df (Some l) w
    = (match normalized d with
       | Ok _ => Ok (Some (List.length (heap w ++ pre)))
       | Raise e => Raise e
       | Unmodelled => Unmodelled
       end,
       {| heap := (heap w ++ pre) ++ [x]; figures := figures w |})
    /\ forall r, normalized d = Ok r -> x = r.
Proof.
  intros Hd Hne. destruct w as [h figs]. cbn [heap figures] in *.
  rewrite normalize_unfold.
  unfold bind at 1, deref at 1. cbn [heap]. rewrite Hd, Hne.
  unfold bind at 1, alloc at 1. cbn [heap figures].
  unfold bind at 1, mutate at 1. cbn [heap figures].
  rewrite nth_error_last, list_set_last.
  unfold bind at 1, deref at 1. cbn [heap figures]. rewrite nth_error_last.
  fold (trimmed d). unfold normalized, aliased.
  destruct (find (fun c => mem c (labels (trimmed d))) gross_aliases) as [g |].
  - destruct (negb (mem "Gross" (labels (trimmed d)))).
    + unfold bind at 1, alloc at 1. cbn [heap figures].
      destruct (normalize_tail_run (h ++ [trimmed d])
                  (df_rename (trimmed d) g "Gross") figs) as [x [Hx Hr]].
      exists [trimmed d], x. split; [exact Hx | exact Hr].
    + unfold bind at 1, ret at 1.
      destruct (normalize_tail_run h (trimmed d) figs) as [x [Hx Hr]].
      exists [], x. rewrite app_nil_r. split; [exact Hx | exact Hr].
  - unfold bind at 1, ret at 1.
    destruct (normalize_tail_run h (trimmed d) figs) as [x [Hx Hr]].
    exists [], x. rewrite app_nil_r. split; [exact Hx | exact Hr].
Qed.

(** ** Assignment of a column *)

Lemma setitem_columns d c s :
  columns (df_setitem d c s)
  = if mem c (labels d) then map (replace_cells c s) (columns d)
    else columns d ++ [(c, s)].
Proof. reflexivity. Qed.

Lemma replace_cells_label c s col : fst (replace_cells c s col) = fst col.
Proof. unfold replace_cells. now destruct (String.eqb (fst col) c). Qed.

Lemma labels_setitem d c s :
  labels (df_setitem d c s)
  = if mem c (labels d) then labels d else labels d ++ [c].
Proof.
  unfold labels at 1. rewrite setitem_columns. destruct (mem c (labels d)).
  - rewrite map_map. unfold labels. apply map_ext. intros col.
    apply replace_cells_label.
  - now rewrite map_app.
Qed.

Lemma mem_app c l1 l2 : mem c (l1 ++ l2) = mem c l1 || mem c l2.
Proof. unfold mem. apply existsb_app. Qed.

Lemma mem_setitem_present d c s c' :
  mem c' (labels d) = true -> mem c' (labels (df_setitem d c s)) = true.
Proof.
  intros H. rewrite labels_setitem. destruct (mem c (labels d)); [exact H |].
  now rewrite mem_app, H.
Qed.

Lemma mem_setitem_other d c s c' :
  c' <> c -> mem c' (labels (df_setitem d c s)) = mem c' (labels d).
Proof.
  intros Hne. rewrite labels_setitem. destruct (mem c (labels d)); [reflexivity |].
  rewrite mem_app. cbn [mem existsb].
  destruct (String.eqb_spec c' c); [contradiction |]. now rewrite !orb_false_r.
Qed.

Lemma filter_replace_other c c' s cols :
  c' <> c ->
  filter (fun col => String.eqb (fst col) c') (map (replace_cells c s) cols)
  = filter (fun col => String.eqb (fst col) c') cols.
Proof.
  intros Hne. induction cols as [|col cols IH]; [reflexivity |].
  cbn [map filter]. rewrite replace_cells_label, IH.
  destruct (String.eqb_spec (fst col) c') as [E | E]; [| reflexivity].
  unfold replace_cells. destruct (String.eqb_spec (fst col) c); [congruence |].
  reflexivity.
Qed.

Lemma getitem_setitem_other d c s c' :
  c' <> c -> df_getitem (df_setitem d c s) c' = df_getitem d c'.
Proof.
  intros Hne. unfold df_getitem. rewrite setitem_columns.
  destruct (mem c (labels d)).
  - now rewrite filter_replace_other.
  - rewrite filter_app. cbn [filter fst].
    destruct (String.eqb_spec c c'); [congruence |]. now rewrite app_nil_r.
Qed.

Lemma filter_replace_same c s cols :
  map snd (filter (fun col => String.eqb (fst col) c) (map (replace_cells c s) cols))
  = map (fun _ => s)
        (map snd (filter (fun col => String.eqb (fst col) c) cols)).
Proof.
  induction cols as [|col cols IH]; [reflexivity |].
  cbn [map filter]. rewrite replace_cells_label.
  destruct (String.eqb (fst col) c) eqn:E; [| exact IH].
  cbn [map]. rewrite IH. unfold replace_cells. now rewrite E.
Qed.

Lemma getitem_setitem_same d c s :
  df_getitem (df_setitem d c s) c
  = if mem c (labels d) then map (fun _ => s) (df_getitem d c) else [s].
Proof.
  unfold df_getitem. rewrite setitem_columns.
  destruct (mem c (labels d)) eqn:Hm.
  - apply filter_replace_same.
  - rewrite filter_app. cbn [filter fst]. rewrite String.eqb_refl.
    unfold labels in Hm. now rewrite (mem_false_filter _ _ Hm).
Qed.

Lemma replace_cells_twice c s col :
  replace_cells c s (replace_cells c s col) = replace_cells c s col.
Proof.
  unfold replace_cells. destruct (String.eqb (fst col) c) eqn:E; cbn [fst];
    now rewrite E.
Qed.

Lemma replace_cells_absent c s cols :
  mem c (map fst cols) = false -> map (replace_cells c s) cols = cols.
Proof.
  induction cols as [|col cols IH]; [reflexivity |].
  cbn [map mem existsb]. fold (mem c (map fst cols)). intros H.
  apply orb_false_iff in H as [Hc H]. rewrite (IH H). f_equal.
  unfold replace_cells. rewrite String.eqb_sym. now rewrite Hc.
Qed.

Lemma frame_eq d1 d2 :
  nrows d1 = nrows d2 -> columns d1 = columns d2 -> d1 = d2.
Proof. destruct d1, d2. cbn. congruence. Qed.

(** Assigning the same cells twice is assigning them once. *)
Lemma setitem_twice d c s :
  df_setitem (df_setitem d c s) c s = df_setitem d c s.
Proof.
  apply frame_eq; [reflexivity |].
  rewrite (setitem_columns (df_setitem d c s)).
  destruct (mem c (labels (df_setitem d c s))) eqn:Hm.
  - rewrite setitem_columns. destruct (mem c (labels d)) eqn:Hd.
    + rewrite map_map. apply map_ext. intros col. apply replace_cells_twice.
    + rewrite map_app. cbn [map]. unfold labels in Hd.
      rewrite (replace_cells_absent _ _ _ Hd). f_equal.
      unfold replace_cells. cbn [fst]. now rewrite String.eqb_refl.
  - rewrite labels_setitem in Hm. destruct (mem c (labels d)) eqn:Hd;
      [congruence |].
    rewrite mem_app in Hm. cbn [mem existsb] in Hm.
    rewrite String.eqb_refl in Hm. now rewrite orb_true_r in Hm.
Qed.

Lemma replace_cells_commute c c' s t col :
  c <> c' ->
  replace_cells c s (replace_cells c' t col)
  = replace_cells c' t (replace_cells c s col).
Proof.
  intros Hne. unfold replace_cells.
  destruct (String.eqb_spec (fst col) c') as [E1 | E1];
    destruct (String.eqb_spec (fst col) c) as [E2 | E2]; cbn [fst].
  - congruence.
  - destruct (String.eqb_spec (fst col) c); [congruence |].
    destruct (String.eqb_spec (fst col) c'); [reflexivity | congruence].
  - destruct (String.eqb_spec (fst col) c); [| congruence].
    destruct (String.eqb_spec (fst col) c'); [congruence | reflexivity].
  - destruct (String.eqb_spec (fst col) c); [congruence |].
    destruct (String.eqb_spec (fst col) c'); [congruence | reflexivity].
Qed.

(** Assignments under two labels, the first of which is present, can be
    swapped. *)
Lemma setitem_commute d c c' s t :
  c <> c' -> mem c' (labels d) = true ->
  df_setitem (df_setitem d c' t) c s = df_setitem (df_setitem d c s) c' t.
Proof.
  intros Hne Hc'. apply frame_eq; [reflexivity |].
  rewrite (setitem_columns (df_setitem d c' t)).
  rewrite (setitem_columns (df_setitem d c s)).
  rewrite (mem_setitem_other d c' t c Hne).
  rewrite (mem_setitem_present d c s c' Hc').
  rewrite !setitem_columns, Hc'.
  destruct (mem c (labels d)).
  - rewrite !map_map. apply map_ext. intros col.
    now apply replace_cells_commute.
  - rewrite map_app. cbn [map]. f_equal. unfold replace_cells. cbn [fst].
    destruct (String.eqb_spec c c'); [congruence | reflexivity].
Qed.

(** ** The steps of the normalizer *)

Lemma to_numeric_idem `{PyLibs} x : to_numeric (to_numeric x) = to_numeric x.
Proof. now destruct x. Qed.

Lemma with_numeric_cases `{PyLibs} c o o' :
  with_numeric c o = Ok o' ->
  (mem c (labels o) = false /\ o' = o)
  \/ (exists s, mem c (labels o) = true /\ df_getitem o c = [s]
                /\ o' = df_setitem o c (map to_numeric s)).
Proof.
  unfold with_numeric. destruct (mem c (labels o)).
  - destruct (df_getitem o c) as [|s [|s' l]]; try discriminate.
    intros E. injection E as <-. right. now exists s.
  - intros E. injection E as <-. now left.
Qed.

Lemma with_gross_num_cases `{PyLibs} o o' :
  with_gross_num o = Ok o' ->
  (mem "Gross" (labels o) = false /\ o' = o)
  \/ (exists g, mem "Gross" (labels o) = true /\ df_getitem o "Gross" = [g]
                /\ o' = df_setitem o "GrossNum" (map parse_gross g)).
Proof.
  unfold with_gross_num. destruct (mem "Gross" (labels o)).
  - destruct (df_getitem o "Gross") as [|g [|g' l]]; try discriminate.
    intros E. injection E as <-. right. now exists g.
  - intros E. injection E as <-. now left.
Qed.

(** A step leaves its own result unchanged. *)
Lemma with_numeric_fix `{PyLibs} c o o' :
  with_numeric c o = Ok o' -> with_numeric c o' = Ok o'.
Proof.
  intros Hstep.
  destruct (with_numeric_cases c o o' Hstep) as [[_ ->] | [s [Hm [Hg ->]]]];
    [exact Hstep |].
  unfold with_numeric.
  rewrite (mem_setitem_present _ _ _ _ Hm), getitem_setitem_same, Hm, Hg.
  cbn [map]. rewrite map_map.
  rewrite (map_ext _ to_numeric to_numeric_idem). now rewrite setitem_twice.
Qed.

Lemma with_gross_num_fix `{PyLibs} o o' :
  with_gross_num o = Ok o' -> with_gross_num o' = Ok o'.
Proof.
  intros Hstep.
  destruct (with_gross_num_cases o o' Hstep) as [[_ ->] | [g [Hm [Hg ->]]]];
    [exact Hstep |].
  unfold with_gross_num.
  rewrite (mem_setitem_present _ _ _ _ Hm).
  rewrite getitem_setitem_other by discriminate.
  rewrite Hg. now rewrite setitem_twice.
Qed.

(** A step on another label keeps a table a fixed point of a step. *)
Lemma with_numeric_kept `{PyLibs} c c' o o' :
  c <> c' ->
  with_numeric c o = Ok o -> with_numeric c' o = Ok o' ->
  with_numeric c o' = Ok o'.
Proof.
  intros Hne Hfix Hstep.
  destruct (with_numeric_cases c' o o' Hstep) as [[_ ->] | [t [Hm' [_ ->]]]];
    [exact Hfix |].
  destruct (with_numeric_cases c o o Hfix) as [[Hm _] | [s [Hm [Hg Ho]]]].
  - unfold with_numeric. now rewrite mem_setitem_other, Hm.
  - unfold with_numeric.
    rewrite (mem_setitem_present _ _ _ _ Hm).
    rewrite getitem_setitem_other, Hg by exact Hne.
    rewrite (setitem_commute o c c' _ _ Hne Hm'). now rewrite <- Ho.
Qed.

Lemma with_gross_num_kept `{PyLibs} c' o o' :
  c' <> "Gross" -> c' <> "GrossNum" ->
  with_gross_num o = Ok o -> with_numeric c' o = Ok o' ->
  with_gross_num o' = Ok o'.
Proof.
  intros Hne1 Hne2 Hfix Hstep.
  destruct (with_numeric_cases c' o o' Hstep) as [[_ ->] | [t [Hm' [_ ->]]]];
    [exact Hfix |].
  destruct (with_gross_num_cases o o Hfix) as [[Hm _] | [g [Hm [Hg Ho]]]].
  - unfold with_gross_num. rewrite mem_setitem_other, Hm by congruence.
    reflexivity.
  - unfold with_gross_num.
    rewrite (mem_setitem_present _ _ _ _ Hm).
    rewrite getitem_setitem_other, Hg by congruence.
    rewrite (setitem_commute o "GrossNum" c' _ _ (not_eq_sym Hne2) Hm').
    now rewrite <- Ho.
Qed.

(** The steps in sequence reach a table they all leave unchanged. *)
Lemma numeric_steps_fix `{PyLibs} o o' :
  numeric_steps o = Ok o' -> numeric_steps o' = Ok o'.
Proof.
  unfold numeric_steps. intros Hrun.
  destruct (with_gross_num o) as [o1 | |] eqn:E1; try discriminate.
  cbn [obind] in Hrun.
  destruct (with_numeric "Year" o1) as [o2 | |] eqn:E2; try discriminate.
  cbn [obind] in Hrun.
  destruct (with_numeric "Rank" o2) as [o3 | |] eqn:E3; try discriminate.
  cbn [obind] in Hrun. rename Hrun into E4.
  assert (G1 := with_gross_num_fix _ _ E1).
  assert (G2 := with_gross_num_kept "Year" _ _ ltac:(discriminate) ltac:(discriminate) G1 E2).
  assert (G3 := with_gross_num_kept "Rank" _ _ ltac:(discriminate) ltac:(discriminate) G2 E3).
  assert (G4 := with_gross_num_kept "Peak" _ _ ltac:(discriminate) ltac:(discriminate) G3 E4).
  assert (Y2 := with_numeric_fix _ _ _ E2).
  assert (Y3 := with_numeric_kept "Year" "Rank" _ _ ltac:(discriminate) Y2 E3).
  assert (Y4 := with_numeric_kept "Year" "Peak" _ _ ltac:(discriminate) Y3 E4).
  assert (R3 := with_numeric_fix _ _ _ E3).
  assert (R4 := with_numeric_kept "Rank" "Peak" _ _ ltac:(discriminate) R3 E4).
  assert (P4 := with_numeric_fix _ _ _ E4).
  rewrite G4. cbn [obind]. rewrite Y4. cbn [obind]. rewrite R4. cbn [obind].
  exact P4.
Qed.

(** ** Labels along the normalizer *)

Lemma combine_fst_snd {A B} (l : list (A * B)) :
  combine (map fst l) (map snd l) = l.
Proof.
  induction l as [|[a b] l IH]; [reflexivity |]. cbn. now rewrite IH.
Qed.

Lemma labels_trimmed d : labels (trimmed d) = map strip (labels d).
Proof.
  unfold trimmed, df_set_columns, labels. cbn [columns].
  apply map_fst_combine. now rewrite !length_map.
Qed.

Lemma cells_trimmed d : map snd (columns (trimmed d)) = map snd (columns d).
Proof.
  unfold trimmed, df_set_columns, labels. cbn [columns].
  apply map_snd_combine. now rewrite !length_map.
Qed.

Lemma labels_rename d old new :
  labels (df_rename d old new)
  = map (fun l => if String.eqb l old then new else l) (labels d).
Proof.
  unfold df_rename, labels. cbn [columns]. rewrite !map_map.
  apply map_ext. intros col. now destruct (String.eqb (fst col) old).
Qed.

Lemma cells_rename d old new :
  map snd (columns (df_rename d old new)) = map snd (columns d).
Proof.
  unfold df_rename. cbn [columns]. rewrite map_map.
  apply map_ext. intros col. now destruct (String.eqb (fst col) old).
Qed.

Lemma trimmed_stripped o : stripped o -> trimmed o = o.
Proof.
  unfold stripped. intros Hs. apply frame_eq; [reflexivity |].
  unfold trimmed, df_set_columns. cbn [columns].
  replace (map strip (labels o)) with (labels o).
  - apply combine_fst_snd.
  - symmetry. rewrite <- (map_id (labels o)) at 2.
    apply map_ext_in. intros l Hl. rewrite Forall_forall in Hs. now apply Hs.
Qed.

Lemma stripped_trimmed d : stripped (trimmed d).
Proof.
  unfold stripped. rewrite labels_trimmed. apply Forall_forall.
  intros l Hl. apply in_map_iff in Hl as [x [<- _]]. apply strip_idem.
Qed.

Lemma stripped_aliased o : stripped o -> stripped (aliased o).
Proof.
  unfold aliased. intros Hs.
  destruct (find (fun c => mem c (labels o)) gross_aliases) as [g |];
    [| exact Hs].
  destruct (negb (mem "Gross" (labels o))); [| exact Hs].
  unfold stripped in *. rewrite labels_rename. rewrite Forall_forall in *.
  intros l Hl. apply in_map_iff in Hl as [x [<- Hx]].
  destruct (String.eqb x g); [reflexivity | now apply Hs].
Qed.

Lemma aliased_settled o : alias_settled (aliased o).
Proof.
  unfold aliased, alias_settled.
  destruct (find (fun c => mem c (labels o)) gross_aliases) as [g |] eqn:Ef.
  - apply find_some in Ef as [_ Hg].
    destruct (mem "Gross" (labels o)) eqn:Hm; cbn [negb]; [now left |].
    left. rewrite labels_rename. apply mem_In. apply mem_In in Hg.
    apply in_map_iff. exists g. now rewrite String.eqb_refl.
  - right. intros c Hc. apply (find_none _ _ Ef c Hc).
Qed.

Lemma settled_aliased o : alias_settled o -> aliased o = o.
Proof.
  unfold alias_settled, aliased. intros [Hm | Hnone].
  - unfold gross_aliases. cbn [find]. now rewrite Hm.
  - destruct (find (fun c => mem c (labels o)) gross_aliases) as [g |] eqn:Ef;
      [| reflexivity].
    apply find_some in Ef as [Hin Hg]. rewrite (Hnone g Hin) in Hg. discriminate.
Qed.

Lemma alias_not_gross_num c : In c gross_aliases -> c <> "GrossNum".
Proof.
  intros [<- | [<- | [<- | [<- | []]]]]; discriminate.
Qed.

Lemma setitem_kept o c s :
  strip c = c -> c <> "Gross" -> ~ In c gross_aliases ->
  kept_by_step o (df_setitem o c s).
Proof.
  intros Hc Hg Hal. unfold kept_by_step. split; [reflexivity |].
  split; [| split].
  - unfold stripped. rewrite labels_setitem.
    destruct (mem c (labels o)); [auto |]. intros Hs.
    apply Forall_app. split; [exact Hs | now constructor].
  - unfold alias_settled. intros [Hm | Hnone].
    + left. now apply mem_setitem_present.
    + right. intros a Ha. rewrite mem_setitem_other; [now apply Hnone |].
      intros ->. contradiction.
  - unfold df_empty. cbn [nrows]. rewrite setitem_columns.
    destruct (mem c (labels o)).
    + now rewrite length_map.
    + rewrite length_app. cbn [List.length].
      rewrite !orb_false_iff. intros [Hn _]. split; [exact Hn |].
      apply Nat.eqb_neq. lia.
Qed.

Lemma kept_refl o : kept_by_step o o.
Proof. unfold kept_by_step. auto. Qed.

Lemma kept_trans o1 o2 o3 :
  kept_by_step o1 o2 -> kept_by_step o2 o3 -> kept_by_step o1 o3.
Proof.
  unfold kept_by_step. intros [A1 [A2 [A3 A4]]] [B1 [B2 [B3 B4]]].
  repeat split; auto. congruence.
Qed.

Lemma with_numeric_keeps `{PyLibs} c o o' :
  In c ["Year"; "Rank"; "Peak"] ->
  with_numeric c o = Ok o' -> kept_by_step o o'.
Proof.
  intros Hc Hstep.
  destruct (with_numeric_cases c o o' Hstep) as [[_ ->] | [s [_ [_ ->]]]];
    [apply kept_refl |].
  destruct Hc as [<- | [<- | [<- | []]]]; apply setitem_kept;
    try reflexivity; try discriminate;
    intros [E | [E | [E | [E | []]]]]; discriminate.
Qed.

Lemma with_gross_num_keeps `{PyLibs} o o' :
  with_gross_num o = Ok o' -> kept_by_step o o'.
Proof.
  intros Hstep.
  destruct (with_gross_num_cases o o' Hstep) as [[_ ->] | [s [_ [_ ->]]]];
    [apply kept_refl |].
  apply setitem_kept; try reflexivity; try discriminate.
  intros [E | [E | [E | [E | []]]]]; discriminate.
Qed.

Lemma numeric_steps_keep `{PyLibs} o o' :
  numeric_steps o = Ok o' -> kept_by_step o o'.
Proof.
  unfold numeric_steps. intros Hrun.
  destruct (with_gross_num o) as [o1 | |] eqn:E1; try discriminate.
  cbn [obind] in Hrun.
  destruct (with_numeric "Year" o1) as [o2 | |] eqn:E2; try discriminate.
  cbn [obind] in Hrun.
  destruct (with_numeric "Rank" o2) as [o3 | |] eqn:E3; try discriminate.
  cbn [obind] in Hrun.
  apply (kept_trans o o1); [now apply with_gross_num_keeps |].
  apply (kept_trans o1 o2);
    [apply (with_numeric_keeps "Year"); [now left | exact E2] |].
  apply (kept_trans o2 o3);
    [apply (with_numeric_keeps "Rank"); [right; now left | exact E3] |].
  apply (with_numeric_keeps "Peak"); [right; right; now left | exact Hrun].
Qed.

Lemma empty_trimmed d : df_empty (trimmed d) = df_empty d.
Proof.
  unfold df_empty, trimmed, df_set_columns. cbn [nrows columns].
  rewrite length_combine, !length_map. unfold labels. rewrite length_map.
  now rewrite Nat.min_id.
Qed.

Lemma empty_aliased o : df_empty (aliased o) = df_empty o.
Proof.
  unfold aliased.
  destruct (find (fun c => mem c (labels o)) gross_aliases); [| reflexivity].
  destruct (negb (mem "Gross" (labels o))); [| reflexivity].
  unfold df_empty, df_rename. cbn [nrows columns]. now rewrite length_map.
Qed.

(** The value the normalizer returns is normalized to itself. *)
Lemma normalized_fix `{PyLibs} d o :
  df_empty d = false -> normalized d = Ok o ->
  normalized o = Ok o /\ df_empty o = false.
Proof.
  unfold normalized. intros Hne Hrun.
  destruct (numeric_steps_keep _ _ Hrun) as [_ [Hs [Ha He]]].
  specialize (Hs (stripped_aliased _ (stripped_trimmed d))).
  specialize (Ha (aliased_settled _)).
  split.
  - rewrite (trimmed_stripped o Hs), (settled_aliased o Ha).
    now apply (numeric_steps_fix (aliased (trimmed d))).
  - apply He. now rewrite empty_aliased, empty_trimmed.
Qed.

(** * Idempotence *)

(** C4.  When the normalizer has returned, applying it to its result
    returns again, and the table it yields equals the one it was given
    (null for null). *)
Theorem normalize_idempotent `{PyLibs} (df : option loc) (w w1 : world)
        (r1 : option loc) :
  _normalize_df df w = (Ok r1, w1) ->
  exists r2 w2 v,
    _normalize_df r1 w1 = (Ok r2, w2)
    /\ fst (deref_opt r1 w1) = Ok v
    /\ fst (deref_opt r2 w2) = Ok v.
Proof.
  intros Hrun. destruct df as [l |].
  2:{ injection Hrun as <- <-. exists None, w, None. now repeat split. }
  rewrite normalize_unfold in Hrun.
  destruct (nth_error (heap w) l) as [d |] eqn:Hd.
  2:{ unfold bind, deref in Hrun. rewrite Hd in Hrun. discriminate. }
  destruct (df_empty d) eqn:He.
  { unfold bind, deref, ret in Hrun. rewrite Hd, He in Hrun.
    injection Hrun as <- <-. exists None, w, None. now repeat split. }
  rewrite <- normalize_unfold in Hrun.
  destruct (normalize_run l d w Hd He) as [pre [x [E Hx]]].
  rewrite E in Hrun.
  destruct (normalized d) as [o | e |] eqn:En; try discriminate.
  injection Hrun as <- <-. rewrite (Hx o eq_refl) in *.
  destruct (normalized_fix d o He En) as [Hfix Hne].
  set (w1 := {| heap := (heap w ++ pre) ++ [o]; figures := figures w |}).
  assert (Ho : nth_error (heap w1) (List.length (heap w ++ pre)) = Some o)
    by apply nth_error_last.
  destruct (normalize_run _ o w1 Ho Hne) as [pre2 [x2 [E2 Hx2]]].
  rewrite Hfix in E2. rewrite (Hx2 o Hfix) in E2.
  eexists. eexists. exists (Some o). split; [exact E2 |].
  split.
  - unfold deref_opt, bind, deref, ret. now rewrite Ho.
  - unfold deref_opt, bind, deref, ret. cbn [heap]. now rewrite nth_error_last.
Qed.

Lemma normalize_idempotent_witness :
  exists r2 w2 v,
    @_normalize_df sample_libs (Some 2) films_normalized = (Ok r2, w2)
    /\ fst (deref_opt (Some 2) films_normalized) = Ok v
    /\ fst (deref_opt r2 w2) = Ok v.
Proof.
  apply (@normalize_idempotent sample_libs (Some 0) films_world films_normalized (Some 2)).
  vm_compute. reflexivity.
Defined.

(** * The derivation of [GrossNum] *)

Lemma filter_chars_all p s : forall_chars p (filter_chars p s) = true.
Proof.
  induction s as [|c s IH]; [reflexivity |]. simpl.
  destruct (p c) eqn:E; [simpl; now rewrite E | exact IH].
Qed.

Lemma filter_chars_keeps p q s :
  forall_chars p s = true -> forall_chars p (filter_chars q s) = true.
Proof.
  induction s as [|c s IH]; [reflexivity |]. simpl. intros H.
  apply andb_true_iff in H as [Hc Hs].
  destruct (q c); [simpl; now rewrite Hc, IH | auto].
Qed.

Lemma forall_chars_impl (p q : ascii -> bool) s :
  (forall c, p c = true -> q c = true) ->
  forall_chars p s = true -> forall_chars q s = true.
Proof.
  intros Hpq. induction s as [|c s IH]; [reflexivity |]. simpl. intros H.
  apply andb_true_iff in H as [Hc Hs]. now rewrite (Hpq c Hc), IH.
Qed.

(** The text [parse_gross] hands to [float] is made of digits and dots. *)
Lemma cleaned_alphabet s :
  forall_chars (fun c => is_digit c || Ascii.eqb c ".")
               (remove_commas (re_sub_non_numeric s)) = true.
Proof.
  unfold remove_commas, re_sub_non_numeric.
  set (keep := fun c => is_digit c || Ascii.eqb c "." || Ascii.eqb c ",").
  set (no_comma := fun c => negb (Ascii.eqb c ",")).
  apply (forall_chars_impl (fun c => keep c && no_comma c)).
  - intros c H. apply andb_true_iff in H as [Hk Hn]. unfold keep, no_comma in *.
    destruct (Ascii.eqb c ","); [discriminate |]. now rewrite orb_false_r in Hk.
  - induction (filter_chars keep s) as [|c t IH] eqn:E in s |- *.
    + reflexivity.
    + assert (Hall := filter_chars_all keep s). rewrite E in Hall.
      simpl in Hall. apply andb_true_iff in Hall as [Hc Ht].
      simpl. destruct (no_comma c) eqn:En.
      * simpl. rewrite Hc, En. simpl.
        clear E IH. induction t as [|c' t IHt]; [reflexivity |].
        simpl in Ht. apply andb_true_iff in Ht as [Hc' Ht]. simpl.
        destruct (no_comma c') eqn:En'; [simpl; now rewrite Hc', En', IHt | auto].
      * clear E IH. induction t as [|c' t IHt]; [reflexivity |].
        simpl in Ht. apply andb_true_iff in Ht as [Hc' Ht]. simpl.
        destruct (no_comma c') eqn:En'; [simpl; now rewrite Hc', En', IHt | auto].
Qed.

(** [parse_gross] is the derivation the specification describes, applied
    to the text of the cell; it always returns a float. *)
Lemma parse_gross_spec `{PyLibs} x :
  parse_gross x = PFloat (gross_num_of_text (py_str x)).
Proof.
  unfold parse_gross, gross_num_of_text, re_sub_non_numeric, remove_commas.
  now destruct (py_float _).
Qed.

Lemma getitem_nonempty d c : mem c (labels d) = true -> df_getitem d c <> [].
Proof.
  unfold df_getitem, labels. induction (columns d) as [|col cols IH];
    [discriminate |].
  cbn [map mem existsb filter]. fold (mem c (map fst cols)).
  rewrite String.eqb_sym. destruct (String.eqb (fst col) c); [discriminate |].
  exact IH.
Qed.

Lemma with_numeric_other `{PyLibs} c o o' c' :
  with_numeric c o = Ok o' -> c' <> c ->
  df_getitem o' c' = df_getitem o c' /\ mem c' (labels o') = mem c' (labels o).
Proof.
  intros Hstep Hne.
  destruct (with_numeric_cases c o o' Hstep) as [[_ ->] | [s [_ [_ ->]]]];
    [now split |].
  split; [now apply getitem_setitem_other | now apply mem_setitem_other].
Qed.

Lemma mem_gross_aliased o :
  mem "Gross" (labels (aliased o))
  = existsb (fun c => mem c (labels o)) gross_aliases.
Proof.
  unfold aliased.
  destruct (find (fun c => mem c (labels o)) gross_aliases) as [g |] eqn:Ef.
  - assert (Hex : existsb (fun c => mem c (labels o)) gross_aliases = true).
    { apply find_some in Ef as [Hin Hg]. apply existsb_exists. now exists g. }
    rewrite Hex. apply find_some in Ef as [_ Hg].
    destruct (mem "Gross" (labels o)) eqn:Hm; cbn [negb]; [exact Hm |].
    rewrite labels_rename. apply mem_In. apply mem_In in Hg.
    apply in_map_iff. exists g. now rewrite String.eqb_refl.
  - assert (Hno : existsb (fun c => mem c (labels o)) gross_aliases = false).
    { apply not_true_is_false. intros Hex. apply existsb_exists in Hex as [c [Hin Hc]].
      rewrite (find_none _ _ Ef c Hin) in Hc. discriminate. }
    rewrite Hno. apply (find_none _ _ Ef). now left.
Qed.

Lemma cells_aliased o : map snd (columns (aliased o)) = map snd (columns o).
Proof.
  unfold aliased.
  destruct (find (fun c => mem c (labels o)) gross_aliases); [| reflexivity].
  destruct (negb (mem "Gross" (labels o))); [apply cells_rename | reflexivity].
Qed.

(** The [Gross] and [GrossNum] columns of the normalized table. *)
Lemma normalized_gross `{PyLibs} d o :
  normalized d = Ok o ->
  mem "Gross" (labels o)
  = existsb (fun a => mem a (map strip (labels d))) gross_aliases
  /\ (mem "Gross" (labels o) = true ->
      exists gross,
        df_getitem o "Gross" = [gross]
        /\ In gross (map snd (columns d))
        /\ df_getitem o "GrossNum" <> []
        /\ forall s, In s (df_getitem o "GrossNum") ->
             s = map (fun x => PFloat (gross_num_of_text (py_str x))) gross).
Proof.
  unfold normalized, numeric_steps. set (a := aliased (trimmed d)). intros Hrun.
  destruct (with_gross_num a) as [o1 | |] eqn:E1; try discriminate.
  cbn [obind] in Hrun.
  destruct (with_numeric "Year" o1) as [o2 | |] eqn:E2; try discriminate.
  cbn [obind] in Hrun.
  destruct (with_numeric "Rank" o2) as [o3 | |] eqn:E3; try discriminate.
  cbn [obind] in Hrun. rename Hrun into E4.
  destruct (with_numeric_other _ _ _ "Gross" E2 ltac:(discriminate)) as [G2 M2].
  destruct (with_numeric_other _ _ _ "Gross" E3 ltac:(discriminate)) as [G3 M3].
  destruct (with_numeric_other _ _ _ "Gross" E4 ltac:(discriminate)) as [G4 M4].
  destruct (with_numeric_other _ _ _ "GrossNum" E2 ltac:(discriminate)) as [N2 _].
  destruct (with_numeric_other _ _ _ "GrossNum" E3 ltac:(discriminate)) as [N3 _].
  destruct (with_numeric_other _ _ _ "GrossNum" E4 ltac:(discriminate)) as [N4 _].
  assert (M1 : mem "Gross" (labels o1) = mem "Gross" (labels a)).
  { destruct (with_gross_num_cases a o1 E1) as [[_ ->] | [g [_ [_ ->]]]];
      [reflexivity |]. now apply mem_setitem_other. }
  assert (Hm : mem "Gross" (labels o) = mem "Gross" (labels a)) by congruence.
  split.
  - rewrite Hm. unfold a. now rewrite mem_gross_aliased, labels_trimmed.
  - intros Hg. rewrite Hm in Hg.
    destruct (with_gross_num_cases a o1 E1) as [[Hno _] | [g [_ [Hga ->]]]];
      [congruence |].
    exists g. rewrite G4, G3, G2, N4, N3, N2.
    rewrite getitem_setitem_other by discriminate.
    rewrite getitem_setitem_same.
    split; [exact Hga | split; [| split]].
    + assert (Hin : In g (map snd (columns a))).
      { apply in_map_iff. exists ("Gross", g). split; [reflexivity |].
        apply getitem_In. rewrite Hga. now left. }
      unfold a in Hin. now rewrite cells_aliased, cells_trimmed in Hin.
    + destruct (mem "GrossNum" (labels a)) eqn:Hn; [| discriminate].
      apply getitem_nonempty in Hn.
      destruct (df_getitem a "GrossNum"); [contradiction | discriminate].
    + intros s Hs.
      assert (Es : s = map parse_gross g).
      { destruct (mem "GrossNum" (labels a)).
        - apply in_map_iff in Hs as [t [<- _]]. reflexivity.
        - destruct Hs as [<- | []]. reflexivity. }
      rewrite Es. apply map_ext. intros x. apply parse_gross_spec.
Qed.



Example gross_num_of_films :
  map gross_num_of_text ["$2,923,706,026"; "$2,257,844,554"; "n/a"; "1.5.1"; ""]
  = [(2923706026 / 1000000000)%float; (2257844554 / 1000000000)%float;
     nan; nan; nan].
Proof. reflexivity. Qed.

(** ** The numeric columns of the result *)

Lemma to_numeric_number `{PyLibs} s : forallb is_number (map to_numeric s) = true.
Proof.
  rewrite forallb_map. apply forallb_forall. intros x _. now destruct x.
Qed.

Lemma with_numeric_numbers `{PyLibs} c o o' :
  with_numeric c o = Ok o' -> mem c (labels o') = true ->
  exists s, column o' c = Ok s /\ forallb is_number s = true.
Proof.
  intros Hstep Hm.
  destruct (with_numeric_cases c o o' Hstep) as [[Hno ->] | [s [Hp [Hg ->]]]];
    [congruence |].
  exists (map to_numeric s). split; [| apply to_numeric_number].
  apply column_Ok. now rewrite getitem_setitem_same, Hp, Hg.
Qed.

Lemma with_numeric_numbers_kept `{PyLibs} c c' o o' :
  c <> c' -> with_numeric c' o = Ok o' ->
  (mem c (labels o) = true ->
   exists s, column o c = Ok s /\ forallb is_number s = true) ->
  mem c (labels o') = true ->
  exists s, column o' c = Ok s /\ forallb is_number s = true.
Proof.
  intros Hne Hstep Hnum Hm.
  destruct (with_numeric_other c' o o' c Hstep Hne) as [Hg Hl].
  rewrite Hl in Hm. destruct (Hnum Hm) as [s [Hs Hn]].
  exists s. split; [| exact Hn]. apply column_Ok. rewrite Hg. now apply column_Ok.
Qed.

Lemma normalized_stripped `{PyLibs} d o : normalized d = Ok o -> stripped o.
Proof.
  unfold normalized. intros Hrun.
  destruct (numeric_steps_keep _ _ Hrun) as [_ [Hs _]].
  apply Hs, stripped_aliased, stripped_trimmed.
Qed.

(** In the table the normalizer returns, [Year], [Rank] and [Peak] are
    single columns of numbers. *)
Lemma normalized_numeric `{PyLibs} d o :
  normalized d = Ok o ->
  forall c, In c ["Year"; "Rank"; "Peak"] -> mem c (labels o) = true ->
            exists s, column o c = Ok s /\ forallb is_number s = true.
Proof.
  unfold normalized, numeric_steps. intros Hrun.
  destruct (with_gross_num (aliased (trimmed d))) as [o1 | |] eqn:E1;
    try discriminate.
  cbn [obind] in Hrun.
  destruct (with_numeric "Year" o1) as [o2 | |] eqn:E2; try discriminate.
  cbn [obind] in Hrun.
  destruct (with_numeric "Rank" o2) as [o3 | |] eqn:E3; try discriminate.
  cbn [obind] in Hrun. rename Hrun into E4.
  intros c [<- | [<- | [<- | []]]].
  - apply (with_numeric_numbers_kept "Year" "Peak" o3 o ltac:(discriminate) E4).
    apply (with_numeric_numbers_kept "Year" "Rank" o2 o3 ltac:(discriminate) E3).
    apply (with_numeric_numbers "Year" o1 o2 E2).
  - apply (with_numeric_numbers_kept "Rank" "Peak" o3 o ltac:(discriminate) E4).
    apply (with_numeric_numbers "Rank" o2 o3 E3).
  - apply (with_numeric_numbers "Peak" o3 o E4).
Qed.

(** * When the normalizer returns *)

Lemma nodupb_iff l : nodupb l = true <-> NoDup l.
Proof.
  induction l as [|x l IH]; cbn [nodupb].
  - split; [constructor | reflexivity].
  - rewrite andb_true_iff, negb_true_iff, IH. split.
    + intros [Hx Hl]. constructor; [| exact Hl].
      intros Hin. apply mem_In in Hin. congruence.
    + intros Hn. inversion Hn as [|? ? Hx Hl]; subst. split; [| exact Hl].
      apply not_true_is_false. intros Hm. now apply mem_In in Hm.
Qed.

Lemma nodup_setitem d c s : NoDup (labels d) -> NoDup (labels (df_setitem d c s)).
Proof.
  intros Hn. rewrite labels_setitem. destruct (mem c (labels d)) eqn:Hm;
    [exact Hn |].
  apply NoDup_rev in Hn. rewrite <- (rev_involutive (labels d ++ [c])).
  apply NoDup_rev. rewrite rev_app_distr. cbn [rev app]. constructor; [| exact Hn].
  rewrite <- in_rev. intros Hin. apply mem_In in Hin. congruence.
Qed.

Lemma nodup_rename_labels (l : list string) g new :
  NoDup l -> ~ In new l ->
  NoDup (map (fun x => if String.eqb x g then new else x) l).
Proof.
  induction 1 as [|x l Hx Hl IH]; intros Hnot; [constructor |].
  cbn [map]. constructor.
  - intros Hin. apply in_map_iff in Hin as [y [Ey Hy]].
    destruct (String.eqb_spec y g) as [Eyg | Hyg];
      destruct (String.eqb_spec x g) as [Exg | Hxg].
    + apply Hx. congruence.
    + apply Hnot. left. now symmetry.
    + apply Hnot. right. congruence.
    + apply Hx. congruence.
  - apply IH. intros Hin. apply Hnot. now right.
Qed.

Lemma nodup_rename d g new :
  NoDup (labels d) -> mem new (labels d) = false ->
  NoDup (labels (df_rename d g new)).
Proof.
  intros Hn Hnew. rewrite labels_rename. apply nodup_rename_labels; [exact Hn |].
  intros Hin. apply mem_In in Hin. congruence.
Qed.

Lemma nodup_aliased o : NoDup (labels o) -> NoDup (labels (aliased o)).
Proof.
  unfold aliased. intros Hn.
  destruct (find (fun c => mem c (labels o)) gross_aliases); [| exact Hn].
  destruct (mem "Gross" (labels o)) eqn:Hm; cbn [negb]; [exact Hn |].
  now apply nodup_rename.
Qed.

Lemma with_numeric_returns `{PyLibs} c o :
  NoDup (labels o) ->
  exists o', with_numeric c o = Ok o' /\ NoDup (labels o').
Proof.
  intros Hn. unfold with_numeric. destruct (mem c (labels o)) eqn:Hm.
  - destruct (getitem_present o c (proj2 (nodupb_iff _) Hn) Hm) as [s ->].
    eexists. split; [reflexivity | now apply nodup_setitem].
  - now exists o.
Qed.

Lemma with_gross_num_returns `{PyLibs} o :
  NoDup (labels o) ->
  exists o', with_gross_num o = Ok o' /\ NoDup (labels o').
Proof.
  intros Hn. unfold with_gross_num. destruct (mem "Gross" (labels o)) eqn:Hm.
  - destruct (getitem_present o "Gross" (proj2 (nodupb_iff _) Hn) Hm) as [s ->].
    eexists. split; [reflexivity | now apply nodup_setitem].
  - now exists o.
Qed.

(** The normalizer returns a table whenever the trimmed labels of its
    input are distinct. *)
Lemma normalized_returns `{PyLibs} d :
  NoDup (map strip (labels d)) -> exists o, normalized d = Ok o.
Proof.
  intros Hn. rewrite <- labels_trimmed in Hn. apply nodup_aliased in Hn.
  unfold normalized, numeric_steps.
  destruct (with_gross_num_returns _ Hn) as [o1 [-> H1]]. cbn [obind].
  destruct (with_numeric_returns "Year" _ H1) as [o2 [-> H2]]. cbn [obind].
  destruct (with_numeric_returns "Rank" _ H2) as [o3 [-> H3]]. cbn [obind].
  destruct (with_numeric_returns "Peak" _ H3) as [o4 [-> _]].
  now exists o4.
Qed.

Lemma normalize_returns `{PyLibs} (l : loc) d w :
  nth_error (heap w) l = Some d -> df_empty d = false ->
  NoDup (map strip (labels d)) ->
  exists l' w', _normalize_df (Some l) w = (Ok (Some l'), w').
Proof.
  intros Hd He Hn. destruct (normalize_run l d w Hd He) as [pre [x [E _]]].
  destruct (normalized_returns d Hn) as [o Ho]. rewrite Ho in E.
  eexists. eexists. exact E.
Qed.

(** With a label twice after trimming the normalizer may raise: here two
    [Year] columns. *)
Example normalize_repeated_year `{PyLibs} :
  fst (_normalize_df (Some 0)
         (no_figure [ {| nrows := 1;
                         columns := [("Year", [PInt 1997]); (" Year", [PInt 1998])] |} ]))
  = Raise TypeError.
Proof. reflexivity. Qed.


(** * The Count-Before-Year answerer *)

Lemma ltb_not_nan x y :
  (x <? y)%float = true ->
  PrimFloat.is_nan x = false /\ PrimFloat.is_nan y = false.
Proof.
  rewrite ltb_spec, !is_nan_false. unfold SFltb, SFcompare.
  destruct (Prim2SF x), (Prim2SF y); try discriminate; split; discriminate.
Qed.

(** X1.  On a canonical table the count is 0 when [GrossNum] or [Year] is absent
    (or the table is null); otherwise it is the number of rows whose
    [GrossNum] is at least 2.0 and whose [Year] is below 2000, and a row
    with a missing [GrossNum] or [Year] is never counted. *)
Theorem count_before_year `{PyLibs} (d : DataFrame) :
  canonical d ->
  count_answer None = Ok (AInt 0)
  /\ (issubset ["GrossNum"; "Year"] (labels d) = false ->
      count_answer (Some d) = Ok (AInt 0))
  /\ (forall gross year,
        column d "GrossNum" = Ok gross -> column d "Year" = Ok year ->
        count_answer (Some d)
        = Ok (AInt (Z.of_nat (List.length (filter counted (combine gross year)))))
        /\ forall p, In p (filter counted (combine gross year)) ->
                     notna (fst p) = true /\ notna (snd p) = true).
Proof.
  intros Hcan. split; [reflexivity |]. split.
  - intros Hs. unfold count_answer. now rewrite Hs.
  - intros gross year Hg Hy.
    assert (Hmg := column_label _ _ _ Hg). assert (Hmy := column_label _ _ _ Hy).
    destruct (canonical_column d "GrossNum" Hcan Hmg) as [g' [Hg' [Lg Ng]]].
    destruct (canonical_column d "Year" Hcan Hmy) as [y' [Hy' [Ly Ny]]].
    assert (g' = gross) by congruence. assert (y' = year) by congruence.
    subst g' y'. specialize (Ng eq_refl). specialize (Ny eq_refl).
    assert (Eg : gross = map fst (combine gross year))
      by (symmetry; apply map_fst_combine; lia).
    assert (Ey : year = map snd (combine gross year))
      by (symmetry; apply map_snd_combine; lia).
    split.
    + unfold count_answer.
      assert (Hs : issubset ["GrossNum"; "Year"] (labels d) = true)
        by (unfold issubset; cbn [forallb]; now rewrite Hmg, Hmy).
      rewrite Hs, Hg, Hy. cbn [negb obind].
      rewrite (series_cmp_numbers _ _ Ng). cbn [obind].
      rewrite (series_cmp_numbers _ _ Ny). cbn [obind].
      assert (Em : mask_and (map (fun x => (2 <=? cell_float x)%float) gross)
                            (map (fun x => (cell_float x <? 2000)%float) year)
                   = map counted (combine gross year)).
      { transitivity
          (mask_and (map (fun x => (2 <=? cell_float x)%float)
                         (map fst (combine gross year)))
                    (map (fun x => (cell_float x <? 2000)%float)
                         (map snd (combine gross year))));
          [now rewrite <- Eg, <- Ey |].
        rewrite !map_map. apply mask_and_map. }
      rewrite Em. unfold bool_index. cbn [nrows].
      now rewrite count_mask_map.
    + intros [g y] Hin. apply filter_In in Hin as [Hin Hc].
      unfold counted in Hc. cbn [fst snd] in *.
      apply andb_true_iff in Hc as [Hc1 Hc2].
      apply leb_not_nan in Hc1 as [_ Hn1]. apply ltb_not_nan in Hc2 as [Hn2 _].
      rewrite forallb_forall in Ng, Ny.
      rewrite (notna_cell_float g (Ng g (in_combine_l _ _ _ _ Hin))), Hn1.
      rewrite (notna_cell_float y (Ny y (in_combine_r _ _ _ _ Hin))), Hn2.
      now split.
Qed.

Lemma count_before_year_witness :
  canonical three_grosses
  /\ count_answer (Some three_grosses) = Ok (AInt 1).
Proof.
  split; [reflexivity |].
  destruct (@count_before_year sample_libs three_grosses eq_refl) as [_ [_ H]].
  destruct (H _ _ eq_refl eq_refl) as [E _]. rewrite E. reflexivity.
Defined.

(** * The answers as a whole *)

(** The state after the drawing: the tables are never touched, and when an
    answer comes back every figure that was opened has been closed. *)
Lemma plot_answer_state `{PyLibs} ndf w :
  heap (snd (plot_answer ndf w)) = heap w
  /\ forall a, fst (plot_answer ndf w) = Ok a -> snd (plot_answer ndf w) = w.
Proof.
  unfold plot_answer. destruct ndf as [d |]; [| now split].
  destruct (negb (issubset ["Rank"; "Peak"] (labels d))); [now split |].
  destruct (df_empty (dropna (df_select d ["Rank"; "Peak"]))); [now split |].
  destruct w as [h figs].
  unfold bind, lift, plt_subplots, ax_scatter, ax_plot, ax_set_xlabel,
    ax_set_ylabel, ax_legend, plt_tight_layout, plt_savefig, plt_close,
    with_figure, ret.
  destruct (obind (column (dropna (df_select d ["Rank"; "Peak"])) "Rank") _)
    as [rank | e |]; cbn [fst snd heap figures];
    try (split; [reflexivity | discriminate]).
  destruct (obind (column (dropna (df_select d ["Rank"; "Peak"])) "Peak") _)
    as [peak | e |]; cbn [fst snd heap figures];
    try (split; [reflexivity | discriminate]).
  destruct (linregress rank peak) as [fit | e |]; cbn [fst snd heap figures];
    try (split; [reflexivity | discriminate]).
  destruct (tight_layout_error _) as [e |]; cbn [fst snd heap figures];
    try (split; [reflexivity | discriminate]).
  destruct (savefig_error _) as [e |]; cbn [fst snd heap figures];
    try (split; [reflexivity | discriminate]).
  now split.
Qed.

Lemma answer_one_state `{PyLibs} ndf q w :
  heap (snd (answer_one ndf q w)) = heap w
  /\ forall a, fst (answer_one ndf q w) = Ok a -> snd (answer_one ndf q w) = w.
Proof.
  unfold answer_one. destruct (matched_rule q); try (now split).
  apply plot_answer_state.
Qed.

Lemma for_each_state {A B} (f : A -> M B) l :
  (forall x w, heap (snd (f x w)) = heap w
               /\ forall a, fst (f x w) = Ok a -> snd (f x w) = w) ->
  forall w, heap (snd (for_each f l w)) = heap w
            /\ forall ys, fst (for_each f l w) = Ok ys -> snd (for_each f l w) = w.
Proof.
  intros Hf. induction l as [|x l IH]; intros w; [now split |].
  cbn [for_each]. unfold bind.
  destruct (Hf x w) as [Hh Hok].
  destruct (f x w) as [[y | e |] w1] eqn:Ex; cbn [fst snd] in *;
    try (split; [exact Hh | discriminate]).
  rewrite (Hok y eq_refl) in *. clear Hok Hh.
  destruct (IH w) as [Hh Hok].
  destruct (for_each f l w) as [[ys | e |] w2]; cbn [fst snd] in *;
    try (split; [exact Hh | discriminate]).
  split; [exact Hh |]. intros ys' _. now apply (Hok ys).
Qed.

(** What [_normalize_df] does to the state: it adds tables after those of
    the store, and nothing else. *)
Lemma normalize_state `{PyLibs} (df : option loc) w :
  exists extra,
    snd (_normalize_df df w)
    = {| heap := heap w ++ extra; figures := figures w |}.
Proof.
  destruct df as [l |].
  2:{ exists []. destruct w. cbn. now rewrite app_nil_r. }
  assert (Hsame : {| heap := heap w ++ []; figures := figures w |} = w)
    by (destruct w; cbn; now rewrite app_nil_r).
  destruct (nth_error (heap w) l) as [d |] eqn:Hd.
  2:{ exists []. rewrite normalize_unfold. unfold bind, deref. now rewrite Hd. }
  destruct (df_empty d) eqn:He.
  { exists []. rewrite normalize_unfold. unfold bind, deref, ret.
    now rewrite Hd, He. }
  destruct (normalize_run l d w Hd He) as [pre [x [E _]]].
  exists (pre ++ [x]). rewrite E. cbn [snd]. now rewrite app_assoc.
Qed.

Lemma nth_error_deref_opt (r : option loc) w :
  snd (deref_opt r w) = w.
Proof.
  destruct r as [l |]; [| reflexivity].
  unfold deref_opt, bind, deref, ret. now destruct (nth_error (heap w) l).
Qed.

(** A loop whose body leaves the state as it was whenever it returns runs
    every step in the state it started in. *)
Lemma for_each_at {A B} (f : A -> M B) l :
  (forall x w, heap (snd (f x w)) = heap w
               /\ forall a, fst (f x w) = Ok a -> snd (f x w) = w) ->
  forall w ys w',
    for_each f l w = (Ok ys, w') ->
    w' = w /\ Forall2 (fun x y => f x w = (Ok y, w)) l ys.
Proof.
  intros Hf. induction l as [|x l IH]; intros w ys w' Hrun.
  - injection Hrun as <- <-. split; [reflexivity | constructor].
  - cbn [for_each] in Hrun. unfold bind at 1 in Hrun.
    destruct (Hf x w) as [_ Hok].
    destruct (f x w) as [[y | e |] w1] eqn:Ex; try discriminate.
    cbn [fst snd] in Hok. specialize (Hok y eq_refl). subst w1.
    unfold bind at 1 in Hrun.
    destruct (for_each f l w) as [[ys' | e |] w2] eqn:El; try discriminate.
    injection Hrun as <- <-.
    destruct (IH w ys' w2 El) as [-> HF].
    split; [reflexivity | constructor; [exact Ex | exact HF]].
Qed.

(** X2.  When [answer_questions] returns, the normalizer has returned, and
    the answers are, one per question and in the order of the questions,
    those the loop body gives on the table the normalizer returned (or on
    null), each computed in the state the normalizer left, which is also
    the final state. *)
Theorem answers_aligned `{PyLibs} (question_str : string) (df : option loc)
        (w w' : world) (answers : list answer) :
  answer_questions question_str df w = (Ok answers, w') ->
  exists r ndf,
    _normalize_df df w = (Ok r, w')
    /\ deref_opt r w' = (Ok ndf, w')
    /\ Forall2 (fun q a => answer_one ndf q w' = (Ok a, w'))
               (segment_questions question_str) answers
    /\ List.length answers = List.length (segment_questions question_str).
Proof.
  unfold answer_questions. intros Hrun. unfold bind at 1 in Hrun.
  destruct (_normalize_df df w) as [[r | e |] w1]; try discriminate.
  unfold bind at 1 in Hrun.
  pose proof (nth_error_deref_opt r w1) as Hsame.
  destruct (deref_opt r w1) as [[ndf | e |] w2] eqn:Ed; try discriminate.
  cbn [snd] in Hsame. subst w2.
  destruct (for_each_at (answer_one ndf) (segment_questions question_str)
              (answer_one_state ndf) w1 answers w' Hrun) as [-> HF].
  exists r, ndf. split; [reflexivity |]. split; [exact Ed |].
  split; [exact HF | symmetry; eapply Forall2_length, HF].
Qed.

Lemma answers_aligned_witness :
  exists ndf,
    @answer_questions sample_libs
      "How many $2 bn movies were released before 2000?" (Some 0) films_world
    = (Ok [AInt 1], films_normalized)
    /\ @answer_one sample_libs ndf
         "How many $2 bn movies were released before 2000?" films_normalized
       = (Ok (AInt 1), films_normalized).
Proof.
  assert (Hrun : @answer_questions sample_libs
                   "How many $2 bn movies were released before 2000?" (Some 0)
                   films_world
                 = (Ok [AInt 1], films_normalized))
    by (vm_compute; reflexivity).
  destruct (@answers_aligned sample_libs _ _ _ _ _ Hrun)
    as [r [ndf [_ [_ [HF _]]]]].
  exists ndf. split; [exact Hrun |].
  change (segment_questions "How many $2 bn movies were released before 2000?")
    with ["How many $2 bn movies were released before 2000?"] in HF.
  inversion HF as [| q a qs rest Hq Hrest]. exact Hq.
Defined.

(** X3.  Without a table (none given, or an empty one) [answer_questions] never
    raises and leaves the state as it was: every question gets the default
    of its rule, 0, the empty text, 0.0, the empty text, or the sentinel. *)
Theorem answers_without_table `{PyLibs} (question_str : string)
        (df : option loc) (w : world) :
  (df = None
   \/ exists l d, df = Some l /\ nth_error (heap w) l = Some d
                  /\ df_empty d = true) ->
  answer_questions question_str df w
  = (Ok (map null_answer (segment_questions question_str)), w).
Proof.
  intros Hdf.
  assert (Hnorm : _normalize_df df w = (Ok None, w)).
  { destruct Hdf as [-> | [l [d [-> [Hd He]]]]]; [reflexivity |].
    rewrite normalize_unfold. unfold bind, deref, ret. now rewrite Hd, He. }
  unfold answer_questions. unfold bind at 1. rewrite Hnorm.
  unfold bind at 1. cbn [deref_opt ret].
  induction (segment_questions question_str) as [|q qs IH]; [reflexivity |].
  cbn [for_each map]. unfold bind at 1.
  assert (Hq : answer_one None q w = (Ok (null_answer q), w)).
  { unfold answer_one, null_answer. now destruct (matched_rule q). }
  rewrite Hq. unfold bind at 1. now rewrite IH.
Qed.

Lemma answers_without_table_witness :
  @answer_questions sample_libs "What is the correlation of rank and peak?"
    (Some 0) (no_figure [no_columns])
  = (Ok [AFloat 0], no_figure [no_columns]).
Proof.
  apply (@answers_without_table sample_libs). right.
  exists 0, no_columns. repeat split.
Defined.

(** X4.  [answer_questions] is read-only for the caller: whatever the outcome,
    every table of the store is left as it was; and when answers come
    back, the open figures are those that were open before. *)
Theorem answer_questions_frame `{PyLibs} (question_str : string)
        (df : option loc) (w : world) :
  let r := fst (answer_questions question_str df w) in
  let w' := snd (answer_questions question_str df w) in
  (forall l d, nth_error (heap w) l = Some d -> nth_error (heap w') l = Some d)
  /\ (forall answers, r = Ok answers -> figures w' = figures w).
Proof.
  cbv zeta.
  assert (Hrun : exists extra,
            heap (snd (answer_questions question_str df w)) = heap w ++ extra
            /\ forall answers,
                 fst (answer_questions question_str df w) = Ok answers ->
                 figures (snd (answer_questions question_str df w)) = figures w).
  { unfold answer_questions, bind.
    destruct (normalize_state df w) as [extra Hn]. exists extra.
    destruct (_normalize_df df w) as [[r | e |] w1]; cbn [fst snd] in *;
      subst w1; cbn [heap figures]; try (split; [reflexivity | discriminate]).
    set (w1 := {| heap := heap w ++ extra; figures := figures w |}).
    pose proof (nth_error_deref_opt r w1) as Hd.
    destruct (deref_opt r w1) as [[ndf | e |] w2]; cbn [fst snd] in *;
      subst w2; try (split; [reflexivity | discriminate]).
    destruct (for_each_state (answer_one ndf) (segment_questions question_str)
                (answer_one_state ndf) w1) as [Hh Hok].
    destruct (for_each (answer_one ndf) (segment_questions question_str) w1)
      as [[ys | e |] w2]; cbn [fst snd] in *;
      try (split; [exact Hh | discriminate]).
    split; [exact Hh |]. intros _ _. now rewrite (Hok ys eq_refl). }
  destruct Hrun as [extra [Hh Hf]]. split; [| exact Hf].
  intros l d Hl. rewrite Hh.
  rewrite nth_error_app1; [exact Hl | apply nth_error_Some; congruence].
Qed.

(** * The size of the image answer *)

Lemma b64encode_length_upto n : forall bs,
  List.length bs <= n ->
  String.length (b64encode bs) = 4 * ((List.length bs + 2) / 3).
Proof.
  induction n as [n IH] using lt_wf_ind.
  intros [|a [|b [|c rest]]] Hn; try reflexivity.
  cbn [List.length] in Hn.
  cbn [b64encode String.length List.length].
  rewrite (IH (List.length rest)) by lia.
  replace (S (S (S (List.length rest))) + 2)
    with (List.length rest + 2 + 1 * 3) by lia.
  rewrite Nat.div_add by lia. lia.
Qed.

(** Base64 writes four characters for every three bytes, the last group
    padded. *)
Lemma b64encode_length bs :
  String.length (b64encode bs) = 4 * ((List.length bs + 2) / 3).
Proof. now apply (b64encode_length_upto (List.length bs)). Qed.

Lemma string_length_app (a b : string) :
  String.length (a ++ b) = String.length a + String.length b.
Proof. induction a as [|c a IH]; simpl; [reflexivity | now rewrite IH]. Qed.

Lemma data_uri_length png :
  Z.of_nat (String.length (data_uri_prefix ++ b64encode png))
  = (22 + 4 * ((Z.of_nat (List.length png) + 2) / 3))%Z.
Proof.
  rewrite string_length_app, b64encode_length.
  change (String.length data_uri_prefix) with 22.
  rewrite Nat2Z.inj_add, Nat2Z.inj_mul, Nat2Z.inj_div, Nat2Z.inj_add.
  reflexivity.
Qed.

(** X5.  When the fit, the layout and the saving all succeed, the answer has
    22 + 4 * ceil(n / 3) characters for a PNG of n bytes, cut to 100,000:
    the data URI comes back whole exactly when the PNG has at most 74,982
    bytes.  A cut answer keeps 99,978 characters of Base64, which is not a
    whole number of groups of four. *)
Theorem plot_uri_length `{PyLibs} (d : DataFrame) (rank peak : Series)
        (fit : float * float) (w : world) :
  canonical d ->
  column d "Rank" = Ok rank -> column d "Peak" = Ok peak ->
  let kept := filter pair_complete (combine rank peak) in
  let xs := map cell_float (map fst kept) in
  let ys := map cell_float (map snd kept) in
  kept <> [] ->
  linregress xs ys = Ok fit ->
  tight_layout_error (regression_drawing xs ys fit) = None ->
  savefig_error (regression_figure xs ys fit) = None ->
  let png := savefig_png (regression_figure xs ys fit) in
  let n := Z.of_nat (List.length png) in
  exists u,
    plot_answer (Some d) w = (Ok (AStr u), w)
    /\ Z.of_nat (String.length u) = Z.min 100000 (22 + 4 * ((n + 2) / 3))
    /\ (u = (data_uri_prefix ++ b64encode png)%string <-> (n <= 74982)%Z)
    /\ ((74982 < n)%Z ->
        (Z.of_nat (String.length u) - 22 = 99978)%Z
        /\ ((Z.of_nat (String.length u) - 22) mod 4 = 2)%Z).
Proof.
  intros Hcan Hr Hp kept xs ys Hne Hfit Hlayout Hsave png n.
  exists (clip_uri (data_uri_prefix ++ b64encode png)).
  assert (Hrun : plot_answer (Some d) w
                 = (Ok (AStr (clip_uri (data_uri_prefix ++ b64encode png))), w)).
  { rewrite (plot_answer_present d rank peak w Hcan Hr Hp).
    fold kept xs ys. rewrite Hfit, Hlayout, Hsave.
    destruct kept; [now elim Hne | reflexivity]. }
  split; [exact Hrun |].
  destruct (clip_uri_prefix (data_uri_prefix ++ b64encode png)) as [_ Hlen].
  pose proof (data_uri_length png) as Hu. fold n in Hu.
  assert (Hlen' : Z.of_nat (String.length (clip_uri (data_uri_prefix ++ b64encode png)))
                  = Z.min 100000 (22 + 4 * ((n + 2) / 3))) by lia.
  assert (Hthr : (22 + 4 * ((n + 2) / 3) <= 100000 <-> n <= 74982)%Z).
  { assert (0 <= n)%Z by (unfold n; lia).
    pose proof (Z.div_mod (n + 2) 3 ltac:(lia)).
    pose proof (Z.mod_pos_bound (n + 2) 3 ltac:(lia)). lia. }
  split; [exact Hlen' |]. split; [split |].
  - intros E. rewrite E in Hlen'. lia.
  - intros Hn. unfold clip_uri.
    destruct (Z.ltb_spec 100000
                (Z.of_nat (String.length (data_uri_prefix ++ b64encode png))));
      [lia | reflexivity].
  - intros Hn. rewrite Hlen'.
    replace (Z.min 100000 (22 + 4 * ((n + 2) / 3))) with 100000%Z by lia.
    split; reflexivity.
Qed.

Lemma plot_uri_length_witness :
  exists u,
    @plot_answer sample_libs (Some ranks123) (no_figure [])
    = (Ok (AStr u), no_figure [])
    /\ (Z.of_nat (String.length u) <= 100000)%Z.
Proof.
  destruct (@plot_uri_length sample_libs ranks123
              [PInt 1; PInt 2; PInt 3] [PInt 1; PInt 2; PInt 3]
              (@least_squares sample_libs [1; 2; 3]%float [1; 2; 3]%float)
              (no_figure []) eq_refl eq_refl eq_refl
              ltac:(discriminate) ltac:(vm_compute; reflexivity)
              ltac:(vm_compute; reflexivity) ltac:(vm_compute; reflexivity))
    as [u [Hrun [Hlen _]]].
  exists u. split; [exact Hrun | lia].
Defined.

(** When the layout raises, as the renderer does on data whose extent
    overflows, the exception leaves [answer_questions] and the
    figure stays open: here two ranks whose difference overflows, with the
    sample renderer. *)
Example plot_layout_failure_escapes :
  exists fig,
    @answer_questions sample_libs "Draw a scatterplot of Rank and Peak" (Some 0)
      (no_figure [wide_ranks])
    = (Raise ValueError,
       {| heap := [wide_ranks; wide_ranks]; figures := [fig] |}).
Proof. eexists. vm_compute. reflexivity. Qed.

(** * The chart of data_tools.py *)

(** X6.  On a canonical table [plot_rank_vs_peak] returns the empty text
    without the two columns.  With them, whatever the fit does, the figure
    (the points, and the trend line when there is a fit) goes on to be
    saved: when the saving raises, the exception leaves the function and
    the figure stays open; otherwise the state is left as it was and the
    whole data URI of the image is returned, never cut. *)
Theorem plot_rank_vs_peak_outcomes `{PyLibs} (df : DataFrame) (w : world) :
  canonical df ->
  (issubset ["Rank"; "Peak"] (labels df) = false ->
   plot_rank_vs_peak df w = (Ok EmptyString, w))
  /\ forall rank peak,
       column df "Rank" = Ok rank -> column df "Peak" = Ok peak ->
       let xs := map cell_float rank in
       let ys := map cell_float peak in
       let x := map cell_float (dropna_series rank) in
       let y := map cell_float (dropna_series peak) in
       let line :=
         match polyfit1 x y with
         | Some (m, b) =>
             [Line [series_min x; series_max x]
                   (map (fun v => m * v + b)%float [series_min x; series_max x])
                   "r--" "Trend"]
         | None => []
         end in
       let fig := trend_figure xs ys line in
       let uri := (data_uri_prefix ++ b64encode (savefig_png fig))%string in
       plot_rank_vs_peak df w
       = match savefig_error fig with
         | Some e =>
             (Raise e, {| heap := heap w; figures := fig :: figures w |})
         | None => (Ok uri, w)
         end
       /\ String.length uri
          = 22 + 4 * ((List.length (savefig_png fig) + 2) / 3).
Proof.
  intros Hcan. split.
  - intros Hs. unfold plot_rank_vs_peak. now rewrite Hs.
  - intros rank peak Hr Hp xs ys x y line fig uri. split.
    + apply (plot_rank_vs_peak_releases df rank peak w Hcan Hr Hp).
    + unfold uri. rewrite string_length_app, b64encode_length. reflexivity.
Qed.

Lemma plot_rank_vs_peak_outcomes_witness :
  exists uri,
    @plot_rank_vs_peak sample_libs tied_ranks (no_figure [])
    = (Ok uri, no_figure []).
Proof.
  destruct (@plot_rank_vs_peak_outcomes sample_libs tied_ranks (no_figure [])
              eq_refl) as [_ Hrun].
  destruct (Hrun [PInt 3; PInt 3] [PInt 1; PInt 2] eq_refl eq_refl) as [E _].
  cbv zeta in E.
  destruct (savefig_error _) as [e |] eqn:Es in E;
    [vm_compute in Es; discriminate Es | eexists; exact E].
Defined.

(** * From the normalizer to the answerers *)

Lemma wf_cells d :
  wf d <-> Forall (fun s => List.length s = nrows d) (map snd (columns d)).
Proof. unfold wf. now rewrite Forall_map. Qed.

Lemma wf_trimmed d : wf d -> wf (trimmed d).
Proof. rewrite !wf_cells, cells_trimmed. exact (fun H => H). Qed.

Lemma wf_rename d old new : wf d -> wf (df_rename d old new).
Proof. rewrite !wf_cells, cells_rename. exact (fun H => H). Qed.

Lemma wf_aliased o : wf o -> wf (aliased o).
Proof.
  intros Hw. unfold aliased.
  destruct (find (fun c => mem c (labels o)) gross_aliases) as [g |]; [| exact Hw].
  destruct (negb (mem "Gross" (labels o))); [now apply wf_rename | exact Hw].
Qed.

Lemma wf_setitem d c s :
  wf d -> List.length s = nrows d -> wf (df_setitem d c s).
Proof.
  unfold wf, df_setitem. cbn [nrows columns]. intros Hw Hs.
  destruct (mem c (labels d)).
  - apply Forall_map. eapply Forall_impl; [| exact Hw].
    intros col Hcol. cbv beta. now destruct (String.eqb (fst col) c).
  - apply Forall_app. split; [exact Hw | now constructor].
Qed.

Lemma wf_getitem d c s : wf d -> In s (df_getitem d c) -> List.length s = nrows d.
Proof.
  intros Hw Hin. apply getitem_In in Hin. unfold wf in Hw.
  rewrite Forall_forall in Hw. exact (Hw _ Hin).
Qed.

Lemma with_numeric_sound `{PyLibs} c o o' :
  with_numeric c o = Ok o' -> wf o -> NoDup (labels o) ->
  wf o' /\ NoDup (labels o').
Proof.
  intros Hrun Hw Hn.
  destruct (with_numeric_cases _ _ _ Hrun) as [[_ ->] | [s [_ [Hs ->]]]];
    [now split |].
  split; [| now apply nodup_setitem].
  apply wf_setitem; [exact Hw |]. rewrite length_map.
  apply (wf_getitem o c); [exact Hw |]. rewrite Hs. now left.
Qed.

Lemma with_gross_num_sound `{PyLibs} o o' :
  with_gross_num o = Ok o' -> wf o -> NoDup (labels o) ->
  wf o' /\ NoDup (labels o').
Proof.
  intros Hrun Hw Hn.
  destruct (with_gross_num_cases _ _ Hrun) as [[_ ->] | [g [_ [Hg ->]]]];
    [now split |].
  split; [| now apply nodup_setitem].
  apply wf_setitem; [exact Hw |]. rewrite length_map.
  apply (wf_getitem o "Gross"); [exact Hw |]. rewrite Hg. now left.
Qed.

Lemma normalized_sound `{PyLibs} d o :
  wf d -> NoDup (map strip (labels d)) -> normalized d = Ok o ->
  wf o /\ NoDup (labels o).
Proof.
  intros Hw Hn. unfold normalized, numeric_steps.
  apply wf_trimmed, wf_aliased in Hw.
  rewrite <- labels_trimmed in Hn. apply nodup_aliased in Hn.
  destruct (with_gross_num (aliased (trimmed d))) as [o1 | |] eqn:E1;
    cbn [obind]; try discriminate.
  destruct (with_gross_num_sound _ _ E1 Hw Hn) as [Hw1 Hn1].
  destruct (with_numeric "Year" o1) as [o2 | |] eqn:E2; cbn [obind]; try discriminate.
  destruct (with_numeric_sound _ _ _ E2 Hw1 Hn1) as [Hw2 Hn2].
  destruct (with_numeric "Rank" o2) as [o3 | |] eqn:E3; cbn [obind]; try discriminate.
  destruct (with_numeric_sound _ _ _ E3 Hw2 Hn2) as [Hw3 Hn3].
  intros E4. exact (with_numeric_sound _ _ _ E4 Hw3 Hn3).
Qed.

Lemma canonical_iff d :
  canonical d <->
  wf d /\ NoDup (labels d)
  /\ forall c s, In (c, s) (columns d) -> mem c numeric_labels = true ->
                 forallb is_number s = true.
Proof.
  unfold canonical, canonicalb, wf.
  rewrite !andb_true_iff, !forallb_forall, nodupb_iff, Forall_forall.
  split.
  - intros [[H1 H2] H3]. split; [| split; [exact H2 |]].
    + intros col Hc. apply Nat.eqb_eq. now apply H1.
    + intros c s Hin Hm. specialize (H3 _ Hin). cbn [fst snd] in H3.
      now rewrite Hm in H3.
  - intros [H1 [H2 H3]]. split; [split; [| exact H2] |].
    + intros col Hc. apply Nat.eqb_eq. now apply H1.
    + intros [c s] Hin. cbn [fst snd].
      destruct (mem c numeric_labels) eqn:Hm; [| reflexivity].
      now rewrite (H3 c s Hin Hm).
Qed.

Lemma getitem_of_In d c s : In (c, s) (columns d) -> In s (df_getitem d c).
Proof.
  intros Hin. unfold df_getitem. apply in_map_iff. exists (c, s).
  split; [reflexivity |]. apply filter_In. split; [exact Hin |].
  apply String.eqb_refl.
Qed.

(** The table [normalized] gives for a well-formed table whose trimmed
    labels are distinct is canonical exactly when its [GrossNum] column
    holds numbers, which is so whenever a gross column was found. *)
Lemma normalized_canonical_iff `{PyLibs} d o :
  wf d -> NoDup (map strip (labels d)) -> normalized d = Ok o ->
  (canonical o <->
   forall s, In s (df_getitem o "GrossNum") -> forallb is_number s = true)
  /\ (mem "Gross" (labels o) = true -> canonical o).
Proof.
  intros Hw Hn Ho.
  destruct (normalized_sound d o Hw Hn Ho) as [Hwo Hno].
  assert (Hiff : canonical o <->
                 forall s, In s (df_getitem o "GrossNum") ->
                           forallb is_number s = true).
  { rewrite canonical_iff. split.
    - intros [_ [_ H3]] s Hs. apply (H3 "GrossNum" s); [| reflexivity].
      now apply getitem_In.
    - intros Hg. split; [exact Hwo |]. split; [exact Hno |].
      intros c s Hin Hm. apply getitem_of_In in Hin.
      assert (Hc : c = "GrossNum" \/ In c ["Year"; "Rank"; "Peak"]).
      { apply mem_In in Hm. destruct Hm as [<- | Hm]; [now left | now right]. }
      destruct Hc as [-> | Hc]; [now apply Hg |].
      assert (Hmem : mem c (labels o) = true).
      { apply mem_In. apply getitem_In in Hin.
        unfold labels. apply in_map_iff. now exists (c, s). }
      destruct (normalized_numeric d o Ho c Hc Hmem) as [s' [Hs' Hnum]].
      apply column_Ok in Hs'. rewrite Hs' in Hin.
      destruct Hin as [<- | []]. exact Hnum. }
  split; [exact Hiff |].
  intros Hgross. apply Hiff. intros s Hs.
  destruct (normalized_gross d o Ho) as [_ Hg].
  destruct (Hg Hgross) as [gross [_ [_ [_ Hall]]]].
  rewrite (Hall s Hs). apply forallb_forall. intros x Hx.
  apply in_map_iff in Hx as [y [<- _]]. reflexivity.
Qed.

(** * The normalizer and the caller's tables *)

(** C9, as the code has it.  Whatever the outcome, every table of the
    caller is left as it was (so is the set of open figures).  The result
    is null exactly when the input is absent or empty, that is has no row
    or no column.  Otherwise the normalizer returns a table whenever the
    trimmed labels of the input are distinct.  A table that is returned is
    a new object of the store; it holds the normalized value of the input,
    whose labels are trimmed and whose [Year], [Rank] and [Peak] columns,
    when present, are single and numeric; for a well-formed input with
    distinct trimmed labels it is canonical exactly when its [GrossNum]
    column holds numbers, as it does whenever a gross column was found. *)
Theorem normalize_frame `{PyLibs} (df : option loc) (w : world) :
  let r := fst (_normalize_df df w) in
  let w' := snd (_normalize_df df w) in
  (forall l d, nth_error (heap w) l = Some d -> nth_error (heap w') l = Some d)
  /\ figures w' = figures w
  /\ (r = Ok None <->
      df = None
      \/ exists l d, df = Some l /\ nth_error (heap w) l = Some d
                     /\ df_empty d = true)
  /\ (forall l d, df = Some l -> nth_error (heap w) l = Some d ->
                  df_empty d = false -> NoDup (map strip (labels d)) ->
                  exists l', r = Ok (Some l'))
  /\ (forall l', r = Ok (Some l') ->
      List.length (heap w) <= l'
      /\ exists l d o, df = Some l /\ nth_error (heap w) l = Some d
                       /\ normalized d = Ok o
                       /\ nth_error (heap w') l' = Some o
                       /\ stripped o
                       /\ (forall c, In c ["Year"; "Rank"; "Peak"] ->
                             mem c (labels o) = true ->
                             exists s, column o c = Ok s
                                       /\ forallb is_number s = true)
                       /\ (wf d -> NoDup (map strip (labels d)) ->
                           (canonical o <->
                            forall s, In s (df_getitem o "GrossNum") ->
                                      forallb is_number s = true)
                           /\ (mem "Gross" (labels o) = true -> canonical o))).
Proof.
  destruct df as [l |].
  2:{ cbn. split; [auto | split; [reflexivity | split; [| split]]].
      - split; [now left | reflexivity].
      - discriminate.
      - discriminate. }
  destruct (nth_error (heap w) l) as [d |] eqn:Hd.
  2:{ assert (E : _normalize_df (Some l) w = (Unmodelled, w)).
      { rewrite normalize_unfold. unfold bind, deref. now rewrite Hd. }
      rewrite E. cbn. split; [auto | split; [reflexivity | split; [| split]]].
      - split; [discriminate |].
        intros [H0 | [l0 [d [H0 [H1 _]]]]]; [discriminate |].
        injection H0 as <-. congruence.
      - intros l0 d [= <-] H1. congruence.
      - discriminate. }
  destruct (df_empty d) eqn:He.
  { assert (E : _normalize_df (Some l) w = (Ok None, w)).
    { rewrite normalize_unfold. unfold bind, deref. now rewrite Hd, He. }
    rewrite E. cbn. split; [auto | split; [reflexivity | split; [| split]]].
    - split; [| reflexivity]. intros _. right. now exists l, d.
    - intros l0 d0 [= <-] H1 H2. congruence.
    - discriminate. }
  destruct (normalize_run l d w Hd He) as [pre [x [E Hx]]].
  rewrite E. cbn [fst snd heap figures].
  split; [| split; [reflexivity | split; [| split]]].
  - intros l0 d0 H0. rewrite <- app_assoc.
    rewrite nth_error_app1; [exact H0 |]. apply nth_error_Some. congruence.
  - split.
    + destruct (normalized d); discriminate.
    + intros [H0 | [l0 [d0 [H0 [H1 H2]]]]]; [discriminate |].
      injection H0 as <-. congruence.
  - intros l0 d0 [= <-] H1 _ Hn. assert (d0 = d) by congruence. subst d0.
    destruct (normalized_returns d Hn) as [o ->]. now eexists.
  - intros l' Hl'. destruct (normalized d) as [o | e |] eqn:En; try discriminate.
    injection Hl' as <-. split; [rewrite length_app; lia |].
    exists l, d, o.
    split; [reflexivity | split; [exact Hd | split; [exact En |]]].
    split; [rewrite (Hx o eq_refl); apply nth_error_last |].
    split; [exact (normalized_stripped d o En) |].
    split; [exact (normalized_numeric d o En) |].
    intros Hw Hn. exact (normalized_canonical_iff d o Hw Hn En).
Qed.

(** C9 as it was stated fails twice.  A table with rows and no column is
    empty for pandas, and the normalizer returns null for it.  And a table
    that is returned need not be canonical: without a gross column a
    [GrossNum] column of text is passed on as it is. *)
Lemma normalize_result_counterexample :
  ~ (forall (l : loc) (d : DataFrame) (w : world),
       nth_error (heap w) l = Some d ->
       (fst (@_normalize_df sample_libs (Some l) w) = Ok None <-> nrows d = 0))
  /\ ~ (forall (l : loc) (d : DataFrame) (w w' : world) (l' : loc),
          nth_error (heap w) l = Some d ->
          @_normalize_df sample_libs (Some l) w = (Ok (Some l'), w') ->
          exists o, nth_error (heap w') l' = Some o /\ canonical o).
Proof.
  split.
  - intros H.
    specialize (H 0 no_columns (no_figure [no_columns]) eq_refl).
    destruct H as [H _]. specialize (H eq_refl). discriminate.
  - intros H.
    destruct (H 0 text_gross_num (no_figure [text_gross_num])
                (no_figure [text_gross_num; text_gross_num]) 1
                eq_refl eq_refl) as [o [Ho Hcan]].
    injection Ho as <-. discriminate.
Qed.

(** X7.  The table [_normalize_df] returns for a well-formed table whose
    trimmed labels are distinct is one the answerers are specified on, a
    canonical table, exactly when its [GrossNum] column holds numbers; that
    is so whenever a gross column was found. *)
Theorem normalized_canonical `{PyLibs} (l : loc) (d : DataFrame)
        (w w' : world) (l' : loc) :
  nth_error (heap w) l = Some d ->
  wf d -> NoDup (map strip (labels d)) ->
  _normalize_df (Some l) w = (Ok (Some l'), w') ->
  exists o,
    nth_error (heap w') l' = Some o
    /\ (canonical o <->
        forall s, In s (df_getitem o "GrossNum") -> forallb is_number s = true)
    /\ (mem "Gross" (labels o) = true -> canonical o).
Proof.
  intros Hd Hw Hn Hrun.
  destruct (df_empty d) eqn:He.
  { rewrite normalize_unfold in Hrun. unfold bind, deref, ret in Hrun.
    rewrite Hd, He in Hrun. discriminate. }
  destruct (normalize_run l d w Hd He) as [pre [x [E Hx]]].
  rewrite E in Hrun.
  destruct (normalized d) as [o | e |] eqn:Ho; try discriminate.
  specialize (Hx o eq_refl). subst x.
  injection Hrun as <- <-. exists o. cbn [heap].
  split; [apply nth_error_last |].
  exact (normalized_canonical_iff d o Hw Hn Ho).
Qed.

Lemma normalized_canonical_witness :
  exists o,
    nth_error (heap films_normalized) 2 = Some o /\ canonical o.
Proof.
  destruct (@normalized_canonical sample_libs 0 films films_world
              films_normalized 2 eq_refl)
    as [o [Ho [_ Hcan]]].
  - unfold wf, films. cbn [columns nrows]. repeat constructor.
  - vm_compute. repeat constructor; cbn; intuition discriminate.
  - vm_compute. reflexivity.
  - exists o. split; [exact Ho |]. apply Hcan.
    vm_compute in Ho. injection Ho as <-. reflexivity.
Defined.

(** * What can raise *)

Lemma for_each_null_answers `{PyLibs} qs w :
  for_each (answer_one None) qs w = (Ok (map null_answer qs), w).
Proof.
  induction qs as [|q qs IH]; [reflexivity |].
  cbn [for_each map]. unfold bind at 1.
  assert (Hq : answer_one None q w = (Ok (null_answer q), w)).
  { unfold answer_one, null_answer. now destruct (matched_rule q). }
  rewrite Hq. unfold bind at 1. now rewrite IH.
Qed.


Lemma filter_split_length {A} (p : A -> bool) l :
  List.length (filter (fun a => negb (p a)) l) + List.length (filter p l)
  = List.length l.
Proof.
  induction l as [|a l IH]; [reflexivity |].
  simpl. destruct (p a); simpl; lia.
Qed.

Lemma argsort_length keys : List.length (argsort keys) = List.length keys.
Proof.
  unfold argsort. rewrite length_app, !length_map.
  rewrite (Permutation_length (Permutation_sym (stable_sort_perm key_le _))).
  rewrite (filter_split_length (fun a : float * nat => PrimFloat.is_nan (fst a))).
  rewrite length_combine, length_seq. lia.
Qed.

Lemma count_answer_returns d :
  canonical d -> exists a, count_answer (Some d) = Ok a.
Proof.
  intros Hcan. unfold count_answer.
  destruct (issubset ["GrossNum"; "Year"] (labels d)) eqn:Hs;
    [| now eexists].
  apply issubset_two in Hs as [Hmg Hmy].
  destruct (canonical_column d "GrossNum" Hcan Hmg) as [gross [Hg [_ Ng]]].
  destruct (canonical_column d "Year" Hcan Hmy) as [year [Hy [_ Ny]]].
  rewrite Hg, Hy. cbn [negb obind].
  rewrite (series_cmp_numbers _ _ (Ng eq_refl)). cbn [obind].
  rewrite (series_cmp_numbers _ _ (Ny eq_refl)). cbn [obind].
  now eexists.
Qed.

Lemma correlation_answer_returns `{PyLibs} d :
  canonical d -> exists a, correlation_answer (Some d) = Ok a.
Proof.
  intros Hcan. unfold correlation_answer.
  destruct (issubset ["Rank"; "Peak"] (labels d)) eqn:Hs; [| now eexists].
  apply issubset_two in Hs as [Hmr Hmp].
  destruct (canonical_column d "Rank" Hcan Hmr) as [rank [Hr _]].
  destruct (canonical_column d "Peak" Hcan Hmp) as [peak [Hp _]].
  destruct (rank_peak_sub d rank peak Hcan Hr Hp) as [Hsub [Nr Np]].
  rewrite Hsub. cbn [negb]. unfold df_empty. cbn [nrows columns List.length].
  rewrite orb_false_r.
  destruct (List.length (filter pair_complete (combine rank peak)) =? 0);
    [now eexists |].
  match goal with
  | |- context [column ?t "Rank"] =>
      change (column t "Rank")
        with (Ok (map fst (filter pair_complete (combine rank peak))));
      change (column t "Peak")
        with (Ok (map snd (filter pair_complete (combine rank peak))))
  end.
  cbn [obind]. rewrite (floats_of_numbers _ Nr), (floats_of_numbers _ Np).
  cbn [obind]. now eexists.
Qed.

Lemma argsort_int_length keys :
  List.length (argsort_int keys) = List.length keys.
Proof.
  unfold argsort_int. rewrite length_map.
  rewrite (Permutation_length (Permutation_sym (stable_sort_perm int_key_le _))).
  rewrite length_combine, length_seq. lia.
Qed.

(** A float column outside [Year], [Rank] and [Peak] settles the dtype of
    the rows. *)
Lemma row_dtype_settled d c s :
  In (c, s) (columns d) -> mem c ["Year"; "Rank"; "Peak"] = false ->
  series_dtype s = Float64 -> row_dtype d <> None.
Proof.
  intros Hin Hc Hs. unfold row_dtype. cbv zeta.
  destruct (existsb (fun t => match t with Object => true | _ => false end)
              (map (fun col => series_dtype (snd col)) (columns d)));
    [discriminate |].
  destruct (forallb (fun t => match t with Int64 => true | _ => false end)
              (map (fun col => series_dtype (snd col)) (columns d)));
    [discriminate |].
  assert (E : existsb (fun col => negb (mem (fst col) ["Year"; "Rank"; "Peak"])
                                  && match series_dtype (snd col) with
                                     | Float64 => true
                                     | _ => false
                                     end) (columns d) = true).
  { apply existsb_exists. exists (c, s). split; [exact Hin |]. cbn [fst snd].
    now rewrite Hc, Hs. }
  rewrite E. discriminate.
Qed.

Lemma earliest_answer_returns `{PyLibs} d :
  canonical d -> row_dtype d <> None ->
  exists a, earliest_answer (Some d) = Ok a.
Proof.
  intros Hcan Hrow. unfold earliest_answer.
  destruct (issubset ["GrossNum"; "Year"] (labels d)) eqn:Hs;
    [| now eexists].
  destruct (mem "Title" (labels d)) eqn:Hmt; [| now eexists].
  apply issubset_two in Hs as [Hmg Hmy]. cbn [negb orb].
  destruct (canonical_column d "GrossNum" Hcan Hmg) as [gross [Hg [Lg Ng]]].
  destruct (canonical_column d "Year" Hcan Hmy) as [year [Hy [Ly Ny]]].
  destruct (canonical_column d "Title" Hcan Hmt) as [title [Ht [Lt _]]].
  specialize (Ng eq_refl). specialize (Ny eq_refl).
  destruct (films_columns gross year title (nrows d) Lg Ly Lt) as [Eg [Ey Et]].
  set (rows := films_of gross year title) in *.
  set (kept := filter year_present (filter above_threshold rows)).
  assert (Hyears : forallb (fun r => is_number (film_year r)) rows = true)
    by (rewrite <- forallb_map, <- Ey; exact Ny).
  rewrite Hg. cbn [obind]. rewrite (series_cmp_numbers _ _ Ng). cbn [obind].
  assert (Em1 : map (fun x => (1.5 <? cell_float x)%float) gross
                = map above_threshold rows)
    by (rewrite Eg at 1; now rewrite map_map).
  rewrite Em1. unfold dropna_subset.
  rewrite (column_bool_index _ _ _ _ Hy). cbn [obind].
  assert (Em2 : map notna (mask_filter (map above_threshold rows) year)
                = map year_present (filter above_threshold rows))
    by (rewrite Ey at 1; now rewrite mask_filter_map, map_map).
  rewrite Em2.
  set (m1 := map above_threshold rows).
  set (m2 := map year_present (filter above_threshold rows)).
  assert (Hyk : column (bool_index (bool_index d m1) m2) "Year"
                = Ok (map film_year kept)).
  { rewrite (column_bool_index _ _ _ _ (column_bool_index _ m1 _ _ Hy)).
    unfold m1, m2. rewrite Ey at 1. now rewrite !mask_filter_map. }
  assert (Htk : column (bool_index (bool_index d m1) m2) "Title"
                = Ok (map film_title kept)).
  { rewrite (column_bool_index _ _ _ _ (column_bool_index _ m1 _ _ Ht)).
    unfold m1, m2. rewrite Et at 1. now rewrite !mask_filter_map. }
  assert (Hempty : df_empty (bool_index (bool_index d m1) m2)
                   = (List.length kept =? 0)).
  { unfold df_empty, bool_index. cbn [nrows columns]. rewrite !length_map.
    unfold m2. rewrite count_mask_map. fold kept.
    destruct (columns d) eqn:Ec; [| now rewrite orb_false_r].
    unfold labels in Hmt. rewrite Ec in Hmt. discriminate. }
  rewrite Hempty.
  destruct (List.length kept =? 0) eqn:Hk; [now eexists |].
  rewrite Hy. cbn [obind]. unfold sort_values. rewrite Hyk. cbn [obind].
  assert (Hnum : forallb is_number (map film_year kept) = true).
  { rewrite forallb_map. apply forallb_forall. intros r Hr.
    rewrite forallb_forall in Hyears. apply Hyears.
    unfold kept in Hr. apply filter_In in Hr as [Hr _].
    now apply filter_In in Hr as [Hr _]. }
  assert (Horder : exists order,
             match series_dtype year with
             | Int64 => Ok (argsort_int (map int_of (map film_year kept)))
             | _ => keys <~ floats_of (map film_year kept) ;; Ok (argsort keys)
             end = Ok order
             /\ List.length order = List.length kept).
  { destruct (series_dtype year);
      try (rewrite (floats_of_numbers _ Hnum); cbn [obind]);
      eexists; (split; [reflexivity |]);
      now rewrite ?argsort_int_length, ?argsort_length, !length_map. }
  destruct Horder as [order [-> Hlo]]. cbn [obind].
  rewrite (column_sorted _ _ _ _ Htk). cbn [obind]. rewrite Ht. cbn [obind].
  assert (Hlen : List.length (take order (map film_title kept))
                 = List.length kept)
    by (unfold take; now rewrite length_map).
  destruct (take _ _) as [|earliest rest].
  - apply Nat.eqb_neq in Hk. simpl in Hlen. lia.
  - destruct (row_dtype d); [now eexists | now elim Hrow].
Qed.

(** On a canonical table whose rows have a settled dtype every answerer
    but the Plot Renderer returns, and leaves the state as it was. *)
Lemma answer_one_returns `{PyLibs} d q w :
  canonical d -> row_dtype d <> None -> matched_rule q <> Plot ->
  exists a, answer_one (Some d) q w = (Ok a, w).
Proof.
  intros Hcan Hrow Hq. unfold answer_one.
  destruct (matched_rule q); unfold lift, ret.
  - destruct (count_answer_returns d Hcan) as [a ->]. now exists a.
  - destruct (earliest_answer_returns d Hcan Hrow) as [a ->]. now exists a.
  - destruct (correlation_answer_returns d Hcan) as [a ->]. now exists a.
  - now elim Hq.
  - now eexists.
Qed.

Lemma for_each_returns `{PyLibs} d qs w :
  canonical d -> row_dtype d <> None ->
  (forall q, In q qs -> matched_rule q <> Plot) ->
  exists ys, for_each (answer_one (Some d)) qs w = (Ok ys, w)
             /\ List.length ys = List.length qs.
Proof.
  intros Hcan Hrow. induction qs as [|q qs IH]; intros Hq; [now exists [] |].
  destruct (answer_one_returns d q w Hcan Hrow (Hq q (or_introl eq_refl)))
    as [a Ha].
  destruct IH as [ys [Hys Hlen]]; [intros q' Hq'; apply Hq; now right |].
  exists (a :: ys). cbn [for_each]. unfold bind. rewrite Ha, Hys.
  split; [reflexivity | simpl; now rewrite Hlen].
Qed.

(** X8.  Only the chart can fail.  For a well-formed table whose trimmed labels
    are distinct and which has a gross column, [answer_questions] returns
    one answer per question as long as no question asks for the
    scatterplot, and no figure is opened. *)
Theorem answers_without_plot `{PyLibs} (question_str : string) (l : loc)
        (d : DataFrame) (w : world) :
  nth_error (heap w) l = Some d ->
  wf d -> NoDup (map strip (labels d)) ->
  existsb (fun a => mem a (map strip (labels d))) gross_aliases = true ->
  (forall q, In q (segment_questions question_str) -> matched_rule q <> Plot) ->
  exists answers w',
    answer_questions question_str (Some l) w = (Ok answers, w')
    /\ List.length answers = List.length (segment_questions question_str)
    /\ figures w' = figures w.
Proof.
  intros Hd Hw Hn Hgross Hq. unfold answer_questions.
  destruct (df_empty d) eqn:He.
  { exists (map null_answer (segment_questions question_str)), w.
    unfold bind at 1. rewrite normalize_unfold. unfold bind at 1, deref at 1.
    rewrite Hd, He. unfold ret at 1. unfold bind at 1. cbn [deref_opt ret].
    rewrite for_each_null_answers, length_map. now repeat split. }
  destruct (normalize_run l d w Hd He) as [pre [x [E Hx]]].
  destruct (normalized_returns d Hn) as [o Ho]. rewrite Ho in E.
  specialize (Hx o Ho). subst x.
  assert (Hmg : mem "Gross" (labels o) = true)
    by (destruct (normalized_gross d o Ho) as [-> _]; exact Hgross).
  assert (Hcan : canonical o)
    by now apply (normalized_canonical_iff d o Hw Hn Ho).
  assert (Hrow : row_dtype o <> None).
  { destruct (normalized_gross d o Ho) as [_ Hg].
    destruct (Hg Hmg) as [gross [_ [Hin [Hne Hall]]]].
    destruct (df_getitem o "GrossNum") as [|s ss] eqn:Es; [now elim Hne |].
    assert (Hs : s = map (fun x => PFloat (gross_num_of_text (py_str x))) gross)
      by (apply Hall; now left).
    assert (Hlen : List.length gross = nrows d).
    { apply wf_cells in Hw. rewrite Forall_forall in Hw. now apply Hw. }
    apply (row_dtype_settled o "GrossNum" s);
      [apply getitem_In; rewrite Es; now left | reflexivity |].
    unfold df_empty in He. apply orb_false_iff in He as [He _].
    apply Nat.eqb_neq in He.
    destruct gross as [|x gross]; [simpl in Hlen; lia |].
    rewrite Hs. apply series_dtype_float; [| reflexivity].
    apply forallb_forall. intros y Hy. apply in_map_iff in Hy as [z [<- _]].
    reflexivity. }
  set (w1 := {| heap := (heap w ++ pre) ++ [o]; figures := figures w |}) in *.
  destruct (for_each_returns o (segment_questions question_str) w1 Hcan Hrow Hq)
    as [ys [Hys Hlen]].
  exists ys, w1. unfold bind at 1. rewrite E. unfold bind at 1.
  unfold deref_opt, bind at 1, deref at 1, ret at 1. unfold w1 at 1. cbn [heap].
  rewrite nth_error_last. fold w1. rewrite Hys. now repeat split.
Qed.

Lemma answers_without_plot_witness :
  exists answers w',
    @answer_questions sample_libs "Which is the earliest film above 1.5 bn?"
      (Some 0) films_world = (Ok answers, w')
    /\ List.length answers = 1.
Proof.
  destruct (@answers_without_plot sample_libs
              "Which is the earliest film above 1.5 bn?" 0 films films_world
              eq_refl)
    as [answers [w' [Hrun [Hlen _]]]].
  - unfold wf, films. cbn [columns nrows]. repeat constructor.
  - vm_compute. repeat constructor; cbn; intuition discriminate.
  - reflexivity.
  - intros q [<- | []]. vm_compute. discriminate.
  - exists answers, w'. split; [exact Hrun | exact Hlen].
Defined.

(** * The links of a text *)

Lemma strip_prefix_iff p : forall s r,
  strip_prefix p s = Some r <-> s = (p ++ r)%string.
Proof.
  induction p as [|a p IH]; intros s r; simpl.
  - split; [now intros [= ->] | now intros ->].
  - destruct s as [|b s]; [split; discriminate |].
    destruct (Ascii.eqb_spec a b) as [-> | Hab].
    + rewrite IH. split; [now intros -> | now intros [= ->]].
    + split; [discriminate | intros [= -> _]; now elim Hab].
Qed.

Lemma span_nonspace_spec s :
  s = (fst (span_nonspace s) ++ snd (span_nonspace s))%string
  /\ forall_chars nonspace (fst (span_nonspace s)) = true
  /\ at_boundary (snd (span_nonspace s)).
Proof.
  induction s as [|c s [IH1 [IH2 IH3]]]; [now repeat split |].
  cbn [span_nonspace]. destruct (is_space c) eqn:Hc.
  - cbn [fst snd]. repeat split. exact Hc.
  - destruct (span_nonspace s) as [u r]. cbn [fst snd] in *.
    repeat split; [simpl; now f_equal | | exact IH3].
    cbn [forall_chars]. unfold nonspace at 1. now rewrite Hc.
Qed.

Lemma span_nonspace_app body : forall tail,
  forall_chars nonspace body = true -> at_boundary tail ->
  span_nonspace (body ++ tail) = (body, tail).
Proof.
  induction body as [|c body IH]; intros tail Hb Ht.
  - destruct tail as [|c tail]; [reflexivity |]. simpl in *. now rewrite Ht.
  - cbn [forall_chars] in Hb. apply andb_true_iff in Hb as [Hc Hb].
    unfold nonspace in Hc. apply negb_true_iff in Hc.
    simpl. now rewrite Hc, (IH tail Hb Ht).
Qed.

Lemma url_body_spec scheme r u :
  url_body scheme r = Some u ->
  exists body, body <> EmptyString /\ forall_chars nonspace body = true
               /\ u = (scheme ++ "://" ++ body)%string
               /\ exists tail, r = ("://" ++ body ++ tail)%string
                               /\ at_boundary tail.
Proof.
  unfold url_body. destruct (strip_prefix "://" r) as [r' |] eqn:Hp;
    [| discriminate].
  apply strip_prefix_iff in Hp. destruct (span_nonspace_spec r') as [H1 [H2 H3]].
  destruct (fst (span_nonspace r')) as [|c body] eqn:Hb; [discriminate |].
  intros [= <-]. exists (String c body).
  repeat split; [discriminate | exact H2 |].
  exists (snd (span_nonspace r')). split; [| exact H3]. now rewrite Hp, H1 at 1.
Qed.

Lemma string_app_assoc (a b c : string) : ((a ++ b) ++ c = a ++ (b ++ c))%string.
Proof. induction a as [|x a IH]; simpl; [reflexivity | now rewrite IH]. Qed.

(** A match of the pattern is a URL at the start of the text, and it ends
    at white space or at the end of the text. *)
Lemma url_at_spec s u :
  url_at s = Some u ->
  is_url u /\ exists tail, s = (u ++ tail)%string /\ at_boundary tail.
Proof.
  unfold url_at. destruct (strip_prefix "http" s) as [r |] eqn:Hp; [| discriminate].
  apply strip_prefix_iff in Hp.
  assert (Hs : forall scheme r',
             (scheme = "http" \/ scheme = "https") ->
             s = (scheme ++ r')%string ->
             url_body scheme r' = Some u ->
             is_url u /\ exists tail, s = (u ++ tail)%string /\ at_boundary tail).
  { intros scheme r' Hsch Hsr Hb.
    destruct (url_body_spec _ _ _ Hb) as [body [Hne [Hns [Hu [tail [Hr Ht]]]]]].
    split; [now exists scheme, body |].
    exists tail. split; [| exact Ht]. rewrite Hsr, Hr, Hu.
    now rewrite !string_app_assoc. }
  destruct (strip_prefix "s" r) as [r' |] eqn:Hp2.
  - apply strip_prefix_iff in Hp2.
    destruct (url_body "https" r') as [u' |] eqn:Hb.
    + intros [= <-]. apply (Hs "https" r'); [now right | | exact Hb].
      now rewrite Hp, Hp2.
    + intros Hb'. apply (Hs "http" r); [now left | exact Hp | exact Hb'].
  - intros Hb'. apply (Hs "http" r); [now left | exact Hp | exact Hb'].
Qed.

Lemma url_at_complete u tail :
  is_url u -> at_boundary tail -> url_at (u ++ tail) = Some u.
Proof.
  intros [scheme [body [Hsch [Hne [Hns ->]]]]] Ht.
  assert (Hb : forall sch, url_body sch ("://" ++ body ++ tail)
                           = Some (sch ++ "://" ++ body)%string).
  { intros sch. unfold url_body. cbn [strip_prefix append Ascii.eqb Bool.eqb].
    rewrite (span_nonspace_app body tail Hns Ht). cbn [fst].
    destruct body; [now elim Hne | reflexivity]. }
  destruct Hsch as [-> | ->]; unfold url_at.
  - cbn [strip_prefix append Ascii.eqb Bool.eqb]. apply Hb.
  - cbn [strip_prefix append Ascii.eqb Bool.eqb]. now rewrite Hb.
Qed.

Lemma isin_cons needle c hay :
  isin needle hay = true -> isin needle (String c hay) = true.
Proof. intros H. cbn [isin]. rewrite H. apply orb_true_r. Qed.

Lemma findall_urls_sound s : forall skip u,
  In u (findall_urls skip s) -> is_url u /\ isin u s = true.
Proof.
  induction s as [|c s IH]; intros skip u Hin; [now elim Hin |].
  cbn [findall_urls] in Hin. destruct skip as [|k].
  - destruct (url_at (String c s)) as [u0 |] eqn:Hu.
    + destruct Hin as [<- | Hin].
      * destruct (url_at_spec _ _ Hu) as [Hurl [tail [Hs _]]].
        split; [exact Hurl |]. apply isin_iff. exists EmptyString, tail.
        exact Hs.
      * destruct (IH _ _ Hin) as [H1 H2]. split; [exact H1 | now apply isin_cons].
    + destruct (IH _ _ Hin) as [H1 H2]. split; [exact H1 | now apply isin_cons].
  - destruct (IH _ _ Hin) as [H1 H2]. split; [exact H1 | now apply isin_cons].
Qed.

Lemma findall_urls_skip v : forall s,
  findall_urls (String.length v) (v ++ s) = findall_urls 0 s.
Proof. induction v as [|c v IH]; intros s; [reflexivity | apply IH]. Qed.

Lemma is_url_no_space u : is_url u -> forall_chars nonspace u = true.
Proof.
  intros [scheme [body [Hsch [_ [Hns ->]]]]].
  destruct Hsch as [-> | ->]; exact Hns.
Qed.

Lemma is_url_length u : is_url u -> 8 <= String.length u.
Proof.
  intros [scheme [body [Hsch [Hne [_ ->]]]]].
  destruct body; [now elim Hne |].
  destruct Hsch as [-> | ->]; simpl; lia.
Qed.

(** X9.  Every URL [extract_urls] reports stands in the text, starts with
    [http://] or [https://], goes on with one character at least and holds
    no white space. *)
Theorem extract_urls_sound (text : option string) (u : string) :
  In u (extract_urls text) ->
  is_url u
  /\ forall_chars nonspace u = true
  /\ 8 <= String.length u
  /\ exists t, text = Some t /\ isin u t = true.
Proof.
  unfold extract_urls. intros Hin.
  destruct text as [t |]; [| now elim Hin].
  destruct (findall_urls_sound _ _ _ Hin) as [Hurl Hisin].
  repeat split; [exact Hurl | now apply is_url_no_space | now apply is_url_length |].
  now exists t.
Qed.

Lemma extract_urls_sound_witness :
  In "https://en.wikipedia.org/wiki/Film"
     (extract_urls (Some "See https://en.wikipedia.org/wiki/Film for the data"))
  /\ is_url "https://en.wikipedia.org/wiki/Film".
Proof.
  assert (Hin : In "https://en.wikipedia.org/wiki/Film"
                  (extract_urls (Some "See https://en.wikipedia.org/wiki/Film for the data")))
    by (left; reflexivity).
  split; [exact Hin |]. exact (proj1 (extract_urls_sound _ _ Hin)).
Defined.

(** X10.  The scan, position by position.  Where the characters up to the
    next white space (or to the end of the text) make a URL, that URL is
    reported whole, whatever its last characters are, and the scan goes on
    behind it; at any other position the scan moves one character on; and
    the empty text has no URL.  These equations leave no choice: a
    function that satisfies them is [extract_urls]. *)
Theorem extract_urls_scan :
  (extract_urls (Some EmptyString) = []
   /\ (forall u tail,
         is_url u -> at_boundary tail ->
         extract_urls (Some (u ++ tail)%string) = u :: extract_urls (Some tail))
   /\ (forall c rest,
         (forall u tail,
             String c rest = (u ++ tail)%string -> is_url u ->
             at_boundary tail -> False) ->
         extract_urls (Some (String c rest)) = extract_urls (Some rest)))
  /\ forall g : string -> list string,
       g EmptyString = [] ->
       (forall u tail,
           is_url u -> at_boundary tail -> g (u ++ tail)%string = u :: g tail) ->
       (forall c rest,
           (forall u tail,
               String c rest = (u ++ tail)%string -> is_url u ->
               at_boundary tail -> False) ->
           g (String c rest) = g rest) ->
       forall text, g text = extract_urls (Some text).
Proof.
  assert (Hurl : forall u tail,
             is_url u -> at_boundary tail ->
             extract_urls (Some (u ++ tail)%string)
             = u :: extract_urls (Some tail)).
  { intros u tail Hu Ht. unfold extract_urls.
    pose proof (url_at_complete u tail Hu Ht) as Hat.
    pose proof (is_url_length u Hu) as Hlen.
    destruct u as [|c u]; [simpl in Hlen; lia |].
    change (String c u ++ tail)%string with (String c (u ++ tail)) in *.
    cbn [findall_urls]. rewrite Hat. f_equal.
    replace (String.length (String c u) - 1) with (String.length u)
      by (cbn [String.length]; lia).
    apply findall_urls_skip. }
  assert (Hskip : forall c rest,
             (forall u tail,
                 String c rest = (u ++ tail)%string -> is_url u ->
                 at_boundary tail -> False) ->
             extract_urls (Some (String c rest)) = extract_urls (Some rest)).
  { intros c rest Hno. unfold extract_urls. cbn [findall_urls].
    destruct (url_at (String c rest)) as [u |] eqn:Hat; [| reflexivity].
    destruct (url_at_spec _ _ Hat) as [Hu [tail [Hs Ht]]].
    now elim (Hno u tail Hs Hu Ht). }
  split; [split; [reflexivity | split; [exact Hurl | exact Hskip]] |].
  intros g Hg0 Hgurl Hgskip text.
  remember (String.length text) as n eqn:Hn.
  revert text Hn. induction n as [n IH] using lt_wf_ind. intros text Hn.
  destruct text as [|c rest]; [now rewrite Hg0 |].
  destruct (url_at (String c rest)) as [u |] eqn:Hat.
  - destruct (url_at_spec _ _ Hat) as [Hu [tail [Hs Ht]]].
    rewrite Hs, (Hgurl u tail Hu Ht), (Hurl u tail Hu Ht). f_equal.
    apply (IH (String.length tail)); [| reflexivity].
    rewrite Hn, Hs, string_length_app.
    pose proof (is_url_length u Hu). lia.
  - assert (Hno : forall u tail,
               String c rest = (u ++ tail)%string -> is_url u ->
               at_boundary tail -> False).
    { intros u tail Hs Hu Ht.
      rewrite Hs, (url_at_complete u tail Hu Ht) in Hat. discriminate. }
    rewrite (Hgskip c rest Hno), (Hskip c rest Hno).
    apply (IH (String.length rest)); [| reflexivity].
    rewrite Hn. cbn [String.length]. lia.
Qed.

Lemma extract_urls_scan_witness :
  extract_urls (Some " http://a.org/x. Then 2.") = ["http://a.org/x."].
Proof.
  destruct extract_urls_scan as [[_ [Hurl Hskip]] _].
  rewrite (Hskip " "%char "http://a.org/x. Then 2.").
  - apply (Hurl "http://a.org/x." " Then 2.").
    + exists "http", "a.org/x.". repeat split; [now left | discriminate].
    + reflexivity.
  - intros u tail E [scheme [body [[-> | ->] [_ [_ ->]]]]] _; discriminate E.
Defined.

(** * The table behind a link *)

Lemma mem_rename_gone l old new :
  old <> new ->
  mem old (map (fun c => if String.eqb c old then new else c) l) = false.
Proof.
  intros Hne. induction l as [|c l IH]; [reflexivity |].
  cbn [map mem existsb]. fold (mem old (map (fun c => if String.eqb c old then new else c) l)).
  rewrite IH, orb_false_r.
  destruct (String.eqb_spec c old) as [-> | Hc]; apply String.eqb_neq; congruence.
Qed.

Lemma clean_columns_spec first :
  let d := scraping.clean_columns first in
  let names := map strip (labels first) in
  nrows d = nrows first
  /\ map snd (columns d) = map snd (columns first)
  /\ labels d
     = (if mem "Film" names && negb (mem "Title" names)
        then map (fun l => if String.eqb l "Film" then "Title" else l) names
        else names)
  /\ stripped d
  /\ (mem "Film" (labels d) = true -> mem "Title" (labels d) = true).
Proof.
  cbv zeta. unfold scraping.clean_columns. fold (trimmed first).
  pose proof (stripped_trimmed first) as Hs.
  pose proof (cells_trimmed first) as Hc.
  pose proof (labels_trimmed first) as Hl.
  assert (Hn : nrows (trimmed first) = nrows first) by reflexivity.
  rewrite <- Hl.
  destruct (mem "Film" (labels (trimmed first))) eqn:Hf;
    destruct (mem "Title" (labels (trimmed first))) eqn:Ht; cbn [andb negb].
  2:{ split; [reflexivity |]. split; [now rewrite cells_rename |].
      split; [apply labels_rename |]. split.
      - unfold stripped in *. rewrite labels_rename. apply Forall_map.
        eapply Forall_impl; [| exact Hs]. intros l Hl'. cbv beta.
        now destruct (String.eqb l "Film").
      - rewrite labels_rename, mem_rename_gone; discriminate. }
  all: split; [exact Hn |]; split; [exact Hc |]; split; [reflexivity |];
    split; [exact Hs | first [intros _; exact Ht | congruence]].
Qed.

(** X11.  A table [scrape_wikipedia_table] returns is the first table
    [pd.read_html] found: the same rows and cells, under the trimmed labels
    of that table, [Film] replaced by [Title] when the trimmed labels have
    [Film] and no [Title].  So its labels are trimmed, it has a [Film]
    label only beside a [Title] label, and the normalizer's own trimming
    leaves it as it is. *)
Theorem scraped_table_clean `{Web} (url : string) (d : DataFrame) :
  scraping.scrape_wikipedia_table url = Ok (Some d) ->
  (exists page table first others,
      http_get url = Some page /\ find_wikitable page = Some table
      /\ read_html table = Ok (first :: others)
      /\ nrows d = nrows first
      /\ map snd (columns d) = map snd (columns first)
      /\ let names := map strip (labels first) in
         labels d
         = if mem "Film" names && negb (mem "Title" names)
           then map (fun l => if String.eqb l "Film" then "Title" else l) names
           else names)
  /\ stripped d
  /\ (mem "Film" (labels d) = true -> mem "Title" (labels d) = true)
  /\ trimmed d = d.
Proof.
  unfold scraping.scrape_wikipedia_table. intros Hrun.
  destruct (http_get url) as [page |] eqn:Hg; [| discriminate].
  destruct (find_wikitable page) as [table |] eqn:Hf; [| discriminate].
  destruct (read_html table) as [[|first others] | [] |] eqn:Hr; try discriminate.
  injection Hrun as <-.
  destruct (clean_columns_spec first) as [H1 [H2 [H3 [H4 H5]]]].
  split; [exists page, table, first, others; now repeat split |].
  split; [exact H4 |]. split; [exact H5 | now apply trimmed_stripped].
Qed.

Lemma scraped_table_clean_witness :
  exists d,
    @scraping.scrape_wikipedia_table sample_web films_url = Ok (Some d)
    /\ labels d = ["Rank"; "Title"; "Year"]
    /\ trimmed d = d.
Proof.
  eexists. split; [reflexivity |]. split; [reflexivity |].
  exact (proj2 (proj2 (proj2
           (@scraped_table_clean sample_web films_url _ eq_refl)))).
Defined.

(** X12.  [scrape_wikipedia_table] gives no table when the request fails, when
    the page has no wikitable, and when [pd.read_html] raises [ValueError]
    or finds nothing; it never raises [ValueError] itself, and any other
    exception of [pd.read_html] leaves it. *)
Theorem scrape_outcomes `{Web} (url : string) :
  scraping.scrape_wikipedia_table url <> Raise ValueError
  /\ (scraping.scrape_wikipedia_table url = Ok None <->
      http_get url = None
      \/ exists page,
           http_get url = Some page
           /\ (find_wikitable page = None
               \/ exists table,
                    find_wikitable page = Some table
                    /\ (read_html table = Raise ValueError
                        \/ read_html table = Ok [])))
  /\ (forall e,
        scraping.scrape_wikipedia_table url = Raise e <->
        exists page table,
          http_get url = Some page /\ find_wikitable page = Some table
          /\ read_html table = Raise e /\ e <> ValueError).
Proof.
  unfold scraping.scrape_wikipedia_table.
  destruct (http_get url) as [page |] eqn:Hg.
  2:{ split; [discriminate |]. split; [split; [now left | reflexivity] |].
      intros e. split; [discriminate | intros [p [t [Hp _]]]; discriminate]. }
  assert (Hpage : forall P : string -> Prop,
             (exists p, Some page = Some p /\ P p) <-> P page).
  { intros P. split; [intros [p [[= <-] HP]]; exact HP | intros HP; now exists page]. }
  destruct (find_wikitable page) as [table |] eqn:Hf.
  2:{ split; [discriminate |]. split.
      - split; [| reflexivity]. intros _. right. apply Hpage. now left.
      - intros e. split; [discriminate |].
        intros [p [t [[= <-] [Ht _]]]]. congruence. }
  assert (Htable : forall P : string -> Prop,
             (exists t, find_wikitable page = Some t /\ P t) <-> P table).
  { intros P. rewrite Hf. split;
      [intros [t [[= <-] HP]]; exact HP | intros HP; now exists table]. }
  assert (Hnone : forall Q : string -> Prop,
             (Some page = None
              \/ exists p, Some page = Some p
                   /\ (find_wikitable p = None
                       \/ exists t, find_wikitable p = Some t /\ Q t))
             <-> Q table).
  { intros Q. rewrite Hpage, Htable. rewrite Hf.
    split; [intros [Hx | [Hx | HQ]]; try discriminate; exact HQ | intros HQ; right; now right]. }
  assert (Hraise : forall e,
             (exists p t, Some page = Some p /\ find_wikitable p = Some t
                          /\ read_html t = Raise e /\ e <> ValueError)
             <-> read_html table = Raise e /\ e <> ValueError).
  { intros e. split.
    - intros [p [t [[= <-] [Ht HP]]]]. rewrite Hf in Ht. injection Ht as <-. exact HP.
    - intros HP. now exists page, table. }
  split; [| split; [rewrite Hnone | intros e; rewrite Hraise]].
  all: destruct (read_html table) as [[|first others] | [] |]; try discriminate.
  all: split; try discriminate; try reflexivity.
  all: try (intros [Hx | Hx]; discriminate).
  all: try (intros [Hx _]; discriminate).
  all: try (intros _; now right).
  all: try (intros _; now left).
  all: try (intros [[= <-] Hne]; reflexivity).
  all: try (intros [= <-]; split; [reflexivity | discriminate]).
  all: try (intros [_ Hne]; now elim Hne).
  intros [[= <-] Hne]. now elim Hne.
Qed.

(** * The scraper of data_tools.py *)

Lemma filter_chars_twice p q s :
  filter_chars q (filter_chars p s) = filter_chars (fun c => p c && q c) s.
Proof.
  induction s as [|c s IH]; [reflexivity |]. simpl.
  destruct (p c); simpl; [destruct (q c); now rewrite IH | exact IH].
Qed.

Lemma filter_chars_ext p q s :
  (forall c, p c = q c) -> filter_chars p s = filter_chars q s.
Proof.
  intros Hpq. induction s as [|c s IH]; [reflexivity |]. simpl.
  now rewrite Hpq, IH.
Qed.

(** X13.  The two modules clean a gross the same way: what [parse_gross] hands
    to [float] is what data_tools.py hands to [pd.to_numeric], the digits
    and dots of the text of the cell.  analysis.py then divides by 1e9;
    data_tools.py keeps the number as it is written. *)
Theorem gross_cleaning_agrees `{PyLibs} (x : pyval) :
  let t := filter_chars (fun c => is_digit c || Ascii.eqb c ".") (py_str x) in
  remove_commas (re_sub_non_numeric (py_str x)) = t
  /\ to_numeric (data_tools.digits_and_dots x) = PFloat (to_numeric_text t)
  /\ parse_gross x
     = PFloat match py_float t with
              | Some v => (v / 1e9)%float
              | None => nan
              end.
Proof.
  cbv zeta.
  assert (Ht : remove_commas (re_sub_non_numeric (py_str x))
               = filter_chars (fun c => is_digit c || Ascii.eqb c ".") (py_str x)).
  { unfold remove_commas, re_sub_non_numeric. rewrite filter_chars_twice.
    apply filter_chars_ext. intros c.
    destruct (Ascii.eqb_spec c ",") as [-> | Hc]; [reflexivity |].
    now rewrite orb_false_r, andb_true_r. }
  split; [exact Ht |]. split; [reflexivity |].
  unfold parse_gross. rewrite Ht. now destruct (py_float _).
Qed.

Lemma clean_gross_numbers `{PyLibs} df df' :
  data_tools.clean_gross df = Ok df' ->
  mem "Worldwide gross" (labels df') = true ->
  exists s, column df' "Worldwide gross" = Ok s /\ forallb is_number s = true.
Proof.
  unfold data_tools.clean_gross.
  destruct (mem "Worldwide gross" (labels df)) eqn:Hm.
  - destruct (df_getitem df "Worldwide gross") as [|g [|g' gs]]; try discriminate.
    cbn [obind].
    set (df1 := df_setitem df "Worldwide gross" (map data_tools.digits_and_dots g)).
    assert (Hm1 : mem "Worldwide gross" (labels df1) = true)
      by now apply mem_setitem_present.
    intros Hrun.
    assert (Hw : with_numeric "Worldwide gross" df1 = Ok df').
    { unfold with_numeric. rewrite Hm1. exact Hrun. }
    now apply (with_numeric_numbers _ _ _ Hw).
  - intros [= <-]. congruence.
Qed.

(** X14.  A table the scraper of data_tools.py returns holds numbers, possibly
    missing, under [Worldwide gross], [Year], [Peak] and [Rank]. *)
Theorem scraped_columns_numeric `{PyLibs} `{Web} (url : string) (d : DataFrame) :
  data_tools.scrape_wikipedia_table url = Ok (Some d) ->
  forall c, In c ["Worldwide gross"; "Year"; "Peak"; "Rank"] ->
            mem c (labels d) = true ->
            exists s, column d c = Ok s /\ forallb is_number s = true.
Proof.
  unfold data_tools.scrape_wikipedia_table.
  destruct (http_get url) as [page |]; [| discriminate].
  destruct (find_wikitable page) as [table |]; [| discriminate].
  destruct (read_html table) as [[|first others] | e |]; cbn [obind];
    try discriminate.
  set (df0 := data_tools.df_rename_columns _ _).
  destruct (data_tools.clean_gross df0) as [df1 | e |] eqn:E1; cbn [obind];
    try discriminate.
  assert (Hloop : forall df,
             data_tools.clean_numbers ["Year"; "Peak"; "Rank"] df
             = (a <~ with_numeric "Year" df ;;
                b <~ with_numeric "Peak" a ;;
                c <~ with_numeric "Rank" b ;;
                Ok c)) by reflexivity.
  rewrite Hloop.
  destruct (with_numeric "Year" df1) as [df2 | e |] eqn:E2; cbn [obind];
    try discriminate.
  destruct (with_numeric "Peak" df2) as [df3 | e |] eqn:E3; cbn [obind];
    try discriminate.
  destruct (with_numeric "Rank" df3) as [df4 | e |] eqn:E4; cbn [obind];
    try discriminate.
  intros [= <-] c Hc.
  pose proof (clean_gross_numbers _ _ E1) as Hg.
  assert (Hkeep : forall c c' o o',
             c <> c' -> with_numeric c' o = Ok o' ->
             (mem c (labels o) = true ->
              exists s, column o c = Ok s /\ forallb is_number s = true) ->
             mem c (labels o') = true ->
             exists s, column o' c = Ok s /\ forallb is_number s = true)
    by (intros; eapply with_numeric_numbers_kept; eassumption).
  destruct Hc as [<- | [<- | [<- | [<- | []]]]].
  - apply (Hkeep _ "Rank" df3); [discriminate | exact E4 |].
    apply (Hkeep _ "Peak" df2); [discriminate | exact E3 |].
    apply (Hkeep _ "Year" df1); [discriminate | exact E2 |].
    exact Hg.
  - apply (Hkeep _ "Rank" df3); [discriminate | exact E4 |].
    apply (Hkeep _ "Peak" df2); [discriminate | exact E3 |].
    apply (with_numeric_numbers _ _ _ E2).
  - apply (Hkeep _ "Rank" df3); [discriminate | exact E4 |].
    apply (with_numeric_numbers _ _ _ E3).
  - apply (with_numeric_numbers _ _ _ E4).
Qed.

Lemma scraped_columns_numeric_witness :
  exists d s,
    @data_tools.scrape_wikipedia_table sample_libs sample_web films_url
    = Ok (Some d)
    /\ column d "Year" = Ok s /\ forallb is_number s = true.
Proof.
  eexists.
  destruct (@scraped_columns_numeric sample_libs sample_web films_url _ eq_refl
              "Year" ltac:(right; left; reflexivity) eq_refl)
    as [s [Hs Hn]].
  exists s. split; [reflexivity |]. now split.
Defined.

(** X15.  When [pd.read_html] raises [ValueError], as it does on a table it
    cannot read, the scraper of data_tools.py lets the exception out,
    where the scraper of scraping.py returns no table. *)
Theorem read_html_failure_escapes `{PyLibs} `{Web} (url page table : string) :
  http_get url = Some page -> find_wikitable page = Some table ->
  read_html table = Raise ValueError ->
  data_tools.scrape_wikipedia_table url = Raise ValueError
  /\ scraping.scrape_wikipedia_table url = Ok None.
Proof.
  intros Hg Hf Hr.
  unfold data_tools.scrape_wikipedia_table, scraping.scrape_wikipedia_table.
  rewrite Hg, Hf, Hr. now split.
Qed.

Lemma read_html_failure_escapes_witness :
  @data_tools.scrape_wikipedia_table sample_libs sample_web broken_url
  = Raise ValueError
  /\ @scraping.scrape_wikipedia_table sample_web broken_url = Ok None.
Proof.
  apply (@read_html_failure_escapes sample_libs sample_web broken_url
           "broken page" "broken table"); reflexivity.
Defined.

(** * The endpoint *)

Lemma load_csv_skip `{Web} acc f : loadable f = false -> load_csv acc f = acc.
Proof.
  unfold loadable, csv_named, load_csv.
  destruct (filename f) as [name |]; [| reflexivity].
  destruct (endswith ".csv" (lower name)); [| reflexivity].
  now destruct (read_csv (content f)).
Qed.

Lemma load_csv_set `{Web} acc f :
  loadable f = true ->
  exists name d,
    filename f = Some name /\ read_csv (content f) = Some d
    /\ load_csv acc f = dict_set acc name d.
Proof.
  unfold loadable, csv_named, load_csv.
  destruct (filename f) as [name |]; [| discriminate].
  destruct (endswith ".csv" (lower name)); [| discriminate].
  destruct (read_csv (content f)) as [d |]; [| discriminate].
  intros _. now exists name, d.
Qed.

Lemma find_snoc {A} (p : A -> bool) l x :
  find p (l ++ [x])
  = match find p l with
    | Some y => Some y
    | None => if p x then Some x else None
    end.
Proof.
  induction l as [|a l IH]; simpl; [reflexivity |].
  now destruct (p a).
Qed.

(** Once [dataframes] has a first key, the key stays first, and its table
    is the one read from the last loadable upload of that name. *)
Lemma load_csvs_head `{Web} fs : forall k v acc,
  exists acc',
    fold_left load_csv fs ((k, v) :: acc)
    = (k, match find (fun g => loadable g && named k g) (rev fs) with
          | Some g => match read_csv (content g) with Some d => d | None => v end
          | None => v
          end) :: acc'.
Proof.
  induction fs as [|f fs IH] using rev_ind; intros k v acc.
  - now exists acc.
  - rewrite fold_left_app, rev_app_distr. cbn [fold_left rev app find].
    destruct (IH k v acc) as [acc1 ->].
    destruct (loadable f) eqn:Hl.
    + destruct (load_csv_set ((k, match find (fun g => loadable g && named k g) (rev fs) with
          | Some g => match read_csv (content g) with Some d => d | None => v end
          | None => v
          end) :: acc1) f Hl) as [name [d [Hn [Hr ->]]]].
      assert (Hnamed : named k f = String.eqb k name)
        by (unfold named; now rewrite Hn).
      cbn [dict_set andb]. rewrite Hnamed.
      destruct (String.eqb k name); [rewrite Hr |]; eexists; reflexivity.
    + rewrite load_csv_skip by exact Hl. cbn [andb]. now exists acc1.
Qed.

(** X16.  [dataframes] is empty exactly when no upload is loadable.  Otherwise
    its first table, the one the endpoint falls back on, goes under the
    name of the first loadable upload and is the table read from the last
    loadable upload of that name. *)
Theorem first_uploaded_table `{Web} (fs : list upload) :
  (find loadable fs = None -> load_csvs (Some fs) = [])
  /\ forall f, find loadable fs = Some f ->
       exists name g d rest,
         filename f = Some name
         /\ find (fun g => loadable g && named name g) (rev fs) = Some g
         /\ read_csv (content g) = Some d
         /\ load_csvs (Some fs) = (name, d) :: rest.
Proof.
  unfold load_csvs. induction fs as [|f0 fs [IH1 IH2]]; [split; [reflexivity | discriminate] |].
  cbn [find fold_left rev]. destruct (loadable f0) eqn:Hl.
  - split; [discriminate |]. intros f [= <-].
    destruct (load_csv_set [] f0 Hl) as [name [d0 [Hn [Hr ->]]]].
    cbn [dict_set]. destruct (load_csvs_head fs name d0 []) as [rest ->].
    assert (Hf0 : (loadable f0 && named name f0) = true).
    { rewrite Hl. unfold named. rewrite Hn. cbn [andb]. apply String.eqb_refl. }
    destruct (find (fun g => loadable g && named name g) (rev fs)) as [g |] eqn:Hg.
    + pose proof Hg as Hg'.
      apply find_some in Hg' as [_ Hg']. apply andb_true_iff in Hg' as [Hlg _].
      destruct (load_csv_set [] g Hlg) as [n' [d [_ [Hrg _]]]].
      exists name, g, d, rest. rewrite find_snoc, Hg, Hrg. now repeat split.
    + exists name, f0, d0, rest. rewrite find_snoc, Hg, Hf0. now repeat split.
  - rewrite load_csv_skip by exact Hl. split; [exact IH1 |].
    intros f Hf. destruct (IH2 f Hf) as [name [g [d [rest [Hn [Hg [Hr Hload]]]]]]].
    exists name, g, d, rest. rewrite find_snoc, Hg. now repeat split.
Qed.

Lemma first_uploaded_table_witness :
  exists rest,
    @load_csvs sample_web
      (Some [ {| filename := Some "notes.txt"; content := [] |};
              ranks_upload "Ranks.CSV";
              {| filename := None; content := [] |} ])
    = ("Ranks.CSV", ranks123) :: rest.
Proof.
  destruct (proj2 (@first_uploaded_table sample_web
                     [ {| filename := Some "notes.txt"; content := [] |};
                       ranks_upload "Ranks.CSV";
                       {| filename := None; content := [] |} ])
              (ranks_upload "Ranks.CSV") eq_refl)
    as [name [g [d [rest [Hn [Hg [Hr Hload]]]]]]].
  injection Hn as <-. injection Hg as <-. injection Hr as <-.
  now exists rest.
Defined.

Lemma null_answers_compliant qs :
  forallb json_compliant (map null_answer qs) = true.
Proof.
  induction qs as [|q qs IH]; [reflexivity |].
  cbn [map forallb]. rewrite IH, andb_true_r.
  unfold null_answer. now destruct (matched_rule q).
Qed.

Lemma first_wiki_table_none `{Web} urls :
  (forall u, In u urls -> isin "wikipedia.org" u = false) ->
  first_wiki_table urls = Ok None.
Proof.
  induction urls as [|u urls IH]; intros Hno; [reflexivity |].
  cbn [first_wiki_table]. rewrite (Hno u (or_introl eq_refl)).
  apply IH. intros v Hv. apply Hno. now right.
Qed.

Lemma load_csvs_none `{Web} files :
  (forall fs f, files = Some fs -> In f fs -> loadable f = false) ->
  load_csvs files = [].
Proof.
  intros Hno. destruct files as [fs |]; [| reflexivity].
  unfold load_csvs. specialize (Hno fs).
  assert (Hall : forall f, In f fs -> loadable f = false)
    by (intros f; now apply Hno).
  clear Hno. generalize (@nil (string * DataFrame)) as acc.
  induction fs as [|f fs IH]; intros acc; [reflexivity |].
  cbn [fold_left]. rewrite load_csv_skip by (apply Hall; now left).
  apply IH. intros g Hg. apply Hall. now right.
Qed.

Lemma answer_questions_none `{PyLibs} question_str w :
  answer_questions question_str None w
  = (Ok (map null_answer (segment_questions question_str)), w).
Proof.
  unfold answer_questions, bind. cbn [_normalize_df deref_opt ret].
  now rewrite for_each_null_answers.
Qed.

(** X17.  With no link that mentions [wikipedia.org] in the questions and no
    loadable upload, the endpoint makes no request, raises nothing and
    leaves the state as it was: the response holds the default answer of
    every question. *)
Theorem analyze_without_data `{PyLibs} `{Web} (questions : list Byte.byte)
        (files : option (list upload)) (w : world) :
  let question_str := strip (decode_utf8 questions) in
  (forall u, In u (extract_urls (Some question_str)) ->
             isin "wikipedia.org" u = false) ->
  (forall fs f, files = Some fs -> In f fs -> loadable f = false) ->
  analyze_data questions files w
  = (Ok (map null_answer (segment_questions question_str)), w).
Proof.
  intros question_str Hurls Hfiles. unfold analyze_data. fold question_str.
  rewrite (first_wiki_table_none _ Hurls), (load_csvs_none _ Hfiles).
  unfold bind, lift, ret, df_to_use. cbv beta iota.
  rewrite answer_questions_none.
  unfold json_response. now rewrite null_answers_compliant.
Qed.

Lemma analyze_without_data_witness :
  @analyze_data sample_libs sample_web
    (list_byte_of_string "1. What is the correlation of rank and peak?")
    (Some [ {| filename := Some "notes.txt"; content := [] |} ])
    (no_figure [])
  = (Ok [AFloat 0], no_figure []).
Proof.
  apply (@analyze_without_data sample_libs sample_web).
  - intros u [].
  - intros fs f [= <-] [<- | []]. reflexivity.
Defined.




Lemma load_csvs_ext (W1 W2 : Web) files :
  (forall bs, @read_csv W1 bs = @read_csv W2 bs) ->
  @load_csvs W1 files = @load_csvs W2 files.
Proof.
  intros Hr. destruct files as [fs |]; [| reflexivity]. unfold load_csvs.
  generalize (@nil (string * DataFrame)) as acc.
  induction fs as [|f fs IH]; intros acc; [reflexivity |].
  cbn [fold_left]. rewrite <- IH. f_equal.
  unfold load_csv. now rewrite Hr.
Qed.

(** X19.  Without a link that mentions [wikipedia.org] the endpoint makes no
    request: what it returns depends on the decoder and the CSV reader
    only. *)
Theorem offline_without_wikipedia_link `{PyLibs} (W1 W2 : Web)
        (questions : list Byte.byte) (files : option (list upload)) (w : world) :
  @decode_utf8 W1 questions = @decode_utf8 W2 questions ->
  (forall bs, @read_csv W1 bs = @read_csv W2 bs) ->
  (forall u, In u (extract_urls (Some (strip (@decode_utf8 W1 questions)))) ->
             isin "wikipedia.org" u = false) ->
  @analyze_data _ W1 questions files w = @analyze_data _ W2 questions files w.
Proof.
  intros Hdec Hcsv Hurls. unfold analyze_data.
  rewrite <- Hdec, <- (load_csvs_ext W1 W2 files Hcsv).
  now rewrite (@first_wiki_table_none W1 _ Hurls), (@first_wiki_table_none W2 _ Hurls).
Qed.

Lemma offline_without_wikipedia_link_witness :
  @analyze_data sample_libs sample_web
    (list_byte_of_string "What is the correlation of rank and peak?")
    (Some [ranks_upload "ranks.csv"]) (no_figure [])
  = @analyze_data sample_libs offline_web
      (list_byte_of_string "What is the correlation of rank and peak?")
      (Some [ranks_upload "ranks.csv"]) (no_figure []).
Proof.
  apply (@offline_without_wikipedia_link sample_libs sample_web offline_web).
  - reflexivity.
  - reflexivity.
  - intros u Hu. vm_compute in Hu. destruct Hu.
Defined.
